(** * File-processing service: queue, worker and upload route

    A shallow embedding of [src/services/fileProcessor.js] and of the
    upload handler of [src/routes/files.js], with the properties of the
    service's specification stated over it.

    Layout: the digest ([Sha256], [Hex]), JavaScript values, the data
    of the service, the world it runs in ([World]) with the effect
    monad [M], the store and the queue clients, the service's own
    functions ([processFile], [processor], [initializeQueue],
    [initializeWorker], [addFileProcessingJob], [uploadHandler]), the
    queue engine the service configures ([Engine]), and then the
    properties. *)

From Stdlib Require Import ZArith List Ascii String Bool Lia.
From Stdlib.Strings Require Import Byte.
From stdpp Require Import base option gmap strings list fin_maps.

Open Scope Z_scope.

(* ===================================================================== *)
(** ** SHA-256 over 32-bit words held in [Z]                              *)
(* ===================================================================== *)

(** [createHash('sha256').update(buf).digest('hex')]: the digest is the
    FIPS 180-4 function; words are [Z] with the wrap-around at [2^32]
    written out. *)
Module Sha256.

Definition mask32 : Z := 0xFFFFFFFF.

Definition wrap (x : Z) : Z := Z.land x mask32.

Definition add32 (x y : Z) : Z := wrap (x + y).

Definition rotr (n x : Z) : Z :=
  wrap (Z.lor (Z.shiftr x n) (Z.shiftl x (32 - n))).

Definition shr (n x : Z) : Z := Z.shiftr x n.

Definition not32 (x : Z) : Z := Z.lxor x mask32.

Definition ch (x y z : Z) : Z :=
  Z.lxor (Z.land x y) (Z.land (not32 x) z).

Definition maj (x y z : Z) : Z :=
  Z.lxor (Z.lxor (Z.land x y) (Z.land x z)) (Z.land y z).

Definition bigSigma0 (x : Z) : Z :=
  Z.lxor (Z.lxor (rotr 2 x) (rotr 13 x)) (rotr 22 x).

Definition bigSigma1 (x : Z) : Z :=
  Z.lxor (Z.lxor (rotr 6 x) (rotr 11 x)) (rotr 25 x).

Definition smallSigma0 (x : Z) : Z :=
  Z.lxor (Z.lxor (rotr 7 x) (rotr 18 x)) (shr 3 x).

Definition smallSigma1 (x : Z) : Z :=
  Z.lxor (Z.lxor (rotr 17 x) (rotr 19 x)) (shr 10 x).

Definition roundConstants : list Z :=
  [ 0x428A2F98; 0x71374491; 0xB5C0FBCF; 0xE9B5DBA5;
    0x3956C25B; 0x59F111F1; 0x923F82A4; 0xAB1C5ED5;
    0xD807AA98; 0x12835B01; 0x243185BE; 0x550C7DC3;
    0x72BE5D74; 0x80DEB1FE; 0x9BDC06A7; 0xC19BF174;
    0xE49B69C1; 0xEFBE4786; 0x0FC19DC6; 0x240CA1CC;
    0x2DE92C6F; 0x4A7484AA; 0x5CB0A9DC; 0x76F988DA;
    0x983E5152; 0xA831C66D; 0xB00327C8; 0xBF597FC7;
    0xC6E00BF3; 0xD5A79147; 0x06CA6351; 0x14292967;
    0x27B70A85; 0x2E1B2138; 0x4D2C6DFC; 0x53380D13;
    0x650A7354; 0x766A0ABB; 0x81C2C92E; 0x92722C85;
    0xA2BFE8A1; 0xA81A664B; 0xC24B8B70; 0xC76C51A3;
    0xD192E819; 0xD6990624; 0xF40E3585; 0x106AA070;
    0x19A4C116; 0x1E376C08; 0x2748774C; 0x34B0BCB5;
    0x391C0CB3; 0x4ED8AA4A; 0x5B9CCA4F; 0x682E6FF3;
    0x748F82EE; 0x78A5636F; 0x84C87814; 0x8CC70208;
    0x90BEFFFA; 0xA4506CEB; 0xBEF9A3F7; 0xC67178F2 ].

(** The eight working words [a..h], also the chaining value. *)
Record Regs := mkRegs {
  ra : Z; rb : Z; rc : Z; rd : Z; re : Z; rf : Z; rg : Z; rh : Z
}.

Definition initialHash : Regs :=
  mkRegs 0x6A09E667 0xBB67AE85 0x3C6EF372 0xA54FF53A
         0x510E527F 0x9B05688C 0x1F83D9AB 0x5BE0CD19.

Definition byteZ (b : byte) : Z := Z.of_N (Byte.to_N b).

(** Padding: the bit [1], zeros up to 56 mod 64, the bit length on
    eight bytes, big-endian. *)
Definition zeroCount (len : Z) : Z := (55 - len) mod 64.

Definition lengthBytes (bits : Z) : list Z :=
  map (fun i => Z.land (Z.shiftr bits (8 * i)) 0xFF) [7; 6; 5; 4; 3; 2; 1; 0].

Definition pad (msg : list byte) : list Z :=
  let len := Z.of_nat (length msg) in
  map byteZ msg ++ [0x80] ++ repeat 0 (Z.to_nat (zeroCount len))
    ++ lengthBytes (8 * len).

(** Big-endian words of a byte list (a trailing partial word is dropped;
    the padded message has none). *)
Fixpoint wordsOf (bs : list Z) : list Z :=
  match bs with
  | b0 :: b1 :: b2 :: b3 :: rest =>
      Z.lor (Z.shiftl b0 24)
        (Z.lor (Z.shiftl b1 16) (Z.lor (Z.shiftl b2 8) b3))
      :: wordsOf rest
  | _ => []
  end.

(** Message schedule: [w] holds the words so far, newest first. *)
Definition nextScheduleWord (w : list Z) : Z :=
  add32 (add32 (smallSigma1 (nth 1 w 0)) (nth 6 w 0))
        (add32 (smallSigma0 (nth 14 w 0)) (nth 15 w 0)).

Fixpoint extendSchedule (n : nat) (w : list Z) : list Z :=
  match n with
  | O => w
  | S n' => extendSchedule n' (nextScheduleWord w :: w)
  end.

Definition schedule (block : list Z) : list Z :=
  rev (extendSchedule 48 (rev block)).

Definition round (r : Regs) (kw : Z * Z) : Regs :=
  let t1 := add32 (add32 (add32 (rh r) (bigSigma1 (re r)))
                         (add32 (ch (re r) (rf r) (rg r)) (fst kw)))
                  (snd kw) in
  let t2 := add32 (bigSigma0 (ra r)) (maj (ra r) (rb r) (rc r)) in
  mkRegs (add32 t1 t2) (ra r) (rb r) (rc r)
         (add32 (rd r) t1) (re r) (rf r) (rg r).

Definition addRegs (x y : Regs) : Regs :=
  mkRegs (add32 (ra x) (ra y)) (add32 (rb x) (rb y))
         (add32 (rc x) (rc y)) (add32 (rd x) (rd y))
         (add32 (re x) (re y)) (add32 (rf x) (rf y))
         (add32 (rg x) (rg y)) (add32 (rh x) (rh y)).

Definition compress (h : Regs) (block : list Z) : Regs :=
  addRegs h (fold_left round (combine roundConstants (schedule block)) h).

(** The blocks of sixteen words, consumed in order. *)
Fixpoint hashBlocks (fuel : nat) (h : Regs) (ws : list Z) : Regs :=
  match fuel, ws with
  | S fuel', _ :: _ => hashBlocks fuel' (compress h (firstn 16 ws)) (skipn 16 ws)
  | _, _ => h
  end.

Definition regsWords (r : Regs) : list Z :=
  [ra r; rb r; rc r; rd r; re r; rf r; rg r; rh r].

Definition digestWords (msg : list byte) : list Z :=
  let ws := wordsOf (pad msg) in
  regsWords (hashBlocks (length ws) initialHash ws).

End Sha256.

(** ** Lower-case hexadecimal text, as [digest('hex')] prints it *)
Module Hex.

Definition digit (d : Z) : ascii :=
  if d <? 10 then ascii_of_N (Z.to_N (48 + d))
  else ascii_of_N (Z.to_N (87 + d)).

Definition nibble (w : Z) (i : Z) : Z := Z.land (Z.shiftr w (4 * i)) 0xF.

Definition ofWord (w : Z) : string :=
  string_of_list_ascii
    (map (fun i => digit (nibble w i)) [7; 6; 5; 4; 3; 2; 1; 0]).

Definition ofWords (ws : list Z) : string :=
  fold_right (fun w acc => String.append (ofWord w) acc) EmptyString ws.

End Hex.

Definition sha256Hex (content : list byte) : string :=
  Hex.ofWords (Sha256.digestWords content).

(* ===================================================================== *)
(** ** JavaScript values                                                  *)
(* ===================================================================== *)

Open Scope string_scope.
Open Scope Z_scope.

(** An [Error] object; the service only ever reads its [message]. *)
Record JsError := mkError { message : string }.

(** The JSON values the service stores and sends. The column
    [extractedData] and the response bodies hold the text of such a
    value ([JSON.stringify]); the value itself is kept here. *)
#[warnings="-register-all"] Inductive Json :=
| JNull
| JString (s : string)
| JNumber (n : Z)
| JObject (fields : list (string * Json)).

Definition jsonField (key : string) (j : Json) : option Json :=
  match j with
  | JObject fields => snd <$> List.find (fun kv => String.eqb (fst kv) key) fields
  | _ => None
  end.

(** *** Numbers and dates as text *)
Module Text.

Definition digitChar (d : Z) : ascii := ascii_of_N (Z.to_N (48 + d)).

(** The last [k] decimal digits of [n], zero-padded. *)
Fixpoint fixedDigits (k : nat) (n : Z) (acc : string) : string :=
  match k with
  | O => acc
  | S k' => fixedDigits k' (n / 10) (String (digitChar (n mod 10)) acc)
  end.

Fixpoint naturalDigits (fuel : nat) (n : Z) (acc : string) : string :=
  match fuel with
  | O => acc
  | S fuel' =>
      if n <? 10 then String (digitChar n) acc
      else naturalDigits fuel' (n / 10) (String (digitChar (n mod 10)) acc)
  end.

(** [String(n)] for an integer [n]. *)
Definition decimal (n : Z) : string :=
  let body := naturalDigits (S (Z.to_nat (Z.log2 (Z.abs n)))) (Z.abs n) "" in
  if n <? 0 then "-" ++ body else body.

(** The civil date of a day count since 1970-01-01. *)
Definition civil (days : Z) : Z * Z * Z :=
  let z := days + 719468 in
  let era := z / 146097 in
  let doe := z - era * 146097 in
  let yoe := (doe - doe / 1460 + doe / 36524 - doe / 146096) / 365 in
  let doy := doe - (365 * yoe + yoe / 4 - yoe / 100) in
  let mp := (5 * doy + 2) / 153 in
  let d := doy - (153 * mp + 2) / 5 + 1 in
  let m := if mp <? 10 then mp + 3 else mp - 9 in
  let y := yoe + era * 400 + (if m <=? 2 then 1 else 0) in
  (y, m, d).

Definition yearText (y : Z) : string :=
  if (0 <=? y) && (y <=? 9999) then fixedDigits 4 y ""
  else (if y <? 0 then "-" else "+") ++ fixedDigits 6 (Z.abs y) "".

(** [Date.prototype.toISOString] of the instant [ms]. *)
Definition toISOString (ms : Z) : string :=
  let days := ms / 86400000 in
  let rest := ms mod 86400000 in
  let '(y, m, d) := civil days in
  yearText y ++ "-" ++ fixedDigits 2 m "" ++ "-" ++ fixedDigits 2 d ""
    ++ "T" ++ fixedDigits 2 (rest / 3600000) ""
    ++ ":" ++ fixedDigits 2 (rest / 60000 mod 60) ""
    ++ ":" ++ fixedDigits 2 (rest / 1000 mod 60) ""
    ++ "." ++ fixedDigits 3 (rest mod 1000) "" ++ "Z".

End Text.

(* ===================================================================== *)
(** ** The data of the service                                            *)
(* ===================================================================== *)

(** The four values the [status] column takes. *)
Inductive Status := uploaded | processing | processed | failed.

Definition statusText (s : Status) : string :=
  match s with
  | uploaded => "uploaded"
  | processing => "processing"
  | processed => "processed"
  | failed => "failed"
  end.

(** A row of [prisma.file], with the columns the code sets or reads. *)
Record FileRecord := mkFile {
  id : Z;
  userId : Z;
  originalFilename : string;
  storagePath : string;
  title : option string;
  description : option string;
  status : Status;
  extractedData : option Json
}.

(** The [data] of a [prisma.file.update]: the status, and the new
    [extractedData] when the call names that column. *)
Record UpdateData := mkUpdate {
  newStatus : Status;
  newExtractedData : option Json
}.

Definition applyUpdate (d : UpdateData) (r : FileRecord) : FileRecord :=
  mkFile (id r) (userId r) (originalFilename r) (storagePath r)
         (title r) (description r) (newStatus d)
         (match newExtractedData d with
          | Some j => Some j
          | None => extractedData r
          end).

(** What [processFile] returns. *)
Record ProcessResult := mkResult {
  hash : string;
  size : Z;
  processedAt : string
}.

Definition resultJson (r : ProcessResult) : Json :=
  JObject [("hash", JString (hash r)); ("size", JNumber (size r));
           ("processedAt", JString (processedAt r))].

Definition errorJson (msg : string) : Json :=
  JObject [("error", JString msg)].

(** What a read of a path finds: the bytes, or the error [fs] raises. *)
Inductive ReadOutcome :=
| ReadOk (content : list byte)
| ReadFail (e : JsError).

(** *** Jobs, queues and workers (the objects of the queue library) *)

(** The backoff strategy; the service names only this one. *)
Inductive BackoffType := exponential.

Record JobOptions := mkJobOptions {
  attempts : Z;
  backoffType : BackoffType;
  backoffDelay : Z
}.

Record JobData := mkJobData { fileId : Z; filePath : string }.

Record Job := mkJob {
  jobId : string;
  jobName : string;
  data : JobData;
  opts : JobOptions;
  attemptsMade : Z
}.

(** Queue-level state of a job. *)
Inductive JobState :=
| Waiting
| Delayed (readyAt : Z)
| Active
| Completed (returned : ProcessResult)
| Failed (reason : JsError).

Record QJob := mkQJob { job : Job; state : JobState }.

Record QueueObj := mkQueue {
  queueName : string;
  defaultJobOptions : JobOptions
}.

Record WorkerObj := mkWorker {
  workerName : string;
  concurrency : Z;
  autorun : bool
}.

(** What the service does to the outside, in order. *)
Inductive Event :=
| EvCreate (row : FileRecord)
| EvUpdate (rowId : Z) (d : UpdateData) (ok : bool)
| EvConsoleError (text : string) (e : JsError)
| EvNewQueue (ref : Z)
| EvNewWorker (ref : Z)
| EvQueueAdd (queue : Z) (j : Job)
| EvAttempt (id : string) (number : Z) (at_ : Z)
| EvRequeue (id : string) (delay : Z)
| EvFinalize (id : string) (ok : bool).

(* ===================================================================== *)
(** ** The world and the effect monad                                     *)
(* ===================================================================== *)

Record World := mkWorld {
  (** [process.env.NODE_ENV] *)
  nodeEnv : option string;
  (** the clock, in milliseconds since the epoch *)
  now : Z;
  (** what [fs.readFile] finds at a path *)
  disk : string -> ReadOutcome;
  (** the rows behind [prisma.file], by id *)
  table : gmap Z FileRecord;
  (** the autoincrement of that table *)
  nextFileId : Z;
  (** how the coming store and Redis calls fare *)
  faults : list (option JsError);
  (** what has happened so far, oldest first *)
  trace : list Event;
  (** the module variable [fileQueue] *)
  fileQueue : option Z;
  (** the module variable [worker] *)
  worker : option Z;
  (** the next fresh object reference *)
  nextRef : Z;
  (** the [Queue] objects constructed so far *)
  queues : gmap Z QueueObj;
  (** the [Worker] objects constructed so far *)
  workers : gmap Z WorkerObj;
  (** the jobs Redis holds, by queue name *)
  redis : gmap string (list QJob)
}.

Definition withNodeEnv (v : option string) (w : World) : World :=
  mkWorld v (now w) (disk w) (table w) (nextFileId w) (faults w)
    (trace w) (fileQueue w) (worker w) (nextRef w) (queues w)
    (workers w) (redis w).

Definition withNow (v : Z) (w : World) : World :=
  mkWorld (nodeEnv w) v (disk w) (table w) (nextFileId w) (faults w)
    (trace w) (fileQueue w) (worker w) (nextRef w) (queues w)
    (workers w) (redis w).

Definition withDisk (v : string -> ReadOutcome) (w : World) : World :=
  mkWorld (nodeEnv w) (now w) v (table w) (nextFileId w) (faults w)
    (trace w) (fileQueue w) (worker w) (nextRef w) (queues w)
    (workers w) (redis w).

Definition withTable (v : gmap Z FileRecord) (w : World) : World :=
  mkWorld (nodeEnv w) (now w) (disk w) v (nextFileId w) (faults w)
    (trace w) (fileQueue w) (worker w) (nextRef w) (queues w)
    (workers w) (redis w).

Definition withNextFileId (v : Z) (w : World) : World :=
  mkWorld (nodeEnv w) (now w) (disk w) (table w) v (faults w)
    (trace w) (fileQueue w) (worker w) (nextRef w) (queues w)
    (workers w) (redis w).

Definition withFaults (v : list (option JsError)) (w : World) : World :=
  mkWorld (nodeEnv w) (now w) (disk w) (table w) (nextFileId w) v
    (trace w) (fileQueue w) (worker w) (nextRef w) (queues w)
    (workers w) (redis w).

Definition withTrace (v : list Event) (w : World) : World :=
  mkWorld (nodeEnv w) (now w) (disk w) (table w) (nextFileId w)
    (faults w) v (fileQueue w) (worker w) (nextRef w) (queues w)
    (workers w) (redis w).

Definition withFileQueue (v : option Z) (w : World) : World :=
  mkWorld (nodeEnv w) (now w) (disk w) (table w) (nextFileId w)
    (faults w) (trace w) v (worker w) (nextRef w) (queues w)
    (workers w) (redis w).

Definition withWorker (v : option Z) (w : World) : World :=
  mkWorld (nodeEnv w) (now w) (disk w) (table w) (nextFileId w)
    (faults w) (trace w) (fileQueue w) v (nextRef w) (queues w)
    (workers w) (redis w).

Definition withNextRef (v : Z) (w : World) : World :=
  mkWorld (nodeEnv w) (now w) (disk w) (table w) (nextFileId w)
    (faults w) (trace w) (fileQueue w) (worker w) v (queues w)
    (workers w) (redis w).

Definition withQueues (v : gmap Z QueueObj) (w : World) : World :=
  mkWorld (nodeEnv w) (now w) (disk w) (table w) (nextFileId w)
    (faults w) (trace w) (fileQueue w) (worker w) (nextRef w) v
    (workers w) (redis w).

Definition withWorkers (v : gmap Z WorkerObj) (w : World) : World :=
  mkWorld (nodeEnv w) (now w) (disk w) (table w) (nextFileId w)
    (faults w) (trace w) (fileQueue w) (worker w) (nextRef w)
    (queues w) v (redis w).

Definition withRedis (v : gmap string (list QJob)) (w : World) : World :=
  mkWorld (nodeEnv w) (now w) (disk w) (table w) (nextFileId w)
    (faults w) (trace w) (fileQueue w) (worker w) (nextRef w)
    (queues w) (workers w) v.

(** A computation either returns or throws, and leaves a world behind:
    the sequential reading of an [async] function whose effects are all
    awaited. *)
Inductive Outcome (A : Type) :=
| Returned (a : A)
| Thrown (e : JsError).
Arguments Returned {A} a.
Arguments Thrown {A} e.

Definition M (A : Type) : Type := World -> Outcome A * World.

Definition ret {A} (a : A) : M A := fun w => (Returned a, w).

Definition throw {A} (e : JsError) : M A := fun w => (Thrown e, w).

Definition bind {A B} (m : M A) (k : A -> M B) : M B :=
  fun w =>
    match m w with
    | (Returned a, w') => k a w'
    | (Thrown e, w') => (Thrown e, w')
    end.

(** [try { m } catch (e) { handler e }] *)
Definition tryCatch {A} (m : M A) (handler : JsError -> M A) : M A :=
  fun w =>
    match m w with
    | (Returned a, w') => (Returned a, w')
    | (Thrown e, w') => handler e w'
    end.

Notation "'await' x '<-' m ';' k" := (bind m (fun x => k))
  (at level 10, x name, m at level 100, k at level 200).
Notation "'exec' m ';' k" := (bind m (fun _ => k))
  (at level 10, m at level 100, k at level 200).

Definition emit (e : Event) : M unit :=
  fun w => (Returned tt, withTrace (trace w ++ [e]) w).

Definition isTest (w : World) : bool :=
  match nodeEnv w with
  | Some v => String.eqb v "test"
  | None => false
  end.

(** [console.error(text, e)] *)
Definition consoleError (text : string) (e : JsError) : M unit :=
  emit (EvConsoleError text e).

(** [await new Promise(resolve => setTimeout(resolve, ms))] *)
Definition sleep (ms : Z) : M unit :=
  fun w => (Returned tt, withNow (now w + ms) w).

(** [new Date().toISOString()] *)
Definition dateNowISO : M string :=
  fun w => (Returned (Text.toISOString (now w)), w).

(** [fs.readFile(path)] *)
Definition readFile (path : string) : M (list byte) :=
  fun w =>
    match disk w path with
    | ReadOk content => (Returned content, w)
    | ReadFail e => (Thrown e, w)
    end.

(** The error the next call out of the process will meet, if any. *)
Definition pendingFault (w : World) : option JsError :=
  match head (faults w) with
  | Some (Some e) => Some e
  | _ => None
  end.

(** A call that leaves the process (to the store or to Redis) consumes
    the next entry of [faults] and fails when that entry is an error. *)
Definition ioCall : M unit :=
  fun w =>
    let w' := withFaults (tail (faults w)) w in
    match pendingFault w with
    | Some e => (Thrown e, w')
    | None => (Returned tt, w')
    end.

(* ===================================================================== *)
(** ** The store client: [prisma.file]                                    *)
(* ===================================================================== *)

(** The error of an update whose row does not exist. *)
Definition recordNotFound : JsError :=
  mkError "Record to update not found.".

Definition updateRow (rowId : Z) (d : UpdateData) : M FileRecord :=
  fun w =>
    match table w !! rowId with
    | Some r =>
        let r' := applyUpdate d r in
        (Returned r', withTable (<[rowId := r']> (table w)) w)
    | None => (Thrown recordNotFound, w)
    end.

(** [prisma.file.update({ where: { id: rowId }, data: d })]: the call
    fails when the store cannot be reached or has no such row;
    otherwise it sets the columns [d] names, leaves the others, and
    returns the row. *)
Definition fileUpdate (rowId : Z) (d : UpdateData) : M FileRecord :=
  tryCatch
    (exec ioCall;
     await r <- updateRow rowId d;
     exec emit (EvUpdate rowId d true);
     ret r)
    (fun e => exec emit (EvUpdate rowId d false); throw e).

Record CreateData := mkCreate {
  createUserId : Z;
  createOriginalFilename : string;
  createStoragePath : string;
  createTitle : option string;
  createDescription : option string;
  createStatus : Status
}.

Definition insertRow (d : CreateData) : M FileRecord :=
  fun w =>
    let r := mkFile (nextFileId w) (createUserId d)
                    (createOriginalFilename d) (createStoragePath d)
                    (createTitle d) (createDescription d)
                    (createStatus d) None in
    (Returned r,
     withNextFileId (nextFileId w + 1)
       (withTable (<[nextFileId w := r]> (table w)) w)).

(** [prisma.file.create({ data: d })]: the new row gets the next id
    and no [extractedData]. *)
Definition fileCreate (d : CreateData) : M FileRecord :=
  exec ioCall;
  await r <- insertRow d;
  exec emit (EvCreate r);
  ret r.

(* ===================================================================== *)
(** ** The queue library's client objects                                 *)
(* ===================================================================== *)

(** [new Queue(name, { defaultJobOptions: o })] *)
Definition newQueue (name : string) (o : JobOptions) : M Z :=
  fun w =>
    let r := nextRef w in
    (Returned r,
     withNextRef (r + 1)
       (withQueues (<[r := mkQueue name o]> (queues w))
          (withTrace (trace w ++ [EvNewQueue r]) w))).

(** [new Worker(name, processor, { concurrency: c, autorun: a })] *)
Definition newWorker (name : string) (c : Z) (a : bool) : M Z :=
  fun w =>
    let r := nextRef w in
    (Returned r,
     withNextRef (r + 1)
       (withWorkers (<[r := mkWorker name c a]> (workers w))
          (withTrace (trace w ++ [EvNewWorker r]) w))).

Definition jobsOf (name : string) (w : World) : list QJob :=
  default [] (redis w !! name).

(** Modelled from the spec: [queue.add(name, data)] of the queue
    library, which is not part of the service's sources. It is the
    [submit] of the durable queue: the job is stored in [waiting] state
    under the queue's name with no attempt made, takes the queue's
    default options, and gets the next job id of that queue. (The last
    case, a reference that names no queue, does not arise for the
    references [newQueue] returns.) *)
Definition queueAdd (q : Z) (name : string) (d : JobData) : M Job :=
  exec ioCall;
  fun w =>
    match queues w !! q with
    | Some qo =>
        let js := jobsOf (queueName qo) w in
        let j := mkJob (Text.decimal (Z.of_nat (length js) + 1)) name d
                       (defaultJobOptions qo) 0 in
        (Returned j,
         withRedis (<[queueName qo := (js ++ [mkQJob j Waiting])%list]> (redis w))
           (withTrace (trace w ++ [EvQueueAdd q j]) w))
    | None => (Thrown (mkError "queue.add is not a function"), w)
    end.

(* ===================================================================== *)
(** ** [src/services/fileProcessor.js]                                    *)
(* ===================================================================== *)

(** [processFile]: read, digest, wait, stamp. *)
Definition processFile (path : string) : M ProcessResult :=
  tryCatch
    (await fileContent <- readFile path;
     let hash := sha256Hex fileContent in
     exec (fun w => sleep (if isTest w then 100 else 2000) w);
     await stamp <- dateNowISO;
     ret (mkResult hash (Z.of_nat (length fileContent)) stamp))
    (fun error =>
       throw (mkError ("File processing failed: " ++ message error))).

(** The function given to [new Worker], one attempt at one job, in its
    two halves: the [try] block and the [catch] block. *)
Definition attemptBody (j : Job) : M ProcessResult :=
  let fileId := fileId (data j) in
  let filePath := filePath (data j) in
  exec fileUpdate fileId (mkUpdate processing None);
  await result <- processFile filePath;
  exec fileUpdate fileId (mkUpdate processed (Some (resultJson result)));
  ret result.

(** [`Job ${job.id} failed for file ${job.data.fileId}:`] *)
Definition failureLabel (j : Job) : string :=
  "Job " ++ jobId j ++ " failed for file "
    ++ Text.decimal (fileId (data j)) ++ ":".

Definition failureHandler (j : Job) (error : JsError) : M ProcessResult :=
  exec consoleError (failureLabel j) error;
  exec tryCatch
         (exec fileUpdate (fileId (data j))
                 (mkUpdate failed (Some (errorJson (message error))));
          ret tt)
         (fun updateError =>
            consoleError "Failed to update file status:" updateError);
  throw error.

Definition processor (j : Job) : M ProcessResult :=
  tryCatch (attemptBody j) (failureHandler j).

Definition queueOptions : JobOptions := mkJobOptions 3 exponential 1000.

(** [initializeQueue] *)
Definition initializeQueue : M Z :=
  fun w =>
    match fileQueue w with
    | None =>
        (await q <- newQueue "fileProcessing" queueOptions;
         exec (fun w' => (Returned tt, withFileQueue (Some q) w'));
         ret q) w
    | Some q => (Returned q, w)
    end.

(** [initializeWorker]; the three listeners the source attaches only
    write to the console and are left out. *)
Definition initializeWorker : M Z :=
  fun w =>
    match worker w with
    | None =>
        (await k <- newWorker "fileProcessing"
                      (if isTest w then 1 else 5) (negb (isTest w));
         exec (fun w' => (Returned tt, withWorker (Some k) w'));
         ret k) w
    | Some k => (Returned k, w)
    end.

(** [addFileProcessingJob] *)
Definition addFileProcessingJob (fileId : Z) (filePath : string) : M Job :=
  await queue <- initializeQueue;
  queueAdd queue "processFile" (mkJobData fileId filePath).

Record Exports := mkExports {
  exportedQueue : Z;
  exportedWorker : Z
}.

(** Loading the module: the top-level statements (the two assignments
    outside the test environment store what the calls have already
    stored) and [module.exports]. *)
Definition loadModule : M Exports :=
  exec (fun w =>
          if negb (isTest w)
          then (exec initializeQueue; exec initializeWorker; ret tt) w
          else (Returned tt, w));
  await q <- initializeQueue;
  await k <- initializeWorker;
  ret (mkExports q k).

(* ===================================================================== *)
(** ** [src/routes/files.js]: the upload handler                          *)
(* ===================================================================== *)

Record UploadedFile := mkUploaded {
  originalname : string;
  path : string
}.

(** The request as the handler receives it, after the [auth] and
    [upload.single('file')] middlewares have run. *)
Record Request := mkRequest {
  reqUserId : Z;
  reqFile : option UploadedFile;
  bodyTitle : option string;
  bodyDescription : option string
}.

Record Response := mkResponse {
  statusCode : Z;
  body : Json
}.

(** [router.post('/upload', ...)] *)
Definition uploadHandler (req : Request) : M Response :=
  tryCatch
    (match reqFile req with
     | None => ret (mkResponse 400 (JObject [("error", JString "No file uploaded")]))
     | Some f =>
         await file <- fileCreate
                         (mkCreate (reqUserId req) (originalname f) (path f)
                                   (bodyTitle req) (bodyDescription req)
                                   uploaded);
         exec addFileProcessingJob (id file) (path f);
         ret (mkResponse 201
                (JObject
                   [("id", JNumber (id file));
                    ("status", JString (statusText (status file)));
                    ("message",
                     JString "File uploaded successfully and queued for processing")]))
     end)
    (fun error =>
       exec consoleError "File upload error:" error;
       ret (mkResponse 500 (JObject [("error", JString "Error uploading file")]))).

(* ===================================================================== *)
(** ** The queue engine the service configures                            *)
(* ===================================================================== *)

(** The service hands its jobs to a queue library and its [processor]
    to that library's worker; the library decides when an attempt runs
    and what follows a failure. Its sources are not part of the
    service, so the engine below follows the specification's contracts
    for the durable queue, the worker pool and the retry policy, and
    takes from the service what the service supplies: the job options,
    the worker options and the [processor]. *)
Module Engine.

Inductive Decision :=
| Requeue (delay : Z)
| FinalizeFailed.

(** Modelled from the spec: the backoff delay of the retry policy,
    which the library computes. The base delay doubles with each
    attempt. *)
Definition computedDelay (baseDelay attemptCount : Z) : Z :=
  baseDelay * 2 ^ (attemptCount - 1).

(** Modelled from the spec: the retry decision, taken by the library
    after a failed attempt. A job that has made fewer attempts than
    the maximum is requeued with the computed delay, any other is
    finalized as failed. *)
Definition retryPolicy (attemptCount maxAttempts baseDelay : Z) : Decision :=
  if attemptCount <? maxAttempts
  then Requeue (computedDelay baseDelay attemptCount)
  else FinalizeFailed.

Definition isActive (q : QJob) : bool :=
  match state q with Active => true | _ => false end.

Definition isWaiting (q : QJob) : bool :=
  match state q with Waiting => true | _ => false end.

Definition isDelayed (q : QJob) : bool :=
  match state q with Delayed _ => true | _ => false end.

Definition isTerminal (q : QJob) : bool :=
  match state q with Completed _ | Failed _ => true | _ => false end.

Definition activeCount (js : list QJob) : nat :=
  sum_list_with (fun q => if isActive q then 1%nat else 0%nat) js.

Definition attempted (j : Job) : Job :=
  mkJob (jobId j) (jobName j) (data j) (opts j) (attemptsMade j + 1).

(** Modelled from the spec: what the pool does with the outcome of an
    attempt that ended at time [t]: [finalize(completed)] on success,
    the retry policy's decision on failure. *)
Definition settle (j : Job) (out : Outcome ProcessResult) (t : Z)
  : QJob * Event :=
  let j' := attempted j in
  match out with
  | Returned r => (mkQJob j' (Completed r), EvFinalize (jobId j) true)
  | Thrown e =>
      match retryPolicy (attemptsMade j') (attempts (opts j))
              (backoffDelay (opts j)) with
      | Requeue d => (mkQJob j' (Delayed (t + d)), EvRequeue (jobId j) d)
      | FinalizeFailed => (mkQJob j' (Failed e), EvFinalize (jobId j) false)
      end
  end.

(** Replace the [i]-th job of the worker's queue. *)
Definition setJob (k : WorkerObj) (i : nat) (q : QJob) (w : World) : World :=
  withRedis (<[workerName k := <[i := q]> (jobsOf (workerName k) w)]> (redis w)) w.

(** What the pool of worker [k] can do to the [i]-th job of its queue. *)
Inductive Action :=
| Claim (i : nat)
| Settle (i : nat)
| Promote (i : nat).

(** Modelled from the spec: one step of the worker pool of [k].
    [Claim] starts an attempt on a waiting job, provided the worker
    has been started and fewer than [concurrency k] jobs are active;
    [Settle] ends the attempt of an active job: the service's
    [processor] has run on it and the job is completed, requeued with
    a delay or failed; [Promote] lets the delay of a requeued job
    elapse. *)
Definition step (k : WorkerObj) (a : Action) (w : World) : option World :=
  let js := jobsOf (workerName k) w in
  match a with
  | Claim i =>
      match js !! i with
      | Some (mkQJob j Waiting) =>
          if autorun k && (Z.of_nat (activeCount js) <? concurrency k)
          then Some (setJob k i (mkQJob j Active)
                       (withTrace
                          (trace w ++ [EvAttempt (jobId j) (attemptsMade j + 1) (now w)])
                          w))
          else None
      | _ => None
      end
  | Settle i =>
      match js !! i with
      | Some (mkQJob j Active) =>
          let '(out, w1) := processor j w in
          let '(q, ev) := settle j out (now w1) in
          Some (setJob k i q (withTrace (trace w1 ++ [ev]) w1))
      | _ => None
      end
  | Promote i =>
      match js !! i with
      | Some (mkQJob j (Delayed t)) =>
          Some (setJob k i (mkQJob j Waiting) (withNow (Z.max (now w) t) w))
      | _ => None
      end
  end.

Definition target (a : Action) : nat :=
  match a with
  | Claim i | Settle i | Promote i => i
  end.

Definition isSettleOf (i : nat) (a : Action) : bool :=
  match a with
  | Settle i' => Nat.eqb i' i
  | _ => false
  end.

(** How many attempts at the [i]-th job an execution has brought to
    their end. *)
Definition attemptsEnded (i : nat) (acts : list Action) : nat :=
  length (List.filter (isSettleOf i) acts).

(** The executions of the pool: any sequence of enabled steps, in any
    order (the order in which the library claims waiting jobs, oldest
    first, is one of them). *)
Fixpoint run (k : WorkerObj) (acts : list Action) (w : World) : option World :=
  match acts with
  | [] => Some w
  | a :: rest =>
      match step k a w with
      | Some w' => run k rest w'
      | None => None
      end
  end.

(** The life of one job under a started worker: claim, settle, and
    after a requeue wait and claim again. *)
Definition nextAction (i : nat) (q : QJob) : option Action :=
  match state q with
  | Waiting => Some (Claim i)
  | Active => Some (Settle i)
  | Delayed _ => Some (Promote i)
  | Completed _ | Failed _ => None
  end.

Fixpoint runJob (fuel : nat) (k : WorkerObj) (i : nat) (w : World) : World :=
  match fuel with
  | O => w
  | S fuel' =>
      match jobsOf (workerName k) w !! i ≫= nextAction i with
      | Some a =>
          match step k a w with
          | Some w' => runJob fuel' k i w'
          | None => w
          end
      | None => w
      end
  end.

(** The position of the first job that satisfies [p]. *)
Fixpoint firstIndex (p : QJob -> bool) (js : list QJob) : option nat :=
  match js with
  | [] => None
  | q :: rest => if p q then Some O else S <$> firstIndex p rest
  end.

(** A scheduler for the whole pool: claim the oldest waiting job while
    there is room, else settle the oldest active job, else let the
    oldest delay elapse. *)
Definition schedule (k : WorkerObj) (w : World) : option Action :=
  let js := jobsOf (workerName k) w in
  match (if autorun k && (Z.of_nat (activeCount js) <? concurrency k)
         then firstIndex isWaiting js else None) with
  | Some i => Some (Claim i)
  | None =>
      match firstIndex isActive js with
      | Some i => Some (Settle i)
      | None => Promote <$> firstIndex isDelayed js
      end
  end.

(** The pool under that scheduler; also returns the largest number of
    jobs seen active at once. *)
Fixpoint runPool (fuel : nat) (k : WorkerObj) (w : World) (peak : nat)
  : World * nat :=
  let peak' := Nat.max peak (activeCount (jobsOf (workerName k) w)) in
  match fuel with
  | O => (w, peak')
  | S fuel' =>
      match schedule k w ≫= fun a => step k a w with
      | Some w' => runPool fuel' k w' peak'
      | None => (w, peak')
      end
  end.

(** What can happen to the queue: a step of the pool, or a submission
    through [addFileProcessingJob]. *)
Inductive Move :=
| Pool (a : Action)
| Submit (fileId : Z) (filePath : string).

Definition move (k : WorkerObj) (m : Move) (w : World) : option World :=
  match m with
  | Pool a => step k a w
  | Submit fileId filePath => Some (addFileProcessingJob fileId filePath w).2
  end.

Fixpoint moves (k : WorkerObj) (ms : list Move) (w : World) : option World :=
  match ms with
  | [] => Some w
  | m :: rest =>
      match move k m w with
      | Some w' => moves k rest w'
      | None => None
      end
  end.

(** How many steps a job is away from a terminal state, at most. *)
Definition remaining (q : QJob) : nat :=
  let left := Z.to_nat (attempts (opts (job q)) - attemptsMade (job q)) in
  match state q with
  | Active => (3 * left + 1)%nat
  | Waiting => (3 * left + 2)%nat
  | Delayed _ => (3 * left + 3)%nat
  | Completed _ | Failed _ => 0%nat
  end.

Definition measure (js : list QJob) : nat := sum_list_with remaining js.

End Engine.

(* ===================================================================== *)
(** ** Observations the statements use                                    *)
(* ===================================================================== *)

Definition isEngineEvent (e : Event) : bool :=
  match e with
  | EvAttempt _ _ _ | EvRequeue _ _ | EvFinalize _ _ => true
  | _ => false
  end.

(** The queue-level history: attempts, requeues and finalizations. *)
Definition engineEvents (t : list Event) : list Event :=
  List.filter isEngineEvent t.

Definition hasKey (key : string) (j : Json) : bool :=
  match jsonField key j with
  | Some _ => true
  | None => false
  end.

(** A row carries a result payload when its [extractedData] has a
    [hash], an error payload when it has an [error]. *)
Definition resultPresent (r : FileRecord) : bool :=
  match extractedData r with
  | Some j => hasKey "hash" j
  | None => false
  end.

Definition errorPresent (r : FileRecord) : bool :=
  match extractedData r with
  | Some j => hasKey "error" j
  | None => false
  end.

(** Where the [i]-th job stands after [n] ended attempts: still to be
    run when [n < 3], failed when [n = 3]. *)
Definition onTrack (k : WorkerObj) (i : nat) (j : Job) (n : nat) (w : World)
  : Prop :=
  (n <= 3)%nat
  /\ (exists e0, disk w (filePath (data j)) = ReadFail e0)
  /\ exists st,
      jobsOf (workerName k) w !! i
      = Some (mkQJob (mkJob (jobId j) (jobName j) (data j) queueOptions
                        (Z.of_nat n)) st)
      /\ ((n < 3)%nat -> st = Waiting \/ st = Active \/ exists t, st = Delayed t)
      /\ (n = 3%nat -> exists E, st = Failed E).

(** The payload fits the status: a result and no error when
    [processed], an error and no result when [failed], nothing when
    [uploaded], and not both when [processing]. *)
Definition coherent (r : FileRecord) : bool :=
  match status r with
  | processed => resultPresent r && negb (errorPresent r)
  | failed => errorPresent r && negb (resultPresent r)
  | processing => negb (resultPresent r && errorPresent r)
  | uploaded => negb (resultPresent r) && negb (errorPresent r)
  end.

Definition coherentWorld (w : World) : Prop :=
  forall rowId r, table w !! rowId = Some r -> coherent r = true.

Definition keepsCoherent {A} (m : M A) : Prop :=
  forall w, coherentWorld w -> coherentWorld (m w).2.

(** What happens to the rows: uploads, and steps of a worker's pool. *)
Inductive Op :=
| DoUpload (req : Request)
| DoPool (k : WorkerObj) (a : Engine.Action).

Definition perform (o : Op) (w : World) : option World :=
  match o with
  | DoUpload req => Some (uploadHandler req w).2
  | DoPool k a => Engine.step k a w
  end.

Fixpoint performAll (ops : list Op) (w : World) : option World :=
  match ops with
  | [] => Some w
  | o :: rest =>
      match perform o w with
      | Some w' => performAll rest w'
      | None => None
      end
  end.

(** The three shapes of the updates the worker issues. *)
Definition workerUpdate (d : UpdateData) : Prop :=
  d = mkUpdate processing None
  \/ (exists res, d = mkUpdate processed (Some (resultJson res)))
  \/ (exists msg, d = mkUpdate failed (Some (errorJson msg))).

(** The error [processFile] throws when the read fails with [e0]. *)
Definition processingError (e0 : JsError) : JsError :=
  mkError ("File processing failed: " ++ message e0).

Definition digestOf (o : Outcome ProcessResult) : option string :=
  match o with
  | Returned r => Some (hash r)
  | Thrown _ => None
  end.

(** What an attempt leaves untouched: the environment, the disk, the
    module variables, the objects, the queued jobs and the queue-level
    history. *)
Definition sameSetting (w w' : World) : Prop :=
  nodeEnv w' = nodeEnv w /\ disk w' = disk w
  /\ nextFileId w' = nextFileId w
  /\ fileQueue w' = fileQueue w /\ worker w' = worker w
  /\ nextRef w' = nextRef w /\ queues w' = queues w
  /\ workers w' = workers w /\ redis w' = redis w
  /\ engineEvents (trace w') = engineEvents (trace w).

Definition keeps {A} (m : M A) : Prop := forall w, sameSetting w (m w).2.












(** *** Sample inputs *)
Module Sample.

Definition enoent (p : string) : JsError :=
  mkError ("ENOENT: no such file or directory, open '" ++ p ++ "'").

Definition disk (p : string) : ReadOutcome :=
  if String.eqb p "uploads/hello.txt"
  then ReadOk (list_byte_of_string "hello world")
  else ReadFail (enoent p).

(** A process that has just started, outside the test environment. *)
Definition fresh : World :=
  mkWorld None 1700000000000 disk ∅ 1 [] [] None None 0 ∅ ∅ ∅.

Definition freshTest : World := withNodeEnv (Some "test") fresh.

Definition helloUpload : Request :=
  mkRequest 7 (Some (mkUploaded "hello.txt" "uploads/hello.txt"))
            (Some "greeting") None.

Definition missingUpload : Request :=
  mkRequest 7 (Some (mkUploaded "gone.txt" "uploads/gone.txt")) None None.

Definition loadedFresh : World := (loadModule fresh).2.

Definition helloResponse : Response :=
  mkResponse 201
    (JObject
       [("id", JNumber 1); ("status", JString "uploaded");
        ("message",
         JString "File uploaded successfully and queued for processing")]).


(** The module loaded and the two uploads made: two rows, two
    waiting jobs. *)
Definition uploadedTwo : World :=
  ((exec loadModule;
    exec uploadHandler helloUpload;
    uploadHandler missingUpload) fresh).2.

Definition started : WorkerObj := mkWorker "fileProcessing" 5 true.

Definition helloJob : Job :=
  mkJob "1" "processFile" (mkJobData 1 "uploads/hello.txt") queueOptions 0.

Definition missingJob : Job :=
  mkJob "2" "processFile" (mkJobData 2 "uploads/gone.txt") queueOptions 0.

Definition goneError : JsError :=
  mkError
    "File processing failed: ENOENT: no such file or directory, open 'uploads/gone.txt'".

(** Ten uploads at once, and a worker with room for two jobs. *)
Definition tenUploads : list Request :=
  [helloUpload; missingUpload; helloUpload; missingUpload; helloUpload;
   missingUpload; helloUpload; missingUpload; helloUpload; missingUpload].

Definition tenJobs : World :=
  foldl (fun w req => (uploadHandler req w).2) loadedFresh tenUploads.

Definition capTwo : WorkerObj := mkWorker "fileProcessing" 2 true.

(** The module loaded under [NODE_ENV=test] and one upload made. *)
Definition testUploaded : World :=
  ((exec loadModule; uploadHandler helloUpload) freshTest).2.

Definition testWorker : WorkerObj := mkWorker "fileProcessing" 1 false.

(** The same, with a store that fails its next call. *)
Definition flaky : World :=
  withFaults [Some (mkError "Can't reach database server")] uploadedTwo.

(** The same, with a store that fails its fourth call. *)
Definition flakyLater : World :=
  withFaults [None; None; None; Some (mkError "Can't reach database server")]
    uploadedTwo.

(** The second job claimed by the worker. *)
Definition missingClaimed : World :=
  default uploadedTwo (Engine.step started (Engine.Claim 1) uploadedTwo).

End Sample.

(* ===================================================================== *)
(** ** [src/services/fileProcessor.js]: the Redis connection options      *)
(* ===================================================================== *)

(** [redisConfig.retryStrategy]: the delay in milliseconds before the
    connection attempt after [times] failed ones, or [None] ([null]) to
    stop reconnecting. *)
Definition retryStrategy (times : Z) : option Z :=
  if 3 <? times then None else Some (Z.min (times * 100) 3000).

(* ===================================================================== *)
(** ** The language's string and number functions the routes call         *)
(* ===================================================================== *)

(** Strings are sequences of code units below 256. *)
Module Js.

(** A string is truthy when it is not empty. *)
Definition truthy (s : string) : bool :=
  match s with
  | EmptyString => false
  | String _ _ => true
  end.

(** [s.startsWith(p)] *)
Definition startsWith (p s : string) : bool := String.prefix p s.

Fixpoint dropChars (n : nat) (s : string) : string :=
  match n, s with
  | S n', String _ rest => dropChars n' rest
  | _, _ => s
  end.

(** [s.replace(p, r)] for a string pattern [p] and a replacement [r]
    without [$]: the leftmost occurrence of [p] is replaced, the rest of
    [s] is kept. *)
Fixpoint replace (p r s : string) : string :=
  if String.prefix p s then r ++ dropChars (String.length p) s
  else
    match s with
    | EmptyString => EmptyString
    | String c rest => String c (replace p r rest)
    end.

(** The white space [parseInt] skips: tab, line feed, vertical tab,
    form feed, carriage return, space and no-break space. *)
Definition isWhiteSpace (c : ascii) : bool :=
  let n := Z.of_N (N_of_ascii c) in
  ((9 <=? n) && (n <=? 13)) || (n =? 32) || (n =? 160).

Fixpoint trimStart (s : string) : string :=
  match s with
  | EmptyString => EmptyString
  | String c rest => if isWhiteSpace c then trimStart rest else s
  end.

(** The value of [c] as a digit of the given radix. *)
Definition digitOf (radix : Z) (c : ascii) : option Z :=
  let n := Z.of_N (N_of_ascii c) in
  let v :=
    if (48 <=? n) && (n <=? 57) then Some (n - 48)
    else if (97 <=? n) && (n <=? 122) then Some (n - 87)
    else if (65 <=? n) && (n <=? 90) then Some (n - 55)
    else None in
  match v with
  | Some d => if d <? radix then Some d else None
  | None => None
  end.

(** The integer the longest prefix of digits denotes; [acc] is [None]
    until a digit has been read. *)
Fixpoint digitsValue (radix : Z) (acc : option Z) (s : string) : option Z :=
  match s with
  | EmptyString => acc
  | String c rest =>
      match digitOf radix c with
      | Some d => digitsValue radix (Some (radix * default 0 acc + d)) rest
      | None => acc
      end
  end.

(** A number of the language, as far as [parseInt] yields one. *)
Inductive Number := NaN | Infinity (negative : bool) | Num (z : Z).

(** The double nearest to the natural number [m], ties to even;
    [None] when it is beyond the largest double. *)
Definition nearestDouble (m : Z) : option Z :=
  if m <? 9007199254740992 then Some m
  else
    let e := Z.log2 m - 52 in
    let q := Z.shiftr m e in
    let r := Z.land m (Z.ones e) in
    let half := Z.shiftl 1 (e - 1) in
    let q' := if (half <? r) || ((r =? half) && Z.odd q) then q + 1 else q in
    if 1024 <=? Z.log2 q' + e then None else Some (Z.shiftl q' e).

(** The digits of [parseInt] after the sign: a [0x] or [0X] prefix makes
    them hexadecimal. *)
Definition parseMagnitude (negative : bool) (s : string) : Number :=
  let hex := String.prefix "0x" s || String.prefix "0X" s in
  let digits := if hex then dropChars 2 s else s in
  match digitsValue (if hex then 16 else 10) None digits with
  | None => NaN
  | Some m =>
      match nearestDouble m with
      | Some v => Num (if negative then - v else v)
      | None => Infinity negative
      end
  end.

(** [parseInt(input)] with no radix given. (Of a decimal numeral of more
    than twenty significant digits an engine may read the digits after
    the twentieth as zeros.) *)
Definition parseInt (input : string) : Number :=
  match trimStart input with
  | String "-"%char rest => parseMagnitude true rest
  | String "+"%char rest => parseMagnitude false rest
  | s => parseMagnitude false s
  end.

End Js.

(* ===================================================================== *)
(** ** [src/middleware/auth.js]                                           *)
(* ===================================================================== *)

(** A row of [prisma.user], with the columns the sources read. *)
Record User := mkUser {
  userKey : Z;
  userEmail : string
}.

(** The payload [jwt.verify] returns; [userId] may be missing from it. *)
Record Decoded := mkDecoded {
  decodedUserId : option Z
}.

(** What the middleware does with a request: it answers it, or it sets
    [req.user] and [req.token] and calls [next()]. *)
Inductive AuthResult :=
| Responded (r : Response)
| Next (user : User) (token : string).

Definition jsonError (code : Z) (text : string) : Response :=
  mkResponse code (JObject [("error", JString text)]).

Definition nullable (s : option string) : Json :=
  match s with
  | Some t => JString t
  | None => JNull
  end.

Section Routes.

(** [jwt.verify(token, process.env.JWT_SECRET)] of the token library:
    the payload, or the error it throws. *)
Variable jwtVerify : string -> Outcome Decoded.

(** The rows of the user table, which these routes only read. *)
Variable users : list User.

(** The [uploadedAt] column of a file row, which the store fills in. *)
Variable uploadedAtOf : FileRecord -> Json.

(** [prisma.user.findUnique({ where: { id: key } })]: the client
    rejects a missing key before it calls the store. *)
Definition userFindUnique (key : option Z) : M (option User) :=
  match key with
  | None => throw (mkError "Argument `where` needs at least one of `id` arguments.")
  | Some k =>
      exec ioCall;
      ret (List.find (fun u => userKey u =? k) users)
  end.

(** [auth] *)
Definition auth (authHeader : option string) : M AuthResult :=
  tryCatch
    (match authHeader with
     | None => ret (Responded (jsonError 401 "Authentication required"))
     | Some h =>
         if negb (Js.truthy h) || negb (Js.startsWith "Bearer " h)
         then ret (Responded (jsonError 401 "Authentication required"))
         else
           let token := Js.replace "Bearer " "" h in
           await decoded <- (fun w => (jwtVerify token, w));
           await user <- userFindUnique (decodedUserId decoded);
           match user with
           | None => throw (mkError "")
           | Some u => ret (Next u token)
           end
     end)
    (fun error => ret (Responded (jsonError 401 "Please authenticate"))).

(** [router.METHOD(path, auth, ...rest)]: what follows [auth] in a
    route runs when [auth] calls [next()], and sees [req.user]. *)
Definition behindAuth (rest : User -> M Response)
    (authHeader : option string) : M Response :=
  await a <- auth authHeader;
  match a with
  | Responded r => ret r
  | Next user _ => rest user
  end.

(* ===================================================================== *)
(** ** [src/routes/files.js]: one file's information                      *)
(* ===================================================================== *)

(** [prisma.file.findUnique({ where: { id: n } })]: the client rejects
    a key that is not a finite number before it calls the store. *)
Definition fileFindUnique (n : Js.Number) : M (option FileRecord) :=
  match n with
  | Js.Num k =>
      exec ioCall;
      fun w => (Returned (table w !! k), w)
  | _ => throw (mkError "Argument `id` is missing.")
  end.

(** The body of the answer for a row. [extractedData] holds the value
    whose JSON text the column stores, so [JSON.parse] of the column is
    that value. *)
Definition fileInformation (file : FileRecord) : Json :=
  JObject
    [("id", JNumber (id file));
     ("originalFilename", JString (originalFilename file));
     ("title", nullable (title file));
     ("description", nullable (description file));
     ("status", JString (statusText (status file)));
     ("extractedData",
      match extractedData file with
      | Some v => v
      | None => JNull
      end);
     ("uploadedAt", uploadedAtOf file)].

(** The handler of [router.get('/:id', auth, ...)], for the user
    [auth] has put in [req.user] and the [id] segment of the path. *)
Definition getFileHandler (user : User) (idParam : string) : M Response :=
  tryCatch
    (let fileId := Js.parseInt idParam in
     await found <- fileFindUnique fileId;
     match found with
     | None => ret (jsonError 404 "File not found")
     | Some file =>
         if negb (userId file =? userKey user)
         then ret (jsonError 403 "Access denied")
         else ret (mkResponse 200 (fileInformation file))
     end)
    (fun error =>
       exec consoleError "File retrieval error:" error;
       ret (jsonError 500 "Error retrieving file information")).

(** The two routes as mounted; the upload route is given what
    [upload.single('file')] has parsed from the request. *)
Definition getFileRoute (authHeader : option string) (idParam : string)
    : M Response :=
  behindAuth (fun user => getFileHandler user idParam) authHeader.

Definition uploadRoute (authHeader : option string)
    (file : option UploadedFile) (title description : option string)
    : M Response :=
  behindAuth
    (fun user => uploadHandler (mkRequest (userKey user) file title description))
    authHeader.

End Routes.

(* ===================================================================== *)
(** ** [src/index.js]: the error-handling middleware                      *)
(* ===================================================================== *)





(* ===================================================================== *)
(** ** What an attempt may change in the table                            *)
(* ===================================================================== *)

(** The columns the worker never writes. *)
Definition sameColumns (r r' : FileRecord) : Prop :=
  id r' = id r /\ userId r' = userId r
  /\ originalFilename r' = originalFilename r
  /\ storagePath r' = storagePath r
  /\ title r' = title r /\ description r' = description r.

(** From [w] to [w'] no row was created or deleted, every row kept the
    columns above, and every row but [rowId] kept all of them. *)
Definition rowsKept (rowId : Z) (w w' : World) : Prop :=
  forall k,
    match table w !! k, table w' !! k with
    | Some r, Some r' => sameColumns r r' /\ (k <> rowId -> r' = r)
    | None, None => True
    | _, _ => False
    end.

Definition keepsRows {A} (rowId : Z) (m : M A) : Prop :=
  forall w, rowsKept rowId w (m w).2.

(* ===================================================================== *)
(** ** The upload handler's row and answer                                *)
(* ===================================================================== *)

(** The row [router.post('/upload')] creates for the file [f] of the
    request, and the answer it gives once the job is queued. *)
Definition uploadedRow (req : Request) (f : UploadedFile) (w : World)
    : FileRecord :=
  mkFile (nextFileId w) (reqUserId req) (originalname f) (path f)
         (bodyTitle req) (bodyDescription req) uploaded None.

Definition uploadAccepted (row : FileRecord) : Response :=
  mkResponse 201
    (JObject
       [("id", JNumber (id row));
        ("status", JString (statusText (status row)));
        ("message",
         JString "File uploaded successfully and queued for processing")]).

(* ===================================================================== *)
(** ** Sample users, tokens and worlds for the routes                     *)
(* ===================================================================== *)

Module SampleRoutes.

Definition ann : User := mkUser 7 "ann@example.com".

Definition bob : User := mkUser 8 "bob@example.com".

Definition users : list User := [ann; bob].

Definition jwtVerify (token : string) : Outcome Decoded :=
  if String.eqb token "token-of-ann" then Returned (mkDecoded (Some 7))
  else if String.eqb token "token-of-bob" then Returned (mkDecoded (Some 8))
  else Thrown (mkError "jwt malformed").

Definition uploadedAtOf (file : FileRecord) : Json :=
  JString "2023-11-14T22:13:20.000Z".

(** The module loaded and Ann's upload of "hello world" made. *)
Definition uploadedOne : World :=
  (uploadHandler Sample.helloUpload Sample.loadedFresh).2.

(** The same, with a store that fails its second call. *)
Definition storeFailsSecond : World :=
  withFaults [None; Some (mkError "Can't reach database server"); None]
    uploadedOne.

(** The module loaded, with Redis failing the call after the next. *)
Definition redisDown : World :=
  withFaults [None; Some (mkError "Connection is closed.")] Sample.loadedFresh.

(** Two uploads made, with a store that fails its second call. *)
Definition storeFailsSecondOfTwo : World :=
  withFaults [None; Some (mkError "Can't reach database server")]
    Sample.uploadedTwo.

Definition helloInformation : Json :=
  JObject
    [("id", JNumber 1); ("originalFilename", JString "hello.txt");
     ("title", JString "greeting"); ("description", JNull);
     ("status", JString "uploaded"); ("extractedData", JNull);
     ("uploadedAt", JString "2023-11-14T22:13:20.000Z")].

End SampleRoutes.

(* ===================================================================== *)
(** ** Sample worlds in which the store or Redis fails                    *)
(* ===================================================================== *)

Module SampleStore.

Definition unreachable : JsError := mkError "Can't reach database server".

(** Two uploads made and the first job attempted once against a store
    that failed the first call: its row is [failed], the job waits for
    its retry, and the store answers again. *)
Definition failedOnce : World :=
  Engine.runJob 3 Sample.started 0 Sample.flaky.

(** Two uploads made, with a store that refuses the sixth call, the
    write of [failed] of the third attempt at a job. *)
Definition lastWriteRefused : World :=
  withFaults [None; None; None; None; None; Some unreachable]
    Sample.uploadedTwo.

(** Two uploads made, with a store that refuses every second call, the
    write of [failed] of each of three attempts at a job. *)
Definition failedWritesRefused : World :=
  withFaults [None; Some unreachable; None; Some unreachable;
              None; Some unreachable]
    Sample.uploadedTwo.

(** The module loaded, with the store answering twice and Redis then
    failing. *)
Definition redisDownThird : World :=
  withFaults [None; None; Some (mkError "Connection is closed.")]
    Sample.loadedFresh.

(** Two uploads made and both jobs attempted once: the first row is
    [processed], the second [failed]. *)
Definition attemptedBoth : World :=
  default Sample.fresh
    (performAll
       [DoUpload Sample.helloUpload; DoUpload Sample.missingUpload;
        DoPool Sample.started (Engine.Claim 0);
        DoPool Sample.started (Engine.Settle 0);
        DoPool Sample.started (Engine.Claim 1);
        DoPool Sample.started (Engine.Settle 1)]
       Sample.fresh).

(** Its two rows. *)
Definition processedHello : FileRecord :=
  mkFile 1 7 "hello.txt" "uploads/hello.txt" (Some "greeting") None processed
    (Some (resultJson
             (mkResult
                "b94d27b9934d3e08a52e52d7da7dabfac484efe37a5380ee9088f7ace2efcde9"
                11 "2023-11-14T22:13:22.000Z"))).

Definition failedGone : FileRecord :=
  mkFile 2 7 "gone.txt" "uploads/gone.txt" None None failed
    (Some (errorJson (message Sample.goneError))).

End SampleStore.

(* ===================================================================== *)
(** * Properties                                                          *)
(* ===================================================================== *)

(** ** The digest and the date on known inputs *)

Example sha256_abc :
  sha256Hex (list_byte_of_string "abc")
  = "ba7816bf8f01cfea414140de5dae2223b00361a396177a9cb410ff61f20015ad".
Proof. vm_compute. reflexivity. Qed.

Example sha256_empty :
  sha256Hex []
  = "e3b0c44298fc1c149afbf4c8996fb92427ae41e4649b934ca495991b7852b855".
Proof. vm_compute. reflexivity. Qed.

Example sha256_two_blocks :
  sha256Hex (list_byte_of_string
               "abcdbcdecdefdefgefghfghighijhijkijkljklmklmnlmnomnopnopq")
  = "248d6a61d20638b8e5c026930c3e6039a33ce45964ff2167f6ecedd419db06c1".
Proof. vm_compute. reflexivity. Qed.

Example sha256_hello_world :
  sha256Hex (list_byte_of_string "hello world")
  = "b94d27b9934d3e08a52e52d7da7dabfac484efe37a5380ee9088f7ace2efcde9".
Proof. vm_compute. reflexivity. Qed.

(** The digest is always sixty-four characters long. *)
Lemma sha256Hex_length (content : list byte) :
  String.length (sha256Hex content) = 64%nat.
Proof.
  unfold sha256Hex, Sha256.digestWords, Sha256.regsWords.
  generalize (Sha256.hashBlocks
                (length (Sha256.wordsOf (Sha256.pad content)))
                Sha256.initialHash (Sha256.wordsOf (Sha256.pad content))).
  intros r. reflexivity.
Qed.

Example toISOString_epoch :
  Text.toISOString 0 = "1970-01-01T00:00:00.000Z".
Proof. reflexivity. Qed.

Example toISOString_leap_day :
  Text.toISOString 951782400000 = "2000-02-29T00:00:00.000Z".
Proof. reflexivity. Qed.

Example toISOString_2023 :
  Text.toISOString 1700000000000 = "2023-11-14T22:13:20.000Z".
Proof. reflexivity. Qed.

(** ** [processFile] *)

Lemma processFile_readable w p B :
  disk w p = ReadOk B ->
  processFile p w
  = (Returned (mkResult (sha256Hex B) (Z.of_nat (length B))
                 (Text.toISOString (now w + (if isTest w then 100 else 2000)))),
     withNow (now w + (if isTest w then 100 else 2000)) w).
Proof.
  intros Hd. unfold processFile, tryCatch, bind, readFile.
  rewrite Hd. reflexivity.
Qed.

Lemma processFile_unreadable w p e :
  disk w p = ReadFail e ->
  processFile p w
  = (Thrown (mkError ("File processing failed: " ++ message e)), w).
Proof.
  intros Hd. unfold processFile, tryCatch, bind, readFile.
  rewrite Hd. reflexivity.
Qed.

(** C1. For every byte content [B], [processFile] on a path that
    resolves to [B] returns, and the result it returns has the
    hex-encoded SHA-256 of [B], sixty-four characters, as its [hash]
    and the length of [B] as its [size]; for the content "hello world"
    the size is 11 and the hash is the SHA-256 of "hello world" in
    hexadecimal. *)
Theorem processFile_digest_and_size :
  forall (w : World) (p : string) (B : list byte),
    disk w p = ReadOk B ->
    exists r w',
      processFile p w = (Returned r, w')
      /\ hash r = sha256Hex B
      /\ String.length (hash r) = 64%nat
      /\ size r = Z.of_nat (length B)
      /\ (B = list_byte_of_string "hello world" ->
          size r = 11
          /\ hash r
             = "b94d27b9934d3e08a52e52d7da7dabfac484efe37a5380ee9088f7ace2efcde9").
Proof.
  intros w p B Hd. eexists _, _.
  split; [apply (processFile_readable _ _ _ Hd)|].
  cbn [hash size]. split; [reflexivity|].
  split; [apply sha256Hex_length|]. split; [reflexivity|].
  intros ->. split; [reflexivity|]. apply sha256_hello_world.
Qed.

Lemma processFile_digest_and_size_witness :
  disk Sample.fresh "uploads/hello.txt"
  = ReadOk (list_byte_of_string "hello world")
  /\ exists r w',
      processFile "uploads/hello.txt" Sample.fresh = (Returned r, w')
      /\ size r = 11
      /\ hash r
         = "b94d27b9934d3e08a52e52d7da7dabfac484efe37a5380ee9088f7ace2efcde9".
Proof.
  assert (H : disk Sample.fresh "uploads/hello.txt"
              = ReadOk (list_byte_of_string "hello world")) by reflexivity.
  split; [exact H|].
  destruct (processFile_digest_and_size Sample.fresh "uploads/hello.txt" _ H)
    as (r & w' & Hp & _ & _ & _ & Hhello).
  exists r, w'. split; [exact Hp|]. apply Hhello. reflexivity.
Defined.

(** C7. The digest is a function of the bytes alone: two runs of
    [processFile], in whatever worlds (clock, environment, store) and
    on whatever paths, that read the same content return the same hex
    string, the SHA-256 of that content. *)
Theorem digest_deterministic :
  forall (w1 w2 : World) (p1 p2 : string) (B : list byte),
    disk w1 p1 = ReadOk B ->
    disk w2 p2 = ReadOk B ->
    digestOf (processFile p1 w1).1 = Some (sha256Hex B)
    /\ digestOf (processFile p2 w2).1 = digestOf (processFile p1 w1).1
    /\ digestOf (processFile p1 (processFile p1 w1).2).1
       = digestOf (processFile p1 w1).1.
Proof.
  intros w1 w2 p1 p2 B H1 H2.
  rewrite (processFile_readable _ _ _ H1), (processFile_readable _ _ _ H2).
  cbn [fst snd digestOf hash].
  rewrite (processFile_readable _ p1 B) by exact H1.
  repeat split.
Qed.

Lemma digest_deterministic_witness :
  digestOf (processFile "uploads/hello.txt" Sample.fresh).1
  = Some (sha256Hex (list_byte_of_string "hello world"))
  /\ digestOf (processFile "uploads/hello.txt" Sample.freshTest).1
     = digestOf (processFile "uploads/hello.txt" Sample.fresh).1
  /\ digestOf (processFile "uploads/hello.txt"
                 (processFile "uploads/hello.txt" Sample.fresh).2).1
     = digestOf (processFile "uploads/hello.txt" Sample.fresh).1.
Proof.
  apply (digest_deterministic Sample.fresh Sample.freshTest
           "uploads/hello.txt" "uploads/hello.txt"
           (list_byte_of_string "hello world")); reflexivity.
Defined.

(** ** What an attempt leaves untouched *)

Open Scope list_scope.

Lemma sameSetting_refl w : sameSetting w w.
Proof. unfold sameSetting. tauto. Qed.

Lemma sameSetting_trans w1 w2 w3 :
  sameSetting w1 w2 -> sameSetting w2 w3 -> sameSetting w1 w3.
Proof.
  unfold sameSetting. intros H12 H23.
  destruct_and!. repeat split; congruence.
Qed.

Lemma keeps_ret {A} (a : A) : keeps (ret a).
Proof. intros w. apply sameSetting_refl. Qed.

Lemma keeps_throw {A} e : keeps (@throw A e).
Proof. intros w. apply sameSetting_refl. Qed.

Lemma keeps_bind {A B} (m : M A) (k : A -> M B) :
  keeps m -> (forall a, keeps (k a)) -> keeps (bind m k).
Proof.
  intros Hm Hk w. unfold bind. specialize (Hm w).
  destruct (m w) as [[a|e] w1]; cbn [snd] in *; [|exact Hm].
  eapply sameSetting_trans; [exact Hm|apply Hk].
Qed.

Lemma keeps_tryCatch {A} (m : M A) (h : JsError -> M A) :
  keeps m -> (forall e, keeps (h e)) -> keeps (tryCatch m h).
Proof.
  intros Hm Hh w. unfold tryCatch. specialize (Hm w).
  destruct (m w) as [[a|e] w1]; cbn [snd] in *; [exact Hm|].
  eapply sameSetting_trans; [exact Hm|apply Hh].
Qed.

Lemma engineEvents_snoc t e :
  isEngineEvent e = false -> engineEvents (t ++ [e]) = engineEvents t.
Proof.
  intros He. unfold engineEvents. rewrite List.filter_app. cbn.
  rewrite He. apply app_nil_r.
Qed.

Lemma keeps_emit e : isEngineEvent e = false -> keeps (emit e).
Proof.
  intros He w. unfold sameSetting, emit. cbn.
  rewrite (engineEvents_snoc _ _ He). tauto.
Qed.

Lemma keeps_ioCall : keeps ioCall.
Proof.
  intros w. unfold ioCall.
  destruct (pendingFault w); cbn; unfold sameSetting; cbn; tauto.
Qed.

Lemma keeps_sleep ms : keeps (sleep ms).
Proof. intros w. unfold sameSetting. cbn. tauto. Qed.

Lemma keeps_dateNowISO : keeps dateNowISO.
Proof. intros w. apply sameSetting_refl. Qed.

Lemma keeps_readFile p : keeps (readFile p).
Proof.
  intros w. unfold readFile. destruct (disk w p); apply sameSetting_refl.
Qed.

Lemma keeps_updateRow rowId d : keeps (updateRow rowId d).
Proof.
  intros w. unfold updateRow.
  destruct (table w !! rowId); cbn; unfold sameSetting; cbn; tauto.
Qed.

Lemma keeps_fileUpdate rowId d : keeps (fileUpdate rowId d).
Proof.
  unfold fileUpdate.
  apply keeps_tryCatch; intros; repeat (apply keeps_bind; intros);
    auto using keeps_ioCall, keeps_updateRow, keeps_emit, keeps_ret,
               keeps_throw.
Qed.

Lemma keeps_processFile p : keeps (processFile p).
Proof.
  unfold processFile.
  apply keeps_tryCatch; intros; repeat (apply keeps_bind; intros);
    auto using keeps_readFile, keeps_dateNowISO, keeps_ret, keeps_throw,
               keeps_sleep.
Qed.

Lemma keeps_attemptBody j : keeps (attemptBody j).
Proof.
  unfold attemptBody. repeat (apply keeps_bind; intros);
    auto using keeps_fileUpdate, keeps_processFile, keeps_ret.
Qed.

Lemma keeps_consoleError text e : keeps (consoleError text e).
Proof. apply keeps_emit. reflexivity. Qed.

Lemma keeps_failureHandler j e : keeps (failureHandler j e).
Proof.
  unfold failureHandler. repeat (apply keeps_bind; intros);
    auto using keeps_consoleError, keeps_throw.
  apply keeps_tryCatch; intros; repeat (apply keeps_bind; intros);
    auto using keeps_fileUpdate, keeps_consoleError, keeps_ret.
Qed.

Lemma keeps_processor j : keeps (processor j).
Proof.
  unfold processor.
  apply keeps_tryCatch; auto using keeps_attemptBody, keeps_failureHandler.
Qed.

Lemma bind_returned {A B} (m : M A) (k : A -> M B) w a w' :
  m w = (Returned a, w') -> bind m k w = k a w'.
Proof. intros H. unfold bind. rewrite H. reflexivity. Qed.

Lemma bind_thrown {A B} (m : M A) (k : A -> M B) w e w' :
  m w = (Thrown e, w') -> bind m k w = (Thrown e, w').
Proof. intros H. unfold bind. rewrite H. reflexivity. Qed.

(** ** The store client, case by case *)

Lemma fileUpdate_fault rowId d w e :
  pendingFault w = Some e ->
  fileUpdate rowId d w
  = (Thrown e,
     withTrace (trace w ++ [EvUpdate rowId d false])
       (withFaults (tail (faults w)) w)).
Proof.
  intros Hf. unfold fileUpdate, tryCatch, bind, ioCall. rewrite Hf.
  reflexivity.
Qed.

Lemma fileUpdate_missing rowId d w :
  pendingFault w = None ->
  table w !! rowId = None ->
  fileUpdate rowId d w
  = (Thrown recordNotFound,
     withTrace (trace w ++ [EvUpdate rowId d false])
       (withFaults (tail (faults w)) w)).
Proof.
  intros Hf Ht. unfold fileUpdate, tryCatch, bind, ioCall, updateRow.
  rewrite Hf. cbn. rewrite Ht. reflexivity.
Qed.

Lemma fileUpdate_found rowId d w r :
  pendingFault w = None ->
  table w !! rowId = Some r ->
  fileUpdate rowId d w
  = (Returned (applyUpdate d r),
     withTrace (trace w ++ [EvUpdate rowId d true])
       (withTable (<[rowId := applyUpdate d r]> (table w))
          (withFaults (tail (faults w)) w))).
Proof.
  intros Hf Ht. unfold fileUpdate, tryCatch, bind, ioCall, updateRow.
  rewrite Hf. cbn. rewrite Ht. reflexivity.
Qed.

(** Every update ends in one of these two ways. *)
Lemma fileUpdate_cases rowId d w :
  (exists r,
      table w !! rowId = Some r
      /\ fileUpdate rowId d w
         = (Returned (applyUpdate d r),
            withTrace (trace w ++ [EvUpdate rowId d true])
              (withTable (<[rowId := applyUpdate d r]> (table w))
                 (withFaults (tail (faults w)) w))))
  \/ (exists e,
         fileUpdate rowId d w
         = (Thrown e,
            withTrace (trace w ++ [EvUpdate rowId d false])
              (withFaults (tail (faults w)) w))).
Proof.
  destruct (pendingFault w) as [e|] eqn:Hf.
  - right. exists e. apply fileUpdate_fault, Hf.
  - destruct (table w !! rowId) as [r|] eqn:Ht.
    + left. exists r. split; [reflexivity|]. apply fileUpdate_found; assumption.
    + right. exists recordNotFound. apply fileUpdate_missing; assumption.
Qed.

(** ** The queue engine: jobs, counts and steps *)

Lemma jobsOf_setJob k i q w :
  jobsOf (workerName k) (Engine.setJob k i q w)
  = <[i := q]> (jobsOf (workerName k) w).
Proof.
  unfold jobsOf at 1, Engine.setJob. cbn. rewrite lookup_insert_eq.
  reflexivity.
Qed.

Lemma jobsOf_sameSetting name w w' :
  sameSetting w w' -> jobsOf name w' = jobsOf name w.
Proof.
  unfold sameSetting, jobsOf. intros H. destruct_and!. congruence.
Qed.

Lemma jobsOf_processor name j w :
  jobsOf name (processor j w).2 = jobsOf name w.
Proof. apply jobsOf_sameSetting, keeps_processor. Qed.

Lemma sum_list_with_insert {A} (f : A -> nat) (l : list A) i x y :
  l !! i = Some x ->
  (sum_list_with f (<[i := y]> l) + f x = sum_list_with f l + f y)%nat.
Proof.
  revert i. induction l as [|a l IH]; intros [|i] Hi; simpl in *;
    try discriminate.
  - injection Hi as ->. lia.
  - specialize (IH i Hi). lia.
Qed.

Lemma step_claim k i w j :
  jobsOf (workerName k) w !! i = Some (mkQJob j Waiting) ->
  autorun k = true ->
  Z.of_nat (Engine.activeCount (jobsOf (workerName k) w)) < concurrency k ->
  Engine.step k (Engine.Claim i) w
  = Some (Engine.setJob k i (mkQJob j Active)
            (withTrace
               (trace w ++ [EvAttempt (jobId j) (attemptsMade j + 1) (now w)])
               w)).
Proof.
  intros Hi Ha Hc. unfold Engine.step. rewrite Hi, Ha.
  apply Z.ltb_lt in Hc. rewrite Hc. reflexivity.
Qed.

Lemma step_settle k i w j :
  jobsOf (workerName k) w !! i = Some (mkQJob j Active) ->
  Engine.step k (Engine.Settle i) w
  = Some (Engine.setJob k i
            (Engine.settle j (processor j w).1 (now (processor j w).2)).1
            (withTrace
               (trace (processor j w).2
                  ++ [(Engine.settle j (processor j w).1
                         (now (processor j w).2)).2])
               (processor j w).2)).
Proof.
  intros Hi. unfold Engine.step. rewrite Hi.
  destruct (processor j w) as [out w1]. cbn [fst snd].
  destruct (Engine.settle j out (now w1)) as [q ev]. reflexivity.
Qed.

Lemma step_promote k i w j t :
  jobsOf (workerName k) w !! i = Some (mkQJob j (Delayed t)) ->
  Engine.step k (Engine.Promote i) w
  = Some (Engine.setJob k i (mkQJob j Waiting)
            (withNow (Z.max (now w) t) w)).
Proof. intros Hi. unfold Engine.step. rewrite Hi. reflexivity. Qed.

Lemma settle_thrown_not_active j e t :
  Engine.isActive (Engine.settle j (Thrown e) t).1 = false.
Proof.
  unfold Engine.settle.
  destruct (Engine.retryPolicy _ _ _); reflexivity.
Qed.

Lemma settle_not_active j out t :
  Engine.isActive (Engine.settle j out t).1 = false.
Proof.
  destruct out; [reflexivity|apply settle_thrown_not_active].
Qed.

Lemma activeCount_insert js i x y :
  js !! i = Some x ->
  (Engine.activeCount (<[i := y]> js) + (if Engine.isActive x then 1 else 0)
   = Engine.activeCount js + (if Engine.isActive y then 1 else 0))%nat.
Proof.
  intros Hi. unfold Engine.activeCount.
  apply (sum_list_with_insert
           (fun q => if Engine.isActive q then 1 else 0)%nat _ _ _ _ Hi).
Qed.

(** ** The [catch] block of the processor *)

Lemma failureHandler_cases j E w1 :
  let d := mkUpdate failed (Some (errorJson (message E))) in
  exists w',
    failureHandler j E w1 = (Thrown E, w')
    /\ now w' = now w1
    /\ faults w' = tail (faults w1)
    /\ ((exists r,
            pendingFault w1 = None
            /\ table w1 !! fileId (data j) = Some r
            /\ table w' = <[fileId (data j) := applyUpdate d r]> (table w1)
            /\ trace w'
               = trace w1
                   ++ [EvConsoleError (failureLabel j) E;
                       EvUpdate (fileId (data j)) d true])
        \/ (exists ue,
               table w' = table w1
               /\ trace w'
                  = trace w1
                      ++ [EvConsoleError (failureLabel j) E;
                          EvUpdate (fileId (data j)) d false;
                          EvConsoleError "Failed to update file status:" ue])).
Proof.
  intros d. unfold failureHandler, consoleError.
  set (logged := (emit (EvConsoleError (failureLabel j) E) w1).2).
  destruct (pendingFault logged) as [e|] eqn:Hf;
    [|destruct (table logged !! fileId (data j)) as [r|] eqn:Ht].
  - eexists. split.
    { unfold bind at 1. cbn [emit]. unfold bind at 1, tryCatch at 1.
      unfold bind at 1. fold d.
      rewrite (fileUpdate_fault _ d _ e) by exact Hf. reflexivity. }
    cbn. repeat split. right. exists e. split; [reflexivity|].
    rewrite <- !app_assoc. reflexivity.
  - eexists. split.
    { unfold bind at 1. cbn [emit]. unfold bind at 1, tryCatch at 1.
      unfold bind at 1. fold d.
      rewrite (fileUpdate_found _ d _ r) by assumption. reflexivity. }
    cbn. repeat split. left. exists r. repeat split; try assumption.
    rewrite <- !app_assoc. reflexivity.
  - eexists. split.
    { unfold bind at 1. cbn [emit]. unfold bind at 1, tryCatch at 1.
      unfold bind at 1. fold d.
      rewrite (fileUpdate_missing _ d) by assumption. reflexivity. }
    cbn. repeat split. right. exists recordNotFound. split; [reflexivity|].
    rewrite <- !app_assoc. reflexivity.
Qed.

(** ** The failure path of an attempt *)

(** Whatever makes the [try] block of an attempt fail with [E], the
    worker logs it, tries the [failed] write, and throws [E] itself. *)
Lemma attempt_failure_handled :
  forall (j : Job) (w w1 : World) (E : JsError),
    attemptBody j w = (Thrown E, w1) ->
    let d := mkUpdate failed (Some (errorJson (message E))) in
    exists w',
      processor j w = (Thrown E, w')
      /\ ((exists r,
              table w1 !! fileId (data j) = Some r
              /\ table w' = <[fileId (data j) := applyUpdate d r]> (table w1)
              /\ trace w'
                 = trace w1
                     ++ [EvConsoleError (failureLabel j) E;
                         EvUpdate (fileId (data j)) d true])
          \/ (exists updateError,
                 table w' = table w1
                 /\ trace w'
                    = trace w1
                        ++ [EvConsoleError (failureLabel j) E;
                            EvUpdate (fileId (data j)) d false;
                            EvConsoleError "Failed to update file status:"
                              updateError]))
      /\ (forall k i,
             jobsOf (workerName k) w !! i = Some (mkQJob j Active) ->
             exists w'',
               Engine.step k (Engine.Settle i) w = Some w''
               /\ jobsOf (workerName k) w'' !! i
                  = Some (Engine.settle j (Thrown E) (now w')).1
               /\ Engine.isActive (Engine.settle j (Thrown E) (now w')).1
                  = false
               /\ S (Engine.activeCount (jobsOf (workerName k) w''))
                  = Engine.activeCount (jobsOf (workerName k) w)).
Proof.
  intros j w w1 E Hbody d.
  destruct (failureHandler_cases j E w1) as (w' & Hh & _ & _ & Hcases).
  assert (Hp : processor j w = (Thrown E, w')).
  { unfold processor, tryCatch. rewrite Hbody. exact Hh. }
  exists w'. split; [exact Hp|]. split.
  { destruct Hcases as [(r & _ & Hr & Ht & Htr)|(ue & Ht & Htr)].
    - left. exists r. auto.
    - right. exists ue. auto. }
  intros k i Hi. eexists. split; [apply (step_settle _ _ _ _ Hi)|].
  rewrite Hp. cbn [fst snd].
  rewrite jobsOf_setJob.
  assert (Hjobs : jobsOf (workerName k)
                    (withTrace
                       (trace w'
                          ++ [(Engine.settle j (Thrown E) (now w')).2]) w')
                  = jobsOf (workerName k) w).
  { transitivity (jobsOf (workerName k) (processor j w).2).
    - rewrite Hp. reflexivity.
    - apply jobsOf_processor. }
  rewrite Hjobs.
  split; [apply list_lookup_insert_eq, (lookup_lt_Some _ _ _ Hi)|].
  split; [apply settle_thrown_not_active|].
  pose proof (activeCount_insert _ _ _
                (Engine.settle j (Thrown E) (now w')).1 Hi) as Hc.
  rewrite settle_thrown_not_active in Hc.
  change (Engine.isActive (mkQJob j Active)) with true in Hc.
  cbv iota in Hc. lia.
Qed.

(** A failure of [processFile] is a failure of the [try] block. *)
Lemma attemptBody_processFile_fails j w r0 w0 w1 E :
  fileUpdate (fileId (data j)) (mkUpdate processing None) w
  = (Returned r0, w0) ->
  processFile (filePath (data j)) w0 = (Thrown E, w1) ->
  attemptBody j w = (Thrown E, w1).
Proof.
  intros Hu Hp. unfold attemptBody.
  erewrite bind_returned; [|exact Hu].
  erewrite bind_thrown; [reflexivity|exact Hp].
Qed.

(** C6. Whenever [processFile] fails in an attempt, with an error [E],
    the worker logs it, then tries to write status [failed] with [E]'s
    message to the row, and then throws [E] itself: either the write
    went through, or it failed, was logged, and changed nothing. In
    both cases the attempt ends with [E], which the engine hands to the
    retry decision, and the executor's slot is free again. *)
Theorem failure_reported_then_propagated :
  forall (j : Job) (w w0 w1 : World) (r0 : FileRecord) (E : JsError),
    fileUpdate (fileId (data j)) (mkUpdate processing None) w
    = (Returned r0, w0) ->
    processFile (filePath (data j)) w0 = (Thrown E, w1) ->
    let d := mkUpdate failed (Some (errorJson (message E))) in
    exists w',
      processor j w = (Thrown E, w')
      /\ ((exists r,
              table w1 !! fileId (data j) = Some r
              /\ table w' = <[fileId (data j) := applyUpdate d r]> (table w1)
              /\ trace w'
                 = trace w1
                     ++ [EvConsoleError (failureLabel j) E;
                         EvUpdate (fileId (data j)) d true])
          \/ (exists updateError,
                 table w' = table w1
                 /\ trace w'
                    = trace w1
                        ++ [EvConsoleError (failureLabel j) E;
                            EvUpdate (fileId (data j)) d false;
                            EvConsoleError "Failed to update file status:"
                              updateError]))
      /\ (forall k i,
             jobsOf (workerName k) w !! i = Some (mkQJob j Active) ->
             exists w'',
               Engine.step k (Engine.Settle i) w = Some w''
               /\ jobsOf (workerName k) w'' !! i
                  = Some (Engine.settle j (Thrown E) (now w')).1
               /\ Engine.isActive (Engine.settle j (Thrown E) (now w')).1
                  = false
               /\ S (Engine.activeCount (jobsOf (workerName k) w''))
                  = Engine.activeCount (jobsOf (workerName k) w)).
Proof.
  intros j w w0 w1 r0 E Hu Hp.
  apply attempt_failure_handled.
  apply (attemptBody_processFile_fails _ _ _ _ _ _ Hu Hp).
Qed.

Lemma failure_reported_then_propagated_witness :
  fileUpdate 2 (mkUpdate processing None) Sample.missingClaimed
  = (Returned (mkFile 2 7 "gone.txt" "uploads/gone.txt" None None
                 processing None),
     (fileUpdate 2 (mkUpdate processing None) Sample.missingClaimed).2)
  /\ processFile "uploads/gone.txt"
       (fileUpdate 2 (mkUpdate processing None) Sample.missingClaimed).2
     = (Thrown Sample.goneError,
        (fileUpdate 2 (mkUpdate processing None) Sample.missingClaimed).2)
  /\ exists w',
      processor Sample.missingJob Sample.missingClaimed
      = (Thrown Sample.goneError, w').
Proof.
  assert (H1 : fileUpdate (fileId (data Sample.missingJob))
                 (mkUpdate processing None) Sample.missingClaimed
               = (Returned (mkFile 2 7 "gone.txt" "uploads/gone.txt" None None
                              processing None),
                  (fileUpdate 2 (mkUpdate processing None)
                     Sample.missingClaimed).2))
    by (vm_compute; reflexivity).
  assert (H2 : processFile (filePath (data Sample.missingJob))
                 (fileUpdate 2 (mkUpdate processing None)
                    Sample.missingClaimed).2
               = (Thrown Sample.goneError,
                  (fileUpdate 2 (mkUpdate processing None)
                     Sample.missingClaimed).2))
    by (vm_compute; reflexivity).
  split; [exact H1|]. split; [exact H2|].
  destruct (failure_reported_then_propagated _ _ _ _ _ _ H1 H2)
    as (w' & Hp & _).
  exists w'. exact Hp.
Defined.

(** ** The module's singletons and the upload handler *)

Lemma initializeQueue_set w q :
  fileQueue w = Some q -> initializeQueue w = (Returned q, w).
Proof. intros H. unfold initializeQueue. rewrite H. reflexivity. Qed.

Lemma initializeQueue_unset w :
  fileQueue w = None ->
  initializeQueue w
  = (Returned (nextRef w),
     withFileQueue (Some (nextRef w))
       (withNextRef (nextRef w + 1)
          (withQueues (<[nextRef w := mkQueue "fileProcessing" queueOptions]> (queues w))
             (withTrace (trace w ++ [EvNewQueue (nextRef w)]) w)))).
Proof. intros H. unfold initializeQueue. rewrite H. reflexivity. Qed.


Lemma initializeWorker_unset w :
  worker w = None ->
  initializeWorker w
  = (Returned (nextRef w),
     withWorker (Some (nextRef w))
       (withNextRef (nextRef w + 1)
          (withWorkers
             (<[nextRef w := mkWorker "fileProcessing"
                               (if isTest w then 1 else 5) (negb (isTest w))]>
                (workers w))
             (withTrace (trace w ++ [EvNewWorker (nextRef w)]) w)))).
Proof. intros H. unfold initializeWorker. rewrite H. reflexivity. Qed.

Lemma queueAdd_cases q name d w :
  (exists e, queueAdd q name d w = (Thrown e, withFaults (tail (faults w)) w))
  \/ (exists qo,
         queues w !! q = Some qo
         /\ let j := mkJob (Text.decimal
                              (Z.of_nat (length (jobsOf (queueName qo) w)) + 1))
                       name d (defaultJobOptions qo) 0 in
            queueAdd q name d w
            = (Returned j,
               withRedis
                 (<[queueName qo := jobsOf (queueName qo) w ++ [mkQJob j Waiting]]>
                    (redis w))
                 (withTrace (trace w ++ [EvQueueAdd q j])
                    (withFaults (tail (faults w)) w)))).
Proof.
  unfold queueAdd, bind, ioCall.
  destruct (pendingFault w) as [e|] eqn:Hf.
  - left. exists e. reflexivity.
  - cbn. destruct (queues w !! q) as [qo|] eqn:Hq.
    + right. exists qo. split; reflexivity.
    + left. eexists. reflexivity.
Qed.

Lemma fileCreate_cases d w :
  (exists e, pendingFault w = Some e
     /\ fileCreate d w = (Thrown e, withFaults (tail (faults w)) w))
  \/ (pendingFault w = None
      /\ let row := mkFile (nextFileId w) (createUserId d)
                      (createOriginalFilename d) (createStoragePath d)
                      (createTitle d) (createDescription d)
                      (createStatus d) None in
         fileCreate d w
         = (Returned row,
            withTrace (trace w ++ [EvCreate row])
              (withNextFileId (nextFileId w + 1)
                 (withTable (<[nextFileId w := row]> (table w))
                    (withFaults (tail (faults w)) w))))).
Proof.
  unfold fileCreate, bind, ioCall.
  destruct (pendingFault w) as [e|] eqn:Hf.
  - left. exists e. split; reflexivity.
  - right. split; reflexivity.
Qed.






(** C9. Every upload answered with 201 has created its row with status
    [uploaded], and only after that submitted the job that refers to
    the row (at most the construction of the queue lies in between);
    the row is unchanged when the handler ends, and the response
    reports the status [uploaded] of the row just created. *)
Theorem upload_creates_row_before_job :
  forall (req : Request) (w w' : World) (resp : Response),
    uploadHandler req w = (Returned resp, w') ->
    statusCode resp = 201 ->
    exists (f : UploadedFile) (row : FileRecord) (q : Z) (j : Job)
           (constructed : list Event),
      reqFile req = Some f
      /\ row = mkFile (nextFileId w) (reqUserId req) (originalname f)
                      (path f) (bodyTitle req) (bodyDescription req)
                      uploaded None
      /\ trace w' = trace w ++ [EvCreate row] ++ constructed ++ [EvQueueAdd q j]
      /\ (constructed = [] \/ constructed = [EvNewQueue q])
      /\ data j = mkJobData (id row) (path f)
      /\ table w' !! id row = Some row
      /\ jsonField "status" (body resp) = Some (JString "uploaded")
      /\ jsonField "id" (body resp) = Some (JNumber (id row)).
Proof.
  intros req w w' resp Hrun Hcode.
  unfold uploadHandler, tryCatch in Hrun.
  destruct (reqFile req) as [f|] eqn:Hfile.
  2:{ cbn in Hrun. injection Hrun as <- <-. discriminate. }
  unfold bind at 1 in Hrun.
  destruct (fileCreate_cases
              (mkCreate (reqUserId req) (originalname f) (path f)
                 (bodyTitle req) (bodyDescription req) uploaded) w)
    as [(e & _ & Hc)|(_ & Hc)]; cbv zeta in Hc; rewrite Hc in Hrun.
  { cbn in Hrun. injection Hrun as <- <-. discriminate. }
  cbn [id createUserId createOriginalFilename createStoragePath createTitle
       createDescription createStatus] in Hrun.
  set (row := mkFile (nextFileId w) (reqUserId req) (originalname f) (path f)
                (bodyTitle req) (bodyDescription req) uploaded None) in *.
  set (w1 := withTrace _ _) in Hrun.
  unfold bind at 1, addFileProcessingJob in Hrun.
  unfold bind at 1 in Hrun.
  destruct (fileQueue w1) as [q|] eqn:Hq.
  - rewrite (initializeQueue_set _ _ Hq) in Hrun.
    destruct (queueAdd_cases q "processFile"
                (mkJobData (nextFileId w) (path f)) w1)
      as [(e & Ha)|(qo & Hqo & Ha)]; cbv zeta in Ha; rewrite Ha in Hrun.
    { cbn in Hrun. injection Hrun as <- <-. discriminate. }
    cbn in Hrun. injection Hrun as <- <-.
    eexists f, row, q, _, []. cbn.
    repeat split;
      first [ reflexivity | apply lookup_insert_eq
            | left; reflexivity
            | rewrite <- !app_assoc; reflexivity ].
  - rewrite (initializeQueue_unset _ Hq) in Hrun.
    set (w2 := withFileQueue _ _) in Hrun.
    destruct (queueAdd_cases (nextRef w1) "processFile"
                (mkJobData (nextFileId w) (path f)) w2)
      as [(e & Ha)|(qo & Hqo & Ha)]; cbv zeta in Ha; rewrite Ha in Hrun.
    { cbn in Hrun. injection Hrun as <- <-. discriminate. }
    cbn in Hrun. injection Hrun as <- <-.
    eexists f, row, (nextRef w), _, [EvNewQueue (nextRef w)]. cbn.
    repeat split;
      first [ reflexivity | apply lookup_insert_eq
            | right; reflexivity
            | rewrite <- !app_assoc; reflexivity ].
Qed.

Lemma upload_creates_row_before_job_witness :
  uploadHandler Sample.helloUpload Sample.loadedFresh
  = (Returned Sample.helloResponse,
     (uploadHandler Sample.helloUpload Sample.loadedFresh).2)
  /\ statusCode Sample.helloResponse = 201
  /\ exists (f : UploadedFile) (row : FileRecord) (q : Z) (j : Job)
            (constructed : list Event),
      reqFile Sample.helloUpload = Some f
      /\ row = mkFile (nextFileId Sample.loadedFresh)
                 (reqUserId Sample.helloUpload) (originalname f) (path f)
                 (bodyTitle Sample.helloUpload)
                 (bodyDescription Sample.helloUpload) uploaded None
      /\ trace (uploadHandler Sample.helloUpload Sample.loadedFresh).2
         = trace Sample.loadedFresh
             ++ [EvCreate row] ++ constructed ++ [EvQueueAdd q j]
      /\ (constructed = [] \/ constructed = [EvNewQueue q])
      /\ data j = mkJobData (id row) (path f)
      /\ table (uploadHandler Sample.helloUpload Sample.loadedFresh).2
           !! id row = Some row
      /\ jsonField "status" (body Sample.helloResponse)
         = Some (JString "uploaded")
      /\ jsonField "id" (body Sample.helloResponse) = Some (JNumber (id row)).
Proof.
  assert (H : uploadHandler Sample.helloUpload Sample.loadedFresh
              = (Returned Sample.helloResponse,
                 (uploadHandler Sample.helloUpload Sample.loadedFresh).2))
    by (vm_compute; reflexivity).
  split; [exact H|]. split; [reflexivity|].
  exact (upload_creates_row_before_job _ _ _ _ H eq_refl).
Defined.

Import Engine.

(** ** The pool: the cap on active jobs, and termination *)

Lemma settle_remaining j out t :
  (remaining (settle j out t).1 < remaining (mkQJob j Active))%nat.
Proof.
  unfold settle, retryPolicy, remaining. destruct out as [r|e]; cbn; [lia|].
  destruct (attemptsMade j + 1 <? attempts (opts j)) eqn:Hlt; cbn; [|lia].
  apply Z.ltb_lt in Hlt.
  replace (Z.to_nat (attempts (opts j) - (attemptsMade j + 1)))
    with (Z.to_nat (attempts (opts j) - attemptsMade j) - 1)%nat by lia.
  lia.
Qed.

(** Every step of the pool rewrites one job of the queue, and brings
    it closer to a terminal state; it makes a job active only when
    there is room. *)
Lemma step_shape k a w w' :
  step k a w = Some w' ->
  exists i q q',
    jobsOf (workerName k) w !! i = Some q
    /\ jobsOf (workerName k) w' = <[i := q']> (jobsOf (workerName k) w)
    /\ (remaining q' < remaining q)%nat
    /\ (isActive q' = true ->
        isActive q = false
        /\ Z.of_nat (activeCount (jobsOf (workerName k) w)) < concurrency k).
Proof.
  intros Hs. unfold step in Hs. destruct a as [i|i|i];
    destruct (jobsOf (workerName k) w !! i) as [[j st]|] eqn:Hi;
    try discriminate; destruct st; try discriminate.
  - destruct (autorun k) eqn:Hrun; [|discriminate].
    destruct (Z.of_nat _ <? concurrency k) eqn:Hcap; [|discriminate].
    cbn [andb] in Hs. injection Hs as <-.
    eexists i, _, _. split; [exact Hi|].
    rewrite jobsOf_setJob. split; [reflexivity|].
    split; [cbn; lia|]. intros _. split; [reflexivity|].
    apply Z.ltb_lt, Hcap.
  - destruct (processor j w) as [out w1] eqn:Hp.
    destruct (settle j out (now w1)) as [q ev] eqn:Hq.
    injection Hs as <-. eexists i, _, q. split; [exact Hi|].
    rewrite jobsOf_setJob.
    change (jobsOf (workerName k) (withTrace _ w1))
      with (jobsOf (workerName k) w1).
    replace w1 with (processor j w).2 by (rewrite Hp; reflexivity).
    rewrite jobsOf_processor. split; [reflexivity|].
    replace q with (settle j out (now w1)).1 by (rewrite Hq; reflexivity).
    split; [apply settle_remaining|].
    rewrite settle_not_active. discriminate.
  - injection Hs as <-. eexists i, _, _. split; [exact Hi|].
    rewrite jobsOf_setJob. split; [reflexivity|].
    split; [cbn; lia|]. discriminate.
Qed.

Lemma step_measure k a w w' :
  step k a w = Some w' ->
  (measure (jobsOf (workerName k) w') < measure (jobsOf (workerName k) w))%nat.
Proof.
  intros Hs. destruct (step_shape _ _ _ _ Hs) as (i & q & q' & Hi & -> & Hr & _).
  pose proof (sum_list_with_insert remaining _ _ _ q' Hi) as H.
  unfold measure. lia.
Qed.

Lemma step_activeCount k a w w' :
  step k a w = Some w' ->
  Z.of_nat (activeCount (jobsOf (workerName k) w)) <= concurrency k ->
  Z.of_nat (activeCount (jobsOf (workerName k) w')) <= concurrency k.
Proof.
  intros Hs Hc. destruct (step_shape _ _ _ _ Hs) as (i & q & q' & Hi & -> & _ & Ha).
  pose proof (activeCount_insert _ _ _ q' Hi) as H.
  destruct (isActive q') eqn:Hq'.
  - destruct (Ha eq_refl) as [Hq Hlt]. rewrite Hq in H. lia.
  - destruct (isActive q); lia.
Qed.

Lemma activeCount_app js1 js2 :
  activeCount (js1 ++ js2) = (activeCount js1 + activeCount js2)%nat.
Proof. unfold activeCount. apply sum_list_with_app. Qed.

Lemma submit_activeCount name fid fp w :
  activeCount (jobsOf name (addFileProcessingJob fid fp w).2)
  = activeCount (jobsOf name w).
Proof.
  unfold addFileProcessingJob.
  assert (Hadd : forall q v,
             activeCount
               (jobsOf name (queueAdd q "processFile" (mkJobData fid fp) v).2)
             = activeCount (jobsOf name v)).
  { intros q v. destruct (queueAdd_cases q "processFile" (mkJobData fid fp) v)
      as [(e & ->)|(qo & _ & Ha)]; [reflexivity|].
    cbv zeta in Ha. rewrite Ha. cbn [snd]. unfold jobsOf at 1. cbn [redis withRedis].
    rewrite lookup_insert. case_decide as Hn.
    - subst name. cbn.
      change (default [] (redis v !! queueName qo))
        with (jobsOf (queueName qo) v).
      rewrite activeCount_app. cbn. lia.
    - reflexivity. }
  unfold bind. destruct (fileQueue w) as [q|] eqn:Hq.
  - rewrite (initializeQueue_set _ _ Hq). apply Hadd.
  - rewrite (initializeQueue_unset _ Hq). rewrite Hadd. reflexivity.
Qed.

Lemma moves_activeCount k ms : forall w w',
  moves k ms w = Some w' ->
  Z.of_nat (activeCount (jobsOf (workerName k) w)) <= concurrency k ->
  Z.of_nat (activeCount (jobsOf (workerName k) w')) <= concurrency k.
Proof.
  induction ms as [|m ms IH]; intros w w' Hm Hc; cbn in Hm.
  - injection Hm as <-. exact Hc.
  - destruct (move k m w) as [w1|] eqn:H1; [|discriminate].
    apply (IH w1 w' Hm). destruct m as [a|fid fp]; cbn in H1.
    + apply (step_activeCount _ _ _ _ H1 Hc).
    + injection H1 as <-. rewrite submit_activeCount. exact Hc.
Qed.

Lemma run_measure k acts : forall w w',
  run k acts w = Some w' ->
  (length acts + measure (jobsOf (workerName k) w')
   <= measure (jobsOf (workerName k) w))%nat.
Proof.
  induction acts as [|a acts IH]; intros w w' Hr; cbn in Hr.
  - injection Hr as <-. cbn. lia.
  - destruct (step k a w) as [w1|] eqn:H1; [|discriminate].
    specialize (IH _ _ Hr). pose proof (step_measure _ _ _ _ H1). cbn. lia.
Qed.

Lemma activeCount_none js :
  (forall i q, js !! i = Some q -> isActive q = false) ->
  activeCount js = 0%nat.
Proof.
  induction js as [|q js IH]; intros H; [reflexivity|].
  unfold activeCount in *. cbn. rewrite (H 0%nat q eq_refl).
  rewrite IH; [reflexivity|]. intros i q' Hi. apply (H (S i) q' Hi).
Qed.

(** A started pool with room for one job is stuck only when every job
    is terminal. *)
Lemma stuck_terminal k w :
  autorun k = true ->
  1 <= concurrency k ->
  (forall a, step k a w = None) ->
  forallb isTerminal (jobsOf (workerName k) w) = true.
Proof.
  intros Hrun Hc Hstuck.
  assert (Hna : forall i q, jobsOf (workerName k) w !! i = Some q ->
                            isActive q = false).
  { intros i [j st] Hi. destruct st; try reflexivity.
    specialize (Hstuck (Settle i)).
    rewrite (step_settle _ _ _ _ Hi) in Hstuck. discriminate. }
  apply forallb_forall. intros [j st] Hin.
  apply list_elem_of_In, list_elem_of_lookup in Hin. destruct Hin as [i Hi].
  destruct st; try reflexivity; exfalso.
  - specialize (Hstuck (Claim i)).
    rewrite (step_claim _ _ _ _ Hi Hrun) in Hstuck; [discriminate|].
    rewrite (activeCount_none _ Hna). lia.
  - specialize (Hstuck (Promote i)).
    rewrite (step_promote _ _ _ _ _ Hi) in Hstuck. discriminate.
  - specialize (Hna _ _ Hi). discriminate.
Qed.

Lemma firstIndex_Some p js : forall i,
  firstIndex p js = Some i -> exists q, js !! i = Some q /\ p q = true.
Proof.
  induction js as [|q js IH]; intros i H; cbn in H; [discriminate|].
  destruct (p q) eqn:Hp.
  - injection H as <-. exists q. split; [reflexivity|exact Hp].
  - destruct (firstIndex p js) as [i'|]; [|discriminate].
    injection H as <-. apply (IH i' eq_refl).
Qed.

Lemma firstIndex_None p js :
  firstIndex p js = None -> forall i q, js !! i = Some q -> p q = false.
Proof.
  induction js as [|q0 js IH]; intros H i q Hi; [destruct i; discriminate|].
  cbn in H. destruct (p q0) eqn:Hp; [discriminate|].
  destruct (firstIndex p js) eqn:Hf; [discriminate|].
  destruct i as [|i]; cbn in Hi.
  - injection Hi as <-. exact Hp.
  - apply (IH eq_refl i q Hi).
Qed.

(** What the scheduler picks can be done. *)
Lemma schedule_enabled k w a :
  schedule k w = Some a -> exists w', step k a w = Some w'.
Proof.
  unfold schedule. intros H.
  destruct (autorun k && (Z.of_nat (activeCount (jobsOf (workerName k) w))
                          <? concurrency k)) eqn:Hroom.
  - destruct (firstIndex isWaiting (jobsOf (workerName k) w)) as [i|] eqn:Hw.
    + injection H as <-.
      destruct (firstIndex_Some _ _ _ Hw) as ([j st] & Hi & Hq).
      destruct st; try discriminate.
      apply andb_true_iff in Hroom as [Hrun Hcap]. apply Z.ltb_lt in Hcap.
      eexists. apply (step_claim _ _ _ _ Hi Hrun Hcap).
    + destruct (firstIndex isActive (jobsOf (workerName k) w)) as [i|] eqn:Ha.
      * injection H as <-.
        destruct (firstIndex_Some _ _ _ Ha) as ([j st] & Hi & Hq).
        destruct st; try discriminate.
        eexists. apply (step_settle _ _ _ _ Hi).
      * destruct (firstIndex isDelayed (jobsOf (workerName k) w)) as [i|] eqn:Hd;
          [|discriminate].
        injection H as <-.
        destruct (firstIndex_Some _ _ _ Hd) as ([j st] & Hi & Hq).
        destruct st; try discriminate.
        eexists. apply (step_promote _ _ _ _ _ Hi).
  - destruct (firstIndex isActive (jobsOf (workerName k) w)) as [i|] eqn:Ha.
    + injection H as <-.
      destruct (firstIndex_Some _ _ _ Ha) as ([j st] & Hi & Hq).
      destruct st; try discriminate.
      eexists. apply (step_settle _ _ _ _ Hi).
    + destruct (firstIndex isDelayed (jobsOf (workerName k) w)) as [i|] eqn:Hd;
        [|discriminate].
      injection H as <-.
      destruct (firstIndex_Some _ _ _ Hd) as ([j st] & Hi & Hq).
      destruct st; try discriminate.
      eexists. apply (step_promote _ _ _ _ _ Hi).
Qed.

(** The scheduler of a started pool gives up only when every job is
    terminal. *)
Lemma schedule_none k w :
  autorun k = true ->
  1 <= concurrency k ->
  schedule k w = None ->
  forallb isTerminal (jobsOf (workerName k) w) = true.
Proof.
  intros Hrun Hc. unfold schedule.
  set (js := jobsOf (workerName k) w).
  destruct (firstIndex isActive js) as [i|] eqn:Ha.
  { destruct (autorun k && _); [destruct (firstIndex isWaiting js)|];
      cbn; intros ?; discriminate. }
  destruct (firstIndex isDelayed js) as [i|] eqn:Hd.
  { destruct (autorun k && _); [destruct (firstIndex isWaiting js)|];
      cbn; intros ?; discriminate. }
  rewrite Hrun, (activeCount_none js (firstIndex_None _ _ Ha)).
  cbn [andb]. change (Z.of_nat 0) with 0.
  destruct (0 <? concurrency k) eqn:H0; [|apply Z.ltb_ge in H0; lia].
  destruct (firstIndex isWaiting js) as [i|] eqn:Hw;
    [intros ?; discriminate|].
  intros _.
  apply forallb_forall. intros [j st] Hin.
  apply list_elem_of_In, list_elem_of_lookup in Hin. destruct Hin as [i Hi].
  pose proof (firstIndex_None _ _ Ha _ _ Hi).
  pose proof (firstIndex_None _ _ Hd _ _ Hi).
  pose proof (firstIndex_None _ _ Hw _ _ Hi).
  destruct st; try reflexivity; discriminate.
Qed.

Lemma measure_zero_terminal js :
  measure js = 0%nat -> forallb isTerminal js = true.
Proof.
  induction js as [|[j st] js IH]; intros H; [reflexivity|].
  change (measure (mkQJob j st :: js))
    with (remaining (mkQJob j st) + measure js)%nat in H.
  unfold remaining in H. cbn [state job] in H.
  destruct st; first [lia | apply IH; lia].
Qed.

(** Under its scheduler a started pool ends with every job terminal,
    given fuel for the steps the jobs are away from that; and it never
    has more jobs active than its cap. *)
Lemma runPool_drains k : forall fuel w peak,
  autorun k = true ->
  1 <= concurrency k ->
  (measure (jobsOf (workerName k) w) <= fuel)%nat ->
  forallb isTerminal (jobsOf (workerName k) (runPool fuel k w peak).1) = true.
Proof.
  induction fuel as [|fuel IH]; intros w peak Hrun Hc Hm; cbn [runPool].
  - apply measure_zero_terminal. cbn. lia.
  - destruct (schedule k w) as [a|] eqn:Hs; cbn.
    + destruct (schedule_enabled _ _ _ Hs) as [w' Hw']. rewrite Hw'.
      apply IH; try assumption.
      pose proof (step_measure _ _ _ _ Hw'). lia.
    + apply schedule_none; assumption.
Qed.

Lemma runPool_peak k : forall fuel w peak,
  Z.of_nat (activeCount (jobsOf (workerName k) w)) <= concurrency k ->
  Z.of_nat peak <= concurrency k ->
  Z.of_nat (runPool fuel k w peak).2 <= concurrency k.
Proof.
  induction fuel as [|fuel IH]; intros w peak Hc Hp; cbn [runPool].
  - cbn. lia.
  - destruct (schedule k w) as [a|] eqn:Hs; cbn.
    + destruct (step k a w) as [w'|] eqn:Hw'; cbn; [|lia].
      apply IH; [apply (step_activeCount _ _ _ _ Hw' Hc)|lia].
    + lia.
Qed.

Lemma run_stuck_terminal k acts w w' :
  autorun k = true ->
  1 <= concurrency k ->
  run k acts w = Some w' ->
  (forall a, step k a w' = None) ->
  forallb isTerminal (jobsOf (workerName k) w') = true.
Proof. intros Hrun Hc _ Hstuck. apply stuck_terminal; assumption. Qed.

(** ** A job whose content never resolves *)

Lemma pendingFault_nil w : faults w = [] -> pendingFault w = None.
Proof. intros H. unfold pendingFault. rewrite H. reflexivity. Qed.

(** The [try] block on a path that cannot be read. *)
Lemma attemptBody_unreadable j w e0 :
  disk w (filePath (data j)) = ReadFail e0 ->
  exists E w1,
    attemptBody j w = (Thrown E, w1)
    /\ now w1 = now w
    /\ (forall r,
           faults w = [] ->
           table w !! fileId (data j) = Some r ->
           E = processingError e0
           /\ faults w1 = []
           /\ table w1 !! fileId (data j)
              = Some (applyUpdate (mkUpdate processing None) r)).
Proof.
  intros Hd. unfold attemptBody.
  destruct (fileUpdate_cases (fileId (data j)) (mkUpdate processing None) w)
    as [(r & Hr & Hu)|(e & Hu)].
  - eexists _, _. split.
    { erewrite bind_returned; [|exact Hu].
      erewrite bind_thrown; [reflexivity|].
      apply processFile_unreadable. exact Hd. }
    cbn. split; [reflexivity|]. intros r' Hf Hr'. rewrite Hf.
    rewrite Hr in Hr'. injection Hr' as <-.
    repeat split. apply lookup_insert_eq.
  - eexists _, _. split; [erewrite bind_thrown; [reflexivity|exact Hu]|].
    cbn. split; [reflexivity|]. intros r Hf Hr.
    exfalso. 
    rewrite (fileUpdate_found _ _ _ r) in Hu; auto using pendingFault_nil.
    discriminate.
Qed.

Lemma processor_unreadable j w e0 :
  disk w (filePath (data j)) = ReadFail e0 ->
  exists E w',
    processor j w = (Thrown E, w')
    /\ now w' = now w
    /\ (forall r,
           faults w = [] ->
           table w !! fileId (data j) = Some r ->
           E = processingError e0
           /\ faults w' = []
           /\ table w' !! fileId (data j)
              = Some (applyUpdate
                        (mkUpdate failed (Some (errorJson (message E)))) r)).
Proof.
  intros Hd.
  destruct (attemptBody_unreadable j w e0 Hd) as (E & w1 & Hb & Hn & Hp).
  destruct (failureHandler_cases j E w1) as (w' & Hh & Hn' & Hf' & Hcases).
  exists E, w'. split.
  { unfold processor, tryCatch. rewrite Hb. exact Hh. }
  split; [congruence|]. intros r Hf Hr.
  destruct (Hp r Hf Hr) as (HE & Hf1 & Hr1).
  split; [exact HE|]. split; [rewrite Hf', Hf1; reflexivity|].
  destruct Hcases as [(r1 & _ & Hr1' & Ht & _)|(ue & Ht & Htr)].
  - rewrite Hr1 in Hr1'. injection Hr1' as <-.
    rewrite Ht, lookup_insert_eq. reflexivity.
  - exfalso.
    (* the write cannot have failed *)
    unfold failureHandler in Hh.
    erewrite bind_returned in Hh; [|reflexivity].
    unfold bind at 1, tryCatch at 1 in Hh.
    erewrite bind_returned in Hh.
    2:{ apply (fileUpdate_found _ _ _ (applyUpdate (mkUpdate processing None) r)).
        - apply pendingFault_nil. exact Hf1.
        - exact Hr1. }
    cbn in Hh. injection Hh as <-. cbn in Htr.
    rewrite <- !app_assoc in Htr. apply app_inv_head in Htr. discriminate.
Qed.

Lemma activeCount_insert_same js i x y :
  js !! i = Some x ->
  isActive x = isActive y ->
  activeCount (<[i := y]> js) = activeCount js.
Proof.
  intros Hi Ha. pose proof (activeCount_insert js i x y Hi) as H.
  rewrite Ha in H. lia.
Qed.

Lemma runJob_step fuel k i w q a w' :
  jobsOf (workerName k) w !! i = Some q ->
  nextAction i q = Some a ->
  step k a w = Some w' ->
  runJob (S fuel) k i w = runJob fuel k i w'.
Proof. intros Hq Ha Hs. cbn [runJob]. rewrite Hq. cbn. rewrite Ha, Hs. reflexivity. Qed.

Lemma runJob_done fuel k i w q :
  jobsOf (workerName k) w !! i = Some q ->
  nextAction i q = None ->
  runJob fuel k i w = w.
Proof.
  intros Hq Ha. destruct fuel; [reflexivity|].
  cbn [runJob]. rewrite Hq. cbn. rewrite Ha. reflexivity.
Qed.

(** A claim followed by the end of an attempt that cannot read its
    content. *)
Lemma failed_attempt k i w j e0 :
  autorun k = true ->
  Z.of_nat (activeCount (jobsOf (workerName k) w)) < concurrency k ->
  jobsOf (workerName k) w !! i = Some (mkQJob j Waiting) ->
  disk w (filePath (data j)) = ReadFail e0 ->
  exists E w1 w2,
    step k (Claim i) w = Some w1
    /\ step k (Settle i) w1 = Some w2
    /\ jobsOf (workerName k) w2
       = <[i := (settle j (Thrown E) (now w)).1]> (jobsOf (workerName k) w)
    /\ now w2 = now w
    /\ disk w2 = disk w
    /\ engineEvents (trace w2)
       = engineEvents (trace w)
           ++ [EvAttempt (jobId j) (attemptsMade j + 1) (now w);
               (settle j (Thrown E) (now w)).2]
    /\ (forall r,
           faults w = [] ->
           table w !! fileId (data j) = Some r ->
           E = processingError e0
           /\ faults w2 = []
           /\ table w2 !! fileId (data j)
              = Some (applyUpdate
                        (mkUpdate failed (Some (errorJson (message E)))) r)).
Proof.
  intros Hrun Hcap Hi Hd.
  set (w1 := setJob k i (mkQJob j Active)
               (withTrace
                  (trace w ++ [EvAttempt (jobId j) (attemptsMade j + 1) (now w)])
                  w)).
  assert (Hi1 : jobsOf (workerName k) w1 !! i = Some (mkQJob j Active)).
  { unfold w1. rewrite jobsOf_setJob.
    apply list_lookup_insert_eq, (lookup_lt_Some _ _ _ Hi). }
  destruct (processor_unreadable j w1 e0 Hd) as (E & w' & Hp & Hn & Hprec).
  pose proof (keeps_processor j w1) as Hk. rewrite Hp in Hk. cbn [snd] in Hk.
  eexists E, w1, _. split; [apply step_claim; assumption|].
  split; [apply (step_settle _ _ _ _ Hi1)|].
  rewrite Hp. cbn [fst snd]. rewrite Hn.
  change (now w1) with (now w).
  split.
  { rewrite jobsOf_setJob.
    change (jobsOf (workerName k) (withTrace _ w')) with (jobsOf (workerName k) w').
    rewrite (jobsOf_sameSetting _ _ _ Hk). unfold w1.
    rewrite jobsOf_setJob.
    change (jobsOf (workerName k) (withTrace _ w)) with (jobsOf (workerName k) w).
    apply list_insert_insert_eq. }
  split; [cbn; exact Hn|].
  split; [cbn; apply Hk|].
  split.
  { cbn [trace Engine.setJob withRedis withTrace].
    unfold engineEvents at 1. rewrite List.filter_app.
    fold (engineEvents (trace w')).
    destruct Hk as (_ & _ & _ & _ & _ & _ & _ & _ & _ & Hev). rewrite Hev.
    unfold w1. cbn [trace Engine.setJob withRedis withTrace].
    unfold engineEvents at 1. rewrite List.filter_app.
    fold (engineEvents (trace w)). rewrite <- app_assoc. f_equal.
    cbn. unfold settle. destruct (retryPolicy _ _ _); reflexivity. }
  intros r Hf Hr. apply (Hprec r); assumption.
Qed.

Lemma promote_step k i w j t :
  jobsOf (workerName k) w !! i = Some (mkQJob j (Delayed t)) ->
  exists w',
    step k (Promote i) w = Some w'
    /\ jobsOf (workerName k) w'
       = <[i := mkQJob j Waiting]> (jobsOf (workerName k) w)
    /\ now w' = Z.max (now w) t
    /\ disk w' = disk w /\ table w' = table w /\ faults w' = faults w
    /\ trace w' = trace w.
Proof.
  intros Hi. eexists. split; [apply (step_promote _ _ _ _ _ Hi)|].
  rewrite jobsOf_setJob. repeat split.
Qed.

Lemma settle_first jid jname jdata E t :
  settle (mkJob jid jname jdata queueOptions 0) (Thrown E) t
  = (mkQJob (mkJob jid jname jdata queueOptions 1) (Delayed (t + 1000)),
     EvRequeue jid 1000).
Proof. reflexivity. Qed.

Lemma settle_second jid jname jdata E t :
  settle (mkJob jid jname jdata queueOptions 1) (Thrown E) t
  = (mkQJob (mkJob jid jname jdata queueOptions 2) (Delayed (t + 2000)),
     EvRequeue jid 2000).
Proof. reflexivity. Qed.

Lemma settle_third jid jname jdata E t :
  settle (mkJob jid jname jdata queueOptions 2) (Thrown E) t
  = (mkQJob (mkJob jid jname jdata queueOptions 3) (Failed E),
     EvFinalize jid false).
Proof. reflexivity. Qed.

Lemma computedDelay_increasing base n :
  0 < base -> 1 <= n -> computedDelay base n < computedDelay base (n + 1).
Proof.
  intros Hb Hn. unfold computedDelay.
  replace (n + 1 - 1) with (Z.succ (n - 1)) by lia.
  rewrite Z.pow_succ_r by lia.
  assert (0 < 2 ^ (n - 1)) by (apply Z.pow_pos_nonneg; lia). nia.
Qed.

(** One requeued round: a failed attempt and the wait that follows. *)
Lemma failed_round k i w j e0 fuel :
  autorun k = true ->
  Z.of_nat (activeCount (jobsOf (workerName k) w)) < concurrency k ->
  jobsOf (workerName k) w !! i = Some (mkQJob j Waiting) ->
  disk w (filePath (data j)) = ReadFail e0 ->
  forall j' d,
    (forall E, settle j (Thrown E) (now w)
               = (mkQJob j' (Delayed (now w + d)), EvRequeue (jobId j) d)) ->
    0 <= d ->
    exists E w3,
      runJob (3 + fuel) k i w = runJob fuel k i w3
      /\ jobsOf (workerName k) w3
         = <[i := mkQJob j' Waiting]> (jobsOf (workerName k) w)
      /\ now w3 = now w + d
      /\ disk w3 = disk w
      /\ engineEvents (trace w3)
         = engineEvents (trace w)
             ++ [EvAttempt (jobId j) (attemptsMade j + 1) (now w);
                 EvRequeue (jobId j) d]
      /\ (forall r,
             faults w = [] ->
             table w !! fileId (data j) = Some r ->
             E = processingError e0
             /\ faults w3 = []
             /\ table w3 !! fileId (data j)
                = Some (applyUpdate
                          (mkUpdate failed (Some (errorJson (message E)))) r)).
Proof.
  intros Hrun Hcap Hi Hd j' d Hsettle Hd0.
  destruct (failed_attempt k i w j e0 Hrun Hcap Hi Hd)
    as (E & w1 & w2 & Hs1 & Hs2 & Hj2 & Hn2 & Hd2 & He2 & Hp2).
  rewrite Hsettle in Hj2, He2. cbn [fst snd] in Hj2, He2.
  assert (Hlt : (i < length (jobsOf (workerName k) w))%nat)
    by apply (lookup_lt_Some _ _ _ Hi).
  assert (Hi2 : jobsOf (workerName k) w2 !! i
                = Some (mkQJob j' (Delayed (now w + d)))).
  { rewrite Hj2. apply list_lookup_insert_eq, Hlt. }
  destruct (promote_step k i w2 j' _ Hi2)
    as (w3 & Hs3 & Hj3 & Hn3 & Hd3 & Ht3 & Hf3 & Htr3).
  exists E, w3. split.
  { change (3 + fuel)%nat with (S (S (S fuel))).
    rewrite (runJob_step _ _ _ _ _ _ _ Hi eq_refl Hs1).
    assert (Hi1 : jobsOf (workerName k) w1 !! i = Some (mkQJob j Active)).
    { unfold step in Hs1. rewrite Hi in Hs1.
      destruct (autorun k && _); [|discriminate].
      injection Hs1 as <-. rewrite jobsOf_setJob.
      apply list_lookup_insert_eq, Hlt. }
    rewrite (runJob_step _ _ _ _ _ _ _ Hi1 eq_refl Hs2).
    rewrite (runJob_step _ _ _ _ _ _ _ Hi2 eq_refl Hs3). reflexivity. }
  split; [rewrite Hj3, Hj2; apply list_insert_insert_eq|].
  split; [rewrite Hn3, Hn2; lia|].
  split; [congruence|].
  split; [rewrite Htr3; exact He2|].
  intros r Hf Hr. destruct (Hp2 r Hf Hr) as (HE & Hf2 & Hr2).
  split; [exact HE|]. split; congruence.
Qed.

Lemma step_disk k a w w' : step k a w = Some w' -> disk w' = disk w.
Proof.
  intros Hs. unfold step in Hs. destruct a as [i|i|i];
    destruct (jobsOf (workerName k) w !! i) as [[j st]|];
    try discriminate; destruct st; try discriminate.
  - destruct (autorun k && _); [|discriminate]. injection Hs as <-. reflexivity.
  - pose proof (keeps_processor j w) as Hk.
    destruct (processor j w) as [out w1].
    destruct (settle j out (now w1)) as [q ev]. injection Hs as <-.
    cbn. apply Hk.
  - injection Hs as <-. reflexivity.
Qed.

Lemma step_other k a w w' i :
  step k a w = Some w' ->
  target a <> i ->
  jobsOf (workerName k) w' !! i = jobsOf (workerName k) w !! i.
Proof.
  intros Hs Hne. unfold step in Hs. destruct a as [i'|i'|i']; cbn in Hne;
    destruct (jobsOf (workerName k) w !! i') as [[j st]|];
    try discriminate; destruct st; try discriminate.
  - destruct (autorun k && _); [|discriminate]. injection Hs as <-.
    rewrite jobsOf_setJob. apply list_lookup_insert_ne, Hne.
  - pose proof (jobsOf_processor (workerName k) j w) as Hj.
    destruct (processor j w) as [out w1].
    destruct (settle j out (now w1)) as [q ev]. injection Hs as <-.
    rewrite jobsOf_setJob.
    rewrite list_lookup_insert_ne by exact Hne. cbn [snd] in Hj.
    change (jobsOf (workerName k) (withTrace _ w1))
      with (jobsOf (workerName k) w1). rewrite Hj. reflexivity.
  - injection Hs as <-. rewrite jobsOf_setJob.
    apply list_lookup_insert_ne, Hne.
Qed.

Lemma onTrack_step k i j n a w w' :
  onTrack k i j n w ->
  step k a w = Some w' ->
  onTrack k i j (n + (if isSettleOf i a then 1 else 0)) w'.
Proof.
  intros (Hn & (e0 & Hd) & st & Hi & Hlt & Heq) Hs.
  pose proof (step_disk _ _ _ _ Hs) as Hdisk.
  destruct (decide (target a = i)) as [Ht|Hne].
  - destruct a as [i'|i'|i']; cbn in Ht; subst i'; cbn [isSettleOf].
    + (* claim *)
      rewrite Nat.add_0_r. unfold step in Hs. rewrite Hi in Hs.
      destruct st; try discriminate.
      destruct (autorun k && _); [|discriminate]. injection Hs as <-.
      split; [exact Hn|]. split; [exists e0; exact Hd|].
      exists Active. rewrite jobsOf_setJob.
      split; [apply list_lookup_insert_eq, (lookup_lt_Some _ _ _ Hi)|].
      split; [auto|].
      intros ->. destruct (Heq eq_refl) as [E HE]. discriminate.
    + (* settle *)
      rewrite Nat.eqb_refl.
      destruct st; try (unfold step in Hs; rewrite Hi in Hs; discriminate).
      assert (Hn3 : (n < 3)%nat).
      { destruct (decide (n = 3%nat)) as [->|]; [|lia].
        destruct (Heq eq_refl) as [E HE]. discriminate. }
      rewrite (step_settle _ _ _ _ Hi) in Hs. injection Hs as <-.
      set (jn := mkJob (jobId j) (jobName j) (data j) queueOptions (Z.of_nat n)) in *.
      destruct (processor_unreadable jn w e0 Hd) as (E & w1 & Hp & _).
      rewrite Hp. cbn [fst snd].
      split; [lia|]. split.
      { exists e0. cbn.
        pose proof (keeps_processor jn w) as Hk. rewrite Hp in Hk.
        cbn [snd] in Hk. destruct Hk as (_ & Hdk & _). rewrite Hdk.
        exact Hd. }
      rewrite jobsOf_setJob.
      change (jobsOf (workerName k) (withTrace _ w1))
        with (jobsOf (workerName k) w1).
      replace w1 with (processor jn w).2 by (rewrite Hp; reflexivity).
      rewrite jobsOf_processor.
      rewrite list_lookup_insert_eq by apply (lookup_lt_Some _ _ _ Hi).
      unfold settle, retryPolicy, attempted.
      cbn [attemptsMade opts jn jobId jobName data queueOptions attempts
           backoffDelay].
      replace (Z.of_nat n + 1) with (Z.of_nat (n + 1)) by lia.
      destruct (Z.of_nat (n + 1) <? 3) eqn:Hlt3.
      * apply Z.ltb_lt in Hlt3. eexists. split; [reflexivity|].
        split; [eauto|]. intros ?. lia.
      * apply Z.ltb_ge in Hlt3. eexists. split; [reflexivity|].
        split; [intros ?; lia|]. intros _. eauto.
    + (* promote *)
      rewrite Nat.add_0_r. unfold step in Hs. rewrite Hi in Hs.
      destruct st; try discriminate. injection Hs as <-.
      split; [exact Hn|]. split; [exists e0; exact Hd|].
      exists Waiting. rewrite jobsOf_setJob.
      split; [apply list_lookup_insert_eq, (lookup_lt_Some _ _ _ Hi)|].
      split; [auto|].
      intros ->. destruct (Heq eq_refl) as [E HE]. discriminate.
  - assert (Hno : isSettleOf i a = false).
    { destruct a as [i'|i'|i']; try reflexivity. cbn in *.
      apply Nat.eqb_neq, Hne. }
    rewrite Hno, Nat.add_0_r.
    split; [exact Hn|]. split; [exists e0; congruence|].
    exists st. rewrite (step_other _ _ _ _ _ Hs Hne). auto.
Qed.

Lemma onTrack_run k i j acts : forall n w w',
  onTrack k i j n w ->
  run k acts w = Some w' ->
  onTrack k i j (n + attemptsEnded i acts) w'.
Proof.
  induction acts as [|a acts IH]; intros n w w' Ht Hr; cbn in Hr.
  - injection Hr as <-. unfold attemptsEnded. cbn. rewrite Nat.add_0_r. exact Ht.
  - destruct (step k a w) as [w1|] eqn:Hs; [|discriminate].
    pose proof (IH _ _ _ (onTrack_step _ _ _ _ _ _ _ Ht Hs) Hr) as H.
    unfold attemptsEnded in *. cbn [List.filter].
    destruct (isSettleOf i a); cbn [length] in *.
    + replace (n + S (length (List.filter (isSettleOf i) acts)))%nat
        with (n + 1 + length (List.filter (isSettleOf i) acts))%nat by lia.
      exact H.
    + rewrite Nat.add_0_r in H. exact H.
Qed.

(** In every execution of the pool a job whose content cannot be read
    has at most three attempts ended; when the execution of a started
    pool is complete, it has had exactly three and is failed. *)
Lemma unreadable_job_every_schedule k i j e0 acts w w' :
  jobsOf (workerName k) w !! i = Some (mkQJob j Waiting) ->
  opts j = queueOptions ->
  attemptsMade j = 0 ->
  disk w (filePath (data j)) = ReadFail e0 ->
  run k acts w = Some w' ->
  (attemptsEnded i acts <= 3)%nat
  /\ (autorun k = true ->
      1 <= concurrency k ->
      (forall a, step k a w' = None) ->
      attemptsEnded i acts = 3%nat
      /\ exists E,
          jobsOf (workerName k) w' !! i
          = Some (mkQJob (mkJob (jobId j) (jobName j) (data j) (opts j) 3)
                    (Failed E))).
Proof.
  intros Hi Hopts Ha Hd Hr.
  assert (H0 : onTrack k i j 0 w).
  { split; [lia|]. split; [eauto|]. exists Waiting.
    destruct j as [jid jname jdata jopts ja]. cbn in *. subst.
    split; [exact Hi|]. split; [auto|]. lia. }
  pose proof (onTrack_run _ _ _ _ _ _ _ H0 Hr) as (Hn & _ & st & Hi' & Hlt & Heq).
  cbn [Nat.add] in *. split; [exact Hn|].
  intros Hrun Hc Hstuck.
  pose proof (stuck_terminal _ _ Hrun Hc Hstuck) as Hterm.
  rewrite forallb_forall in Hterm.
  assert (Hin : In (mkQJob (mkJob (jobId j) (jobName j) (data j) queueOptions
                              (Z.of_nat (attemptsEnded i acts))) st)
                  (jobsOf (workerName k) w')).
  { apply list_elem_of_In, list_elem_of_lookup. eauto. }
  specialize (Hterm _ Hin).
  destruct (decide (attemptsEnded i acts = 3%nat)) as [H3|H3].
  - split; [exact H3|]. destruct (Heq H3) as [E ->]. exists E.
    rewrite Hi', H3, Hopts. reflexivity.
  - exfalso. destruct (Hlt ltac:(lia)) as [->|[->|[t ->]]]; discriminate.
Qed.

(** A job whose content cannot be read, taken up by a started worker
    with a free slot and followed to its end. *)
Lemma runJob_unreadable :
  forall (k : WorkerObj) (i : nat) (w : World) (j : Job) (e0 : JsError)
         (extra : nat),
    autorun k = true ->
    Z.of_nat (activeCount (jobsOf (workerName k) w)) < concurrency k ->
    jobsOf (workerName k) w !! i = Some (mkQJob j Waiting) ->
    opts j = queueOptions ->
    attemptsMade j = 0 ->
    disk w (filePath (data j)) = ReadFail e0 ->
    let w' := runJob (8 + extra) k i w in
    engineEvents (trace w')
    = engineEvents (trace w)
        ++ [EvAttempt (jobId j) 1 (now w); EvRequeue (jobId j) 1000;
            EvAttempt (jobId j) 2 (now w + 1000); EvRequeue (jobId j) 2000;
            EvAttempt (jobId j) 3 (now w + 3000); EvFinalize (jobId j) false]
    /\ (exists E,
           jobsOf (workerName k) w' !! i
           = Some (mkQJob (mkJob (jobId j) (jobName j) (data j) (opts j) 3)
                     (Failed E))
           /\ forall r,
               faults w = [] ->
               table w !! fileId (data j) = Some r ->
               E = processingError e0
               /\ exists row,
                   table w' !! fileId (data j) = Some row
                   /\ status row = failed
                   /\ extractedData row = Some (errorJson (message E))).
Proof.
  intros k i w [jid jname jdata jopts ja] e0 extra Hrun Hcap Hi Hopts Ha Hd
         w'.
  cbn in Hopts, Ha, Hd. subst jopts ja. cbn [jobId jobName data opts].
  split.
  all: set (j0 := mkJob jid jname jdata queueOptions 0) in *.
  all: set (js := jobsOf (workerName k) w) in *.
  all: assert (Hlt : (i < length js)%nat) by apply (lookup_lt_Some _ _ _ Hi).
  (* first round *)
  all: destruct (failed_round k i w j0 e0 (5 + extra) Hrun Hcap Hi Hd
                   (mkJob jid jname jdata queueOptions 1) 1000
                   (fun E => settle_first jid jname jdata E (now w))
                   ltac:(lia))
         as (E1 & wa & Hra & Hja & Hna & Hda & Hea & Hpa).
  all: fold js in Hja.
  all: assert (Hia : jobsOf (workerName k) wa !! i
                     = Some (mkQJob (mkJob jid jname jdata queueOptions 1) Waiting))
         by (rewrite Hja; apply list_lookup_insert_eq, Hlt).
  all: assert (Hca : Z.of_nat (activeCount (jobsOf (workerName k) wa))
                     < concurrency k)
         by (rewrite Hja,
               (activeCount_insert_same _ _ _
                  (mkQJob (mkJob jid jname jdata queueOptions 1) Waiting)
                  Hi eq_refl);
             exact Hcap).
  (* second round *)
  all: rewrite <- Hda in Hd.
  all: destruct (failed_round k i wa _ e0 (2 + extra) Hrun Hca Hia Hd
                   (mkJob jid jname jdata queueOptions 2) 2000
                   (fun E => settle_second jid jname jdata E (now wa))
                   ltac:(lia))
         as (E2 & wb & Hrb & Hjb & Hnb & Hdb & Heb & Hpb).
  all: assert (Hib : jobsOf (workerName k) wb !! i
                     = Some (mkQJob (mkJob jid jname jdata queueOptions 2) Waiting))
         by (rewrite Hjb; apply list_lookup_insert_eq;
             rewrite Hja, length_insert; exact Hlt).
  all: assert (Hcb : Z.of_nat (activeCount (jobsOf (workerName k) wb))
                     < concurrency k)
         by (rewrite Hjb,
               (activeCount_insert_same _ _ _
                  (mkQJob (mkJob jid jname jdata queueOptions 2) Waiting)
                  Hia eq_refl);
             exact Hca).
  (* last attempt *)
  all: rewrite <- Hdb in Hd.
  all: destruct (failed_attempt k i wb _ e0 Hrun Hcb Hib Hd)
         as (E3 & wc & wd & Hsc & Hsd & Hjd & Hnd & Hdd & Hed & Hpd).
  all: rewrite settle_third in Hjd, Hed; cbn [fst snd] in Hjd, Hed.
  all: assert (Hic : jobsOf (workerName k) wc !! i
                     = Some (mkQJob (mkJob jid jname jdata queueOptions 2) Active))
         by (unfold step in Hsc; rewrite Hib in Hsc;
             destruct (autorun k && _); [|discriminate];
             injection Hsc as <-; rewrite jobsOf_setJob;
             apply list_lookup_insert_eq, (lookup_lt_Some _ _ _ Hib)).
  all: assert (Hid : jobsOf (workerName k) wd !! i
                     = Some (mkQJob (mkJob jid jname jdata queueOptions 3)
                               (Failed E3)))
         by (rewrite Hjd; apply list_lookup_insert_eq,
               (lookup_lt_Some _ _ _ Hib)).
  all: assert (Hw' : w' = wd)
         by (unfold w';
             change (8 + extra)%nat with (3 + (5 + extra))%nat; rewrite Hra;
             change (5 + extra)%nat with (3 + (2 + extra))%nat; rewrite Hrb;
             change (2 + extra)%nat with (S (S extra));
             rewrite (runJob_step _ _ _ _ _ _ _ Hib eq_refl Hsc);
             rewrite (runJob_step _ _ _ _ _ _ _ Hic eq_refl Hsd);
             apply (runJob_done _ _ _ _ _ Hid eq_refl)).
  all: rewrite Hw'.
  - rewrite Hed, Heb, Hea, Hnb, Hna. cbn [jobId attemptsMade].
    rewrite <- !app_assoc. cbn.
    replace (now w + 1000 + 2000) with (now w + 3000) by lia. reflexivity.
  - exists E3. split; [exact Hid|]. intros r Hf Hr.
    destruct (Hpa r Hf Hr) as (_ & Hfa & Hta).
    destruct (Hpb _ Hfa Hta) as (_ & Hfb & Htb).
    destruct (Hpd _ Hfb Htb) as (HE3 & _ & Htd).
    split; [exact HE3|]. eexists. split; [exact Htd|]. split; reflexivity.
Qed.

Lemma processingError_message_nonempty e0 :
  message (processingError e0) <> "".
Proof. cbn. discriminate. Qed.

(** ** One attempt, by what the store answers *)

(** The store refuses the write of [processing]: the file is not read. *)
Lemma attempt_first_call_refused j w e :
  pendingFault w = Some e ->
  exists w' more,
    processor j w = (Thrown e, w')
    /\ now w' = now w
    /\ trace w'
       = trace w
           ++ EvUpdate (fileId (data j)) (mkUpdate processing None) false
              :: EvConsoleError (failureLabel j) e :: more.
Proof.
  intros Hf.
  pose proof (fileUpdate_fault (fileId (data j)) (mkUpdate processing None)
                w e Hf) as Hu.
  set (w1 := withTrace _ _) in Hu.
  destruct (failureHandler_cases j e w1) as (w' & Hh & Hn & _ & Hcases).
  exists w'.
  assert (Hp : processor j w = (Thrown e, w')).
  { unfold processor, tryCatch, attemptBody.
    erewrite bind_thrown; [|exact Hu]. exact Hh. }
  destruct Hcases as [(r & _ & _ & _ & Ht)|(ue & _ & Ht)];
    eexists; (split; [exact Hp|]); (split; [exact Hn|]);
    rewrite Ht; unfold w1; cbn [trace withTrace withFaults];
    rewrite <- app_assoc; reflexivity.
Qed.

(** The file is readable and the store answers both writes. *)
Lemma attempt_readable j w r B :
  table w !! fileId (data j) = Some r ->
  disk w (filePath (data j)) = ReadOk B ->
  pendingFault w = None ->
  pendingFault (withFaults (tail (faults w)) w) = None ->
  exists (res : ProcessResult) (w' : World),
    processor j w = (Returned res, w')
    /\ trace w'
       = trace w
           ++ [EvUpdate (fileId (data j)) (mkUpdate processing None) true;
               EvUpdate (fileId (data j))
                 (mkUpdate processed (Some (resultJson res))) true]
    /\ now w' = now w + (if isTest w then 100 else 2000)
    /\ processedAt res = Text.toISOString (now w')
    /\ faults w' = tail (tail (faults w))
    /\ table w' !! fileId (data j)
       = Some (mkFile (id r) (userId r) (originalFilename r) (storagePath r)
                 (title r) (description r) processed
                 (Some (resultJson res))).
Proof.
  intros Hr Hd Hf1 Hf2.
  eexists _, _. split.
  { unfold processor, tryCatch, attemptBody.
    erewrite bind_returned;
      [|apply (fileUpdate_found _ _ _ r); [exact Hf1|exact Hr]].
    erewrite bind_returned; [|apply (processFile_readable _ _ B); exact Hd].
    erewrite bind_returned.
    2:{ apply (fileUpdate_found _ _ _ (applyUpdate (mkUpdate processing None) r)).
        - exact Hf2.
        - cbn. apply lookup_insert_eq. }
    reflexivity. }
  cbn. split; [rewrite <- !app_assoc; reflexivity|].
  split; [reflexivity|]. split; [reflexivity|]. split; [reflexivity|].
  rewrite lookup_insert_eq. reflexivity.
Qed.

(** The file cannot be read and the store accepts the write of
    [failed]. *)
Lemma attempt_unreadable_recorded j w r e0 :
  table w !! fileId (data j) = Some r ->
  disk w (filePath (data j)) = ReadFail e0 ->
  pendingFault w = None ->
  pendingFault (withFaults (tail (faults w)) w) = None ->
  exists w',
    processor j w = (Thrown (processingError e0), w')
    /\ trace w'
       = trace w
           ++ [EvUpdate (fileId (data j)) (mkUpdate processing None) true;
               EvConsoleError (failureLabel j) (processingError e0);
               EvUpdate (fileId (data j))
                 (mkUpdate failed
                    (Some (errorJson (message (processingError e0)))))
                 true]
    /\ now w' = now w
    /\ faults w' = tail (tail (faults w))
    /\ table w' !! fileId (data j)
       = Some (mkFile (id r) (userId r) (originalFilename r) (storagePath r)
                 (title r) (description r) failed
                 (Some (errorJson (message (processingError e0))))).
Proof.
  intros Hr Hd Hf1 Hf2.
  eexists. split.
  { unfold processor, tryCatch, attemptBody.
    erewrite bind_returned;
      [|apply (fileUpdate_found _ _ _ r); [exact Hf1|exact Hr]].
    erewrite bind_thrown; [|apply (processFile_unreadable _ _ e0); exact Hd].
    unfold failureHandler.
    erewrite bind_returned; [|reflexivity].
    unfold bind at 1, tryCatch at 1.
    erewrite bind_returned.
    2:{ apply (fileUpdate_found _ _ _ (applyUpdate (mkUpdate processing None) r)).
        - exact Hf2.
        - cbn. apply lookup_insert_eq. }
    reflexivity. }
  cbn. split; [rewrite <- !app_assoc; reflexivity|].
  split; [reflexivity|]. split; [reflexivity|].
  rewrite lookup_insert_eq. reflexivity.
Qed.

(** The file cannot be read and the store refuses the write of
    [failed]. *)
Lemma attempt_unreadable_unrecorded j w r e0 e :
  table w !! fileId (data j) = Some r ->
  disk w (filePath (data j)) = ReadFail e0 ->
  pendingFault w = None ->
  pendingFault (withFaults (tail (faults w)) w) = Some e ->
  exists w',
    processor j w = (Thrown (processingError e0), w')
    /\ trace w'
       = trace w
           ++ [EvUpdate (fileId (data j)) (mkUpdate processing None) true;
               EvConsoleError (failureLabel j) (processingError e0);
               EvUpdate (fileId (data j))
                 (mkUpdate failed
                    (Some (errorJson (message (processingError e0)))))
                 false;
               EvConsoleError "Failed to update file status:" e]
    /\ now w' = now w
    /\ faults w' = tail (tail (faults w))
    /\ table w' !! fileId (data j)
       = Some (mkFile (id r) (userId r) (originalFilename r) (storagePath r)
                 (title r) (description r) processing (extractedData r)).
Proof.
  intros Hr Hd Hf1 Hf2.
  eexists. split.
  { unfold processor, tryCatch, attemptBody.
    erewrite bind_returned;
      [|apply (fileUpdate_found _ _ _ r); [exact Hf1|exact Hr]].
    erewrite bind_thrown; [|apply (processFile_unreadable _ _ e0); exact Hd].
    unfold failureHandler.
    erewrite bind_returned; [|reflexivity].
    unfold bind at 1, tryCatch at 1.
    erewrite bind_thrown; [|apply (fileUpdate_fault _ _ _ e); exact Hf2].
    reflexivity. }
  cbn. split; [rewrite <- !app_assoc; reflexivity|].
  split; [reflexivity|]. split; [reflexivity|].
  rewrite lookup_insert_eq. reflexivity.
Qed.

Lemma pendingFault_second_nil w :
  faults w = [] -> pendingFault (withFaults (tail (faults w)) w) = None.
Proof. intros H. unfold pendingFault. cbn. rewrite H. reflexivity. Qed.

(** A worker that has not been started takes up no job: whatever the
    pool does, a waiting job stays as it is. *)
Lemma unstarted_job_stays_waiting k i j acts : forall w v,
  autorun k = false ->
  jobsOf (workerName k) w !! i = Some (mkQJob j Waiting) ->
  run k acts w = Some v ->
  attemptsEnded i acts = 0%nat
  /\ jobsOf (workerName k) v !! i = Some (mkQJob j Waiting).
Proof.
  induction acts as [|a acts IH]; intros w v Hrun Hi Hr; cbn in Hr.
  - injection Hr as <-. split; [reflexivity|exact Hi].
  - destruct (step k a w) as [w1|] eqn:Hs; [|discriminate].
    assert (Ht : target a <> i).
    { intros <-. destruct a as [n|n|n]; cbn in Hi; unfold step in Hs;
        rewrite Hi in Hs; [|discriminate..].
      rewrite Hrun in Hs. discriminate. }
    pose proof (step_other _ _ _ _ _ Hs Ht) as Hi1. rewrite Hi in Hi1.
    destruct (IH w1 v Hrun Hi1 Hr) as (Hn & Hv).
    split; [|exact Hv].
    unfold attemptsEnded in *. cbn [List.filter].
    destruct (isSettleOf i a) eqn:Hset; [|exact Hn].
    destruct a as [n|n|n]; cbn in Hset; try discriminate.
    apply Nat.eqb_eq in Hset. subst n. contradiction Ht. reflexivity.
Qed.

(** C3, as the code has it. A job whose content never resolves is
    executed exactly three times (the [attempts] of the queue's
    options) once a started worker with a free slot takes it up: the
    retries follow after 1000 and then 2000 time units, the exponential
    backoff from the base delay 1000, which grows strictly with every
    attempt, and the third failure finalizes the job as failed with the
    error of that attempt. The row ends with status [failed] and that
    error's message when the store accepts the writes; an attempt
    whose write of [failed] the store refuses still fails with the
    processing error and leaves the row [processing]. However a
    started pool interleaves the job with others, no execution ends
    more than three attempts of it, and a complete execution has ended
    exactly three and left the job failed. A worker that has not been
    started, the one the source builds under [NODE_ENV=test], executes
    the job not once: it stays waiting. *)
Theorem unresolvable_job_fails_after_three_attempts :
  forall (k : WorkerObj) (i : nat) (w : World) (j : Job) (e0 : JsError)
         (extra : nat),
    jobsOf (workerName k) w !! i = Some (mkQJob j Waiting) ->
    opts j = queueOptions ->
    attemptsMade j = 0 ->
    disk w (filePath (data j)) = ReadFail e0 ->
    attempts queueOptions = 3
    /\ backoffDelay queueOptions = 1000
    /\ (forall n, 1 <= n -> computedDelay 1000 n < computedDelay 1000 (n + 1))
    /\ (autorun k = true ->
        Z.of_nat (activeCount (jobsOf (workerName k) w)) < concurrency k ->
        let w' := runJob (8 + extra) k i w in
        engineEvents (trace w')
        = engineEvents (trace w)
            ++ [EvAttempt (jobId j) 1 (now w);
                EvRequeue (jobId j) (computedDelay 1000 1);
                EvAttempt (jobId j) 2 (now w + 1000);
                EvRequeue (jobId j) (computedDelay 1000 2);
                EvAttempt (jobId j) 3 (now w + 3000);
                EvFinalize (jobId j) false]
        /\ exists E,
            jobsOf (workerName k) w' !! i
            = Some (mkQJob (mkJob (jobId j) (jobName j) (data j) (opts j) 3)
                      (Failed E))
            /\ forall r,
                faults w = [] ->
                table w !! fileId (data j) = Some r ->
                E = processingError e0
                /\ exists row,
                    table w' !! fileId (data j) = Some row
                    /\ status row = failed
                    /\ extractedData row = Some (errorJson (message E)))
    /\ (forall r e,
           table w !! fileId (data j) = Some r ->
           pendingFault w = None ->
           pendingFault (withFaults (tail (faults w)) w) = Some e ->
           exists w',
             processor j w = (Thrown (processingError e0), w')
             /\ table w' !! fileId (data j)
                = Some (mkFile (id r) (userId r) (originalFilename r)
                          (storagePath r) (title r) (description r)
                          processing (extractedData r)))
    /\ (forall acts v,
           run k acts w = Some v ->
           (attemptsEnded i acts <= 3)%nat
           /\ (autorun k = true ->
               1 <= concurrency k ->
               (forall a, step k a v = None) ->
               attemptsEnded i acts = 3%nat
               /\ exists E,
                   jobsOf (workerName k) v !! i
                   = Some (mkQJob
                             (mkJob (jobId j) (jobName j) (data j) (opts j) 3)
                             (Failed E))))
    /\ (autorun k = false ->
        forall acts v,
          run k acts w = Some v ->
          attemptsEnded i acts = 0%nat
          /\ jobsOf (workerName k) v !! i = Some (mkQJob j Waiting)).
Proof.
  intros k i w j e0 extra Hi Hopts Ha Hd.
  split; [reflexivity|]. split; [reflexivity|].
  split; [intros n Hn; apply computedDelay_increasing; lia|].
  split; [|split; [|split]].
  - intros Hrun Hcap w'.
    destruct (runJob_unreadable k i w j e0 extra Hrun Hcap Hi Hopts Ha Hd)
      as (Hev & Hend).
    split; [exact Hev|exact Hend].
  - intros r e Hr Hf1 Hf2.
    destruct (attempt_unreadable_unrecorded j w r e0 e Hr Hd Hf1 Hf2)
      as (w' & Hp & _ & _ & _ & Hrow).
    exists w'. split; [exact Hp|exact Hrow].
  - intros acts v Hr.
    exact (unreadable_job_every_schedule k i j e0 acts w v Hi Hopts Ha Hd Hr).
  - intros Hoff acts v Hr.
    exact (unstarted_job_stays_waiting k i j acts w v Hoff Hi Hr).
Qed.

Lemma unresolvable_job_fails_after_three_attempts_witness :
  jobsOf (workerName Sample.started) Sample.uploadedTwo !! 1%nat
  = Some (mkQJob Sample.missingJob Waiting)
  /\ disk Sample.uploadedTwo (filePath (data Sample.missingJob))
     = ReadFail (Sample.enoent "uploads/gone.txt")
  /\ engineEvents (trace (runJob 8 Sample.started 1 Sample.uploadedTwo))
     = [EvAttempt "2" 1 1700000000000; EvRequeue "2" 1000;
        EvAttempt "2" 2 1700000001000; EvRequeue "2" 2000;
        EvAttempt "2" 3 1700000003000; EvFinalize "2" false]
  /\ exists row,
      table (runJob 8 Sample.started 1 Sample.uploadedTwo) !! 2 = Some row
      /\ status row = failed.
Proof.
  assert (H2 : Z.of_nat (activeCount
                           (jobsOf (workerName Sample.started)
                              Sample.uploadedTwo))
               < concurrency Sample.started) by (vm_compute; reflexivity).
  assert (H3 : jobsOf (workerName Sample.started) Sample.uploadedTwo !! 1%nat
               = Some (mkQJob Sample.missingJob Waiting))
    by (vm_compute; reflexivity).
  assert (H4 : disk Sample.uploadedTwo (filePath (data Sample.missingJob))
               = ReadFail (Sample.enoent "uploads/gone.txt"))
    by (vm_compute; reflexivity).
  split; [exact H3|]. split; [exact H4|].
  destruct (unresolvable_job_fails_after_three_attempts
              Sample.started 1 Sample.uploadedTwo Sample.missingJob
              (Sample.enoent "uploads/gone.txt") 0 H3 eq_refl eq_refl H4)
    as (_ & _ & _ & Hstarted & _).
  destruct (Hstarted eq_refl H2) as (Hev & E & _ & Hrow).
  split; [exact Hev|].
  assert (H5 : faults Sample.uploadedTwo = []) by (vm_compute; reflexivity).
  assert (H6 : table Sample.uploadedTwo !! fileId (data Sample.missingJob)
               = Some (mkFile 2 7 "gone.txt" "uploads/gone.txt" None None
                         uploaded None))
    by (vm_compute; reflexivity).
  destruct (Hrow _ H5 H6) as (_ & row & Hr & Hs & _).
  exists row. split; [exact Hr|exact Hs].
Defined.

(** Against C3 as stated: the store refuses the write of [failed] of
    the third attempt. The job has had its three attempts and is
    finalized as failed, and its row has status [processing], with the
    error the second attempt recorded. *)
Lemma refused_last_write_leaves_failed_job_processing :
  let w' := runJob 8 Sample.started 1 SampleStore.lastWriteRefused in
  disk SampleStore.lastWriteRefused "uploads/gone.txt"
  = ReadFail (Sample.enoent "uploads/gone.txt")
  /\ engineEvents (trace w')
     = [EvAttempt "2" 1 1700000000000; EvRequeue "2" 1000;
        EvAttempt "2" 2 1700000001000; EvRequeue "2" 2000;
        EvAttempt "2" 3 1700000003000; EvFinalize "2" false]
  /\ (state <$> jobsOf "fileProcessing" w' !! 1%nat)
     = Some (Failed Sample.goneError)
  /\ (status <$> table w' !! 2) = Some processing
  /\ (status <$> table w' !! 2) <> Some failed.
Proof. vm_compute. repeat split. discriminate. Qed.

(** C8, as the code has it. When the content at a path cannot be
    read, [processFile] fails with a plain error (the source has no
    error classes) whose message, the prefix "File processing failed: "
    followed by the cause, is not empty. An attempt at a job for such a
    path, its write of [processing] accepted, fails with that error and
    records it exactly when the store accepts the write of [failed]:
    then the row is [failed] with that message as its error; when the
    store refuses the write the attempt records nothing and the row is
    left [processing] with the payload it had. So when a job for such a
    path has been through its attempts under a started worker, with the
    store accepting the writes, the row has status [failed] and records
    a message that is not empty. *)
Theorem unreadable_content_reports_nonempty_message :
  forall (w : World) (p : string) (e0 : JsError),
    disk w p = ReadFail e0 ->
    processFile p w
    = (Thrown (mkError ("File processing failed: " ++ message e0)%string), w)
    /\ message (mkError ("File processing failed: " ++ message e0)%string)
       <> ""
    /\ (forall (j : Job) (r : FileRecord),
           filePath (data j) = p ->
           table w !! fileId (data j) = Some r ->
           pendingFault w = None ->
           exists row w',
             processor j w
             = (Thrown (mkError ("File processing failed: " ++ message e0)%string),
                w')
             /\ table w' !! fileId (data j) = Some row
             /\ match pendingFault (withFaults (tail (faults w)) w) with
                | None =>
                    status row = failed
                    /\ extractedData row
                       = Some (errorJson
                                 ("File processing failed: " ++ message e0)%string)
                | Some _ =>
                    status row = processing
                    /\ extractedData row = extractedData r
                end)
    /\ forall (k : WorkerObj) (i : nat) (j : Job) (extra : nat)
              (r : FileRecord),
        autorun k = true ->
        Z.of_nat (activeCount (jobsOf (workerName k) w)) < concurrency k ->
        jobsOf (workerName k) w !! i = Some (mkQJob j Waiting) ->
        opts j = queueOptions ->
        attemptsMade j = 0 ->
        filePath (data j) = p ->
        faults w = [] ->
        table w !! fileId (data j) = Some r ->
        exists row msg,
          table (runJob (8 + extra) k i w) !! fileId (data j) = Some row
          /\ status row = failed
          /\ extractedData row = Some (errorJson msg)
          /\ jsonField "error" (errorJson msg) = Some (JString msg)
          /\ msg <> "".
Proof.
  intros w p e0 Hd.
  split; [apply processFile_unreadable, Hd|].
  split; [apply (processingError_message_nonempty e0)|].
  split.
  - intros j r Hp Hr Hf1. subst p.
    destruct (pendingFault (withFaults (tail (faults w)) w)) as [e|] eqn:Hf2.
    + destruct (attempt_unreadable_unrecorded j w r e0 e Hr Hd Hf1 Hf2)
        as (w' & Hrun & _ & _ & _ & Hrow).
      eexists _, w'. split; [exact Hrun|]. split; [exact Hrow|].
      split; reflexivity.
    + destruct (attempt_unreadable_recorded j w r e0 Hr Hd Hf1 Hf2)
        as (w' & Hrun & _ & _ & _ & Hrow).
      eexists _, w'. split; [exact Hrun|]. split; [exact Hrow|].
      split; reflexivity.
  - intros k i j extra r Hrun Hcap Hi Hopts Ha Hp Hf Hr. subst p.
    destruct (runJob_unreadable k i w j e0 extra Hrun Hcap Hi Hopts Ha Hd)
      as (_ & E & _ & Hrow).
    destruct (Hrow r Hf Hr) as (HE & row & Hrow' & Hs & Hx).
    exists row, (message E). repeat split; try assumption.
    rewrite HE. apply processingError_message_nonempty.
Qed.

Lemma unreadable_content_reports_nonempty_message_witness :
  disk Sample.uploadedTwo "uploads/gone.txt"
  = ReadFail (Sample.enoent "uploads/gone.txt")
  /\ processFile "uploads/gone.txt" Sample.uploadedTwo
     = (Thrown Sample.goneError, Sample.uploadedTwo)
  /\ exists row msg,
      table (runJob 8 Sample.started 1 Sample.uploadedTwo) !! 2 = Some row
      /\ status row = failed
      /\ extractedData row = Some (errorJson msg)
      /\ msg <> "".
Proof.
  assert (H : disk Sample.uploadedTwo "uploads/gone.txt"
              = ReadFail (Sample.enoent "uploads/gone.txt"))
    by (vm_compute; reflexivity).
  split; [exact H|].
  destruct (unreadable_content_reports_nonempty_message _ _ _ H)
    as (Hp & _ & _ & Hrun).
  split; [exact Hp|].
  assert (H2 : Z.of_nat (activeCount
                           (jobsOf (workerName Sample.started)
                              Sample.uploadedTwo))
               < concurrency Sample.started) by (vm_compute; reflexivity).
  assert (H3 : jobsOf (workerName Sample.started) Sample.uploadedTwo !! 1%nat
               = Some (mkQJob Sample.missingJob Waiting))
    by (vm_compute; reflexivity).
  assert (H5 : faults Sample.uploadedTwo = []) by (vm_compute; reflexivity).
  assert (H6 : table Sample.uploadedTwo !! fileId (data Sample.missingJob)
               = Some (mkFile 2 7 "gone.txt" "uploads/gone.txt" None None
                         uploaded None))
    by (vm_compute; reflexivity).
  destruct (Hrun Sample.started 1%nat Sample.missingJob 0%nat _
              eq_refl H2 H3 eq_refl eq_refl eq_refl H5 H6)
    as (row & msg & Hr & Hs & Hx & _ & Hne).
  exists row, msg. auto.
Defined.

(** Against C8 as stated: the store refuses the write of [failed] of
    each of the three attempts. The job has had its last attempt and is
    finalized as failed, and the row records no error message at all:
    it has status [processing] and no extracted data. *)
Lemma refused_failed_writes_record_no_message :
  let w' := runJob 8 Sample.started 1 SampleStore.failedWritesRefused in
  disk SampleStore.failedWritesRefused "uploads/gone.txt"
  = ReadFail (Sample.enoent "uploads/gone.txt")
  /\ engineEvents (trace w')
     = [EvAttempt "2" 1 1700000000000; EvRequeue "2" 1000;
        EvAttempt "2" 2 1700000001000; EvRequeue "2" 2000;
        EvAttempt "2" 3 1700000003000; EvFinalize "2" false]
  /\ (state <$> jobsOf "fileProcessing" w' !! 1%nat)
     = Some (Failed Sample.goneError)
  /\ (status <$> table w' !! 2) = Some processing
  /\ (extractedData <$> table w' !! 2) = Some None
  /\ (errorPresent <$> table w' !! 2) = Some false.
Proof. vm_compute. repeat split. Qed.

(** ** Terminal statuses and later attempts *)

Lemma step_terminal k i q a w :
  jobsOf (workerName k) w !! i = Some q ->
  isTerminal q = true ->
  a ∈ [Claim i; Settle i; Promote i] ->
  step k a w = None.
Proof.
  intros Hq Ht Ha. destruct q as [j st]. unfold isTerminal in Ht. cbn in Ht.
  rewrite !elem_of_cons in Ha. rewrite elem_of_nil in Ha.
  destruct Ha as [->|[->|[->|[]]]]; unfold step; rewrite Hq;
    destruct st; try discriminate; reflexivity.
Qed.

(** C2, as the code has it. The worker's writes are not fenced and do
    not look at the status they replace. With the store accepting the
    writes, an attempt at a job first writes [processing] into the row
    the job names, whatever status the row has and keeping its payload,
    and then leaves the row [processed] with the result when the
    content is readable, and [failed] with the error's message when it
    is not, whatever status and payload the row had before, a terminal
    one included: a later attempt that names a row, the retry of its
    job or an attempt of another job, overwrites [processed] and
    [failed] alike. The queue, for its part, runs no further step on a
    job that is completed or failed. *)
Theorem attempt_overwrites_any_status :
  forall (j : Job) (w : World) (r : FileRecord),
    faults w = [] ->
    table w !! fileId (data j) = Some r ->
    (exists r1 w1,
        fileUpdate (fileId (data j)) (mkUpdate processing None) w
        = (Returned r1, w1)
        /\ table w1 !! fileId (data j) = Some r1
        /\ status r1 = processing
        /\ extractedData r1 = extractedData r)
    /\ (forall B,
           disk w (filePath (data j)) = ReadOk B ->
           exists res w' row,
             processor j w = (Returned res, w')
             /\ trace w'
                = trace w
                    ++ [EvUpdate (fileId (data j)) (mkUpdate processing None)
                          true;
                        EvUpdate (fileId (data j))
                          (mkUpdate processed (Some (resultJson res))) true]
             /\ table w' !! fileId (data j) = Some row
             /\ status row = processed
             /\ extractedData row = Some (resultJson res))
    /\ (forall e0,
           disk w (filePath (data j)) = ReadFail e0 ->
           exists E w' row,
             processor j w = (Thrown E, w')
             /\ trace w'
                = trace w
                    ++ [EvUpdate (fileId (data j)) (mkUpdate processing None)
                          true;
                        EvConsoleError (failureLabel j) E;
                        EvUpdate (fileId (data j))
                          (mkUpdate failed (Some (errorJson (message E))))
                          true]
             /\ table w' !! fileId (data j) = Some row
             /\ status row = failed
             /\ extractedData row = Some (errorJson (message E)))
    /\ (forall k i q a,
           jobsOf (workerName k) w !! i = Some q ->
           isTerminal q = true ->
           a ∈ [Claim i; Settle i; Promote i] ->
           step k a w = None).
Proof.
  intros j w r Hf Hr.
  pose proof (pendingFault_nil _ Hf) as Hf1.
  pose proof (pendingFault_second_nil _ Hf) as Hf2.
  split; [|split; [|split]].
  - eexists _, _. split; [apply (fileUpdate_found _ _ _ r); assumption|].
    cbn. rewrite lookup_insert_eq. repeat split.
  - intros B Hd.
    destruct (attempt_readable j w r B Hr Hd Hf1 Hf2)
      as (res & w' & Hp & Htr & _ & _ & _ & Ht).
    eexists res, w', _. split; [exact Hp|]. split; [exact Htr|].
    split; [exact Ht|]. split; reflexivity.
  - intros e0 Hd.
    destruct (attempt_unreadable_recorded j w r e0 Hr Hd Hf1 Hf2)
      as (w' & Hp & Htr & _ & _ & Ht).
    eexists _, w', _. split; [exact Hp|]. split; [exact Htr|].
    split; [exact Ht|]. split; reflexivity.
  - intros k i q a. apply step_terminal.
Qed.

Lemma attempt_overwrites_any_status_witness :
  faults SampleStore.failedOnce = []
  /\ table SampleStore.failedOnce !! fileId (data Sample.helloJob)
     = Some (mkFile 1 7 "hello.txt" "uploads/hello.txt" (Some "greeting")
               None failed
               (Some (errorJson "Can't reach database server")))
  /\ exists res w' row,
      processor Sample.helloJob SampleStore.failedOnce = (Returned res, w')
      /\ trace w'
         = trace SampleStore.failedOnce
             ++ [EvUpdate (fileId (data Sample.helloJob))
                   (mkUpdate processing None) true;
                 EvUpdate (fileId (data Sample.helloJob))
                   (mkUpdate processed (Some (resultJson res))) true]
      /\ table w' !! fileId (data Sample.helloJob) = Some row
      /\ status row = processed
      /\ extractedData row = Some (resultJson res).
Proof.
  assert (H1 : faults SampleStore.failedOnce = [])
    by (vm_compute; reflexivity).
  assert (H2 : table SampleStore.failedOnce !! fileId (data Sample.helloJob)
               = Some (mkFile 1 7 "hello.txt" "uploads/hello.txt"
                         (Some "greeting") None failed
                         (Some (errorJson "Can't reach database server"))))
    by (vm_compute; reflexivity).
  split; [exact H1|]. split; [exact H2|].
  destruct (attempt_overwrites_any_status _ _ _ H1 H2) as (_ & Hok & _).
  apply (Hok (list_byte_of_string "hello world")).
  vm_compute; reflexivity.
Defined.

(** ** Result and error payloads *)

Lemma coherent_workerUpdate d r :
  workerUpdate d -> coherent r = true -> coherent (applyUpdate d r) = true.
Proof.
  intros [->|[[res ->]|[msg ->]]] Hr; [|reflexivity|reflexivity].
  unfold coherent, applyUpdate, resultPresent, errorPresent in *. cbn.
  destruct (status r), (extractedData r) as [x|]; cbn in *;
    try reflexivity;
    destruct (hasKey "hash" x), (hasKey "error" x); cbn in *; congruence.
Qed.

Lemma keepsCoherent_ret {A} (a : A) : keepsCoherent (ret a).
Proof. intros w H. exact H. Qed.

Lemma keepsCoherent_throw {A} e : keepsCoherent (@throw A e).
Proof. intros w H. exact H. Qed.

Lemma keepsCoherent_bind {A B} (m : M A) (k : A -> M B) :
  keepsCoherent m -> (forall a, keepsCoherent (k a)) -> keepsCoherent (bind m k).
Proof.
  intros Hm Hk w Hw. unfold bind. specialize (Hm w Hw).
  destruct (m w) as [[a|e] w1]; cbn [snd] in *; [|exact Hm].
  apply Hk, Hm.
Qed.

Lemma keepsCoherent_tryCatch {A} (m : M A) (h : JsError -> M A) :
  keepsCoherent m -> (forall e, keepsCoherent (h e)) ->
  keepsCoherent (tryCatch m h).
Proof.
  intros Hm Hh w Hw. unfold tryCatch. specialize (Hm w Hw).
  destruct (m w) as [[a|e] w1]; cbn [snd] in *; [exact Hm|].
  apply Hh, Hm.
Qed.

(** Whatever leaves the table alone keeps it coherent. *)
Lemma keepsCoherent_table {A} (m : M A) :
  (forall w, table (m w).2 = table w) -> keepsCoherent m.
Proof. intros H w Hw id r. rewrite H. apply Hw. Qed.

Lemma keepsCoherent_ioCall : keepsCoherent ioCall.
Proof.
  apply keepsCoherent_table. intros w. unfold ioCall.
  destruct (pendingFault w); reflexivity.
Qed.

Lemma keepsCoherent_emit e : keepsCoherent (emit e).
Proof. apply keepsCoherent_table. reflexivity. Qed.

Lemma keepsCoherent_updateRow rowId d :
  workerUpdate d -> keepsCoherent (updateRow rowId d).
Proof.
  intros Hd w Hw. unfold updateRow.
  destruct (table w !! rowId) as [r|] eqn:Hr; [|exact Hw].
  intros id r'. cbn. rewrite lookup_insert. case_decide.
  - subst. intros [= <-]. cbn. apply coherent_workerUpdate; eauto.
  - apply Hw.
Qed.

Lemma keepsCoherent_fileUpdate rowId d :
  workerUpdate d -> keepsCoherent (fileUpdate rowId d).
Proof.
  intros Hd. unfold fileUpdate.
  apply keepsCoherent_tryCatch; intros;
    repeat (apply keepsCoherent_bind; intros);
    auto using keepsCoherent_ioCall, keepsCoherent_updateRow,
               keepsCoherent_emit, keepsCoherent_ret, keepsCoherent_throw.
Qed.

Lemma keepsCoherent_processFile p : keepsCoherent (processFile p).
Proof.
  apply keepsCoherent_table. intros w. unfold processFile, tryCatch, bind, readFile.
  destruct (disk w p); reflexivity.
Qed.

Lemma keepsCoherent_attemptBody j : keepsCoherent (attemptBody j).
Proof.
  unfold attemptBody.
  apply keepsCoherent_bind;
    [apply keepsCoherent_fileUpdate; left; reflexivity|intros _].
  apply keepsCoherent_bind; [apply keepsCoherent_processFile|intros res].
  apply keepsCoherent_bind; [|intros _; apply keepsCoherent_ret].
  apply keepsCoherent_fileUpdate. right. left. eauto.
Qed.

Lemma keepsCoherent_failureHandler j e : keepsCoherent (failureHandler j e).
Proof.
  unfold failureHandler, consoleError.
  apply keepsCoherent_bind; [apply keepsCoherent_emit|intros _].
  apply keepsCoherent_bind; [|intros _; apply keepsCoherent_throw].
  apply keepsCoherent_tryCatch; [|intros; apply keepsCoherent_emit].
  apply keepsCoherent_bind; [|intros _; apply keepsCoherent_ret].
  apply keepsCoherent_fileUpdate. right. right. eauto.
Qed.

Lemma keepsCoherent_processor j : keepsCoherent (processor j).
Proof.
  unfold processor.
  apply keepsCoherent_tryCatch;
    auto using keepsCoherent_attemptBody, keepsCoherent_failureHandler.
Qed.

Lemma keepsCoherent_fileCreate d :
  createStatus d = uploaded -> keepsCoherent (fileCreate d).
Proof.
  intros Hs. unfold fileCreate.
  apply keepsCoherent_bind; [apply keepsCoherent_ioCall|intros _].
  apply keepsCoherent_bind;
    [|intros r; apply keepsCoherent_bind;
               [apply keepsCoherent_emit|intros _; apply keepsCoherent_ret]].
  intros w Hw id r. unfold insertRow. cbn. rewrite lookup_insert.
  case_decide; [|apply Hw]. intros [= <-]. unfold coherent. cbn.
  rewrite Hs. reflexivity.
Qed.

Lemma keepsCoherent_addFileProcessingJob fid fp :
  keepsCoherent (addFileProcessingJob fid fp).
Proof.
  apply keepsCoherent_table. intros w.
  unfold addFileProcessingJob, bind, initializeQueue, queueAdd, bind,
    ioCall, newQueue.
  destruct (fileQueue w); cbn;
    destruct (pendingFault _); cbn; try reflexivity;
    destruct (_ !! _); reflexivity.
Qed.

Lemma keepsCoherent_uploadHandler req : keepsCoherent (uploadHandler req).
Proof.
  unfold uploadHandler, consoleError.
  apply keepsCoherent_tryCatch.
  - destruct (reqFile req) as [f|]; [|apply keepsCoherent_ret].
    apply keepsCoherent_bind;
      [apply keepsCoherent_fileCreate; reflexivity|intros file].
    apply keepsCoherent_bind; [|intros _; apply keepsCoherent_ret].
    apply keepsCoherent_addFileProcessingJob.
  - intros e.
    apply keepsCoherent_bind;
      [apply keepsCoherent_emit|intros _; apply keepsCoherent_ret].
Qed.

Lemma step_table k a w w' :
  step k a w = Some w' ->
  table w' = table w \/ exists j, table w' = table (processor j w).2.
Proof.
  unfold step. destruct a as [i|i|i];
    destruct (jobsOf (workerName k) w !! i) as [[j st]|]; try discriminate;
    destruct st; try discriminate.
  - destruct (autorun k && _); [|discriminate]. intros [= <-]. left. reflexivity.
  - destruct (processor j w) as [out w1] eqn:Hp.
    destruct (settle j out (now w1)) as [q ev].
    intros [= <-]. right. exists j. rewrite Hp. reflexivity.
  - intros [= <-]. left. reflexivity.
Qed.

Lemma keepsCoherent_step k a w w' :
  coherentWorld w -> step k a w = Some w' -> coherentWorld w'.
Proof.
  intros Hw Hs id r. destruct (step_table k a w w' Hs) as [->|[j ->]].
  - apply Hw.
  - apply keepsCoherent_processor, Hw.
Qed.

Lemma keepsCoherent_performAll ops : forall w w',
  coherentWorld w -> performAll ops w = Some w' -> coherentWorld w'.
Proof.
  induction ops as [|o ops IH]; intros w w' Hw Hp; cbn in Hp.
  - injection Hp as <-. exact Hw.
  - destruct (perform o w) as [w1|] eqn:H1; [|discriminate].
    apply (IH w1 w'); [|exact Hp].
    destruct o as [req|k a]; cbn in H1.
    + injection H1 as <-. apply keepsCoherent_uploadHandler, Hw.
    + apply (keepsCoherent_step _ _ _ _ Hw H1).
Qed.

Lemma coherent_terminal r :
  coherent r = true ->
  (status r = processed -> resultPresent r = true /\ errorPresent r = false)
  /\ (status r = failed -> errorPresent r = true /\ resultPresent r = false)
  /\ (status r = uploaded -> resultPresent r = false /\ errorPresent r = false)
  /\ resultPresent r && errorPresent r = false.
Proof.
  unfold coherent.
  destruct (status r), (resultPresent r), (errorPresent r); cbn;
    intros H; repeat split; intros; congruence.
Qed.

(** C5, as the code has it. Starting from rows whose payload fits
    their status (an empty table, for one), every upload, every write
    of the worker, every attempt, every step of the pool and every
    sequence of uploads and steps leaves such rows: a [processed] row
    has a result and no error, a [failed] row an error and no result,
    and no row has both. The write of [processing] changes the status
    only: the row keeps the payload it had, which on a retry is the
    error of the previous attempt. *)
Theorem payloads_exclusive_and_kept_while_processing :
  forall (w : World),
    coherentWorld w ->
    (forall rowId r,
        table w !! rowId = Some r ->
        (status r = processed ->
         resultPresent r = true /\ errorPresent r = false)
        /\ (status r = failed ->
            errorPresent r = true /\ resultPresent r = false)
        /\ resultPresent r && errorPresent r = false)
    /\ (forall req, coherentWorld (uploadHandler req w).2)
    /\ (forall rowId d, workerUpdate d -> coherentWorld (fileUpdate rowId d w).2)
    /\ (forall j, coherentWorld (processor j w).2)
    /\ (forall k a w', step k a w = Some w' -> coherentWorld w')
    /\ (forall ops w', performAll ops w = Some w' -> coherentWorld w')
    /\ (forall rowId r r' w',
           table w !! rowId = Some r ->
           fileUpdate rowId (mkUpdate processing None) w = (Returned r', w') ->
           table w' !! rowId = Some r'
           /\ status r' = processing
           /\ extractedData r' = extractedData r).
Proof.
  intros w Hw. split; [|split; [|split; [|split; [|split; [|split]]]]].
  - intros id r Hr.
    destruct (coherent_terminal r (Hw id r Hr)) as (H1 & H2 & _ & H4). auto.
  - intros req. apply keepsCoherent_uploadHandler, Hw.
  - intros id d Hd. apply keepsCoherent_fileUpdate; assumption.
  - intros j. apply keepsCoherent_processor, Hw.
  - intros k a w'. apply keepsCoherent_step, Hw.
  - intros ops w'. apply keepsCoherent_performAll, Hw.
  - intros id r r' w' Hr Hu.
    destruct (fileUpdate_cases id (mkUpdate processing None) w)
      as [(r0 & Hr0 & Hu0)|(e & Hu0)]; rewrite Hu0 in Hu; [|discriminate].
    injection Hu as <- <-. rewrite Hr in Hr0. injection Hr0 as <-.
    cbn. rewrite lookup_insert_eq. repeat split.
Qed.

Lemma payloads_exclusive_and_kept_while_processing_witness :
  coherentWorld SampleStore.attemptedBoth
  /\ table SampleStore.attemptedBoth !! 1 = Some SampleStore.processedHello
  /\ status SampleStore.processedHello = processed
  /\ resultPresent SampleStore.processedHello = true
  /\ errorPresent SampleStore.processedHello = false
  /\ table SampleStore.attemptedBoth !! 2 = Some SampleStore.failedGone
  /\ status SampleStore.failedGone = failed
  /\ errorPresent SampleStore.failedGone = true
  /\ resultPresent SampleStore.failedGone = false
  /\ (exists r' w',
         fileUpdate 2 (mkUpdate processing None) SampleStore.attemptedBoth
         = (Returned r', w')
         /\ table w' !! 2 = Some r'
         /\ status r' = processing
         /\ extractedData r' = extractedData SampleStore.failedGone)
  /\ coherentWorld (processor Sample.missingJob SampleStore.attemptedBoth).2.
Proof.
  assert (H0 : coherentWorld Sample.fresh)
    by (intros rowId r Hr; cbn in Hr; rewrite lookup_empty in Hr;
        discriminate).
  assert (Hreach :
    performAll
      [DoUpload Sample.helloUpload; DoUpload Sample.missingUpload;
       DoPool Sample.started (Engine.Claim 0);
       DoPool Sample.started (Engine.Settle 0);
       DoPool Sample.started (Engine.Claim 1);
       DoPool Sample.started (Engine.Settle 1)]
      Sample.fresh
    = Some SampleStore.attemptedBoth) by (vm_compute; reflexivity).
  destruct (payloads_exclusive_and_kept_while_processing _ H0)
    as (_ & _ & _ & _ & _ & Hops & _).
  pose proof (Hops _ _ Hreach) as H.
  destruct (payloads_exclusive_and_kept_while_processing _ H)
    as (Hrows & _ & _ & Hproc & _ & _ & Hkeep).
  assert (H1 : table SampleStore.attemptedBoth !! 1
               = Some SampleStore.processedHello)
    by (vm_compute; reflexivity).
  assert (H2 : table SampleStore.attemptedBoth !! 2
               = Some SampleStore.failedGone)
    by (vm_compute; reflexivity).
  assert (Hu : fileUpdate 2 (mkUpdate processing None)
                 SampleStore.attemptedBoth
               = (Returned
                    (applyUpdate (mkUpdate processing None)
                       SampleStore.failedGone),
                  (fileUpdate 2 (mkUpdate processing None)
                     SampleStore.attemptedBoth).2))
    by (vm_compute; reflexivity).
  destruct (Hrows _ _ H1) as (Hp & _ & _).
  destruct (Hrows _ _ H2) as (_ & Hfl & _).
  destruct (Hp eq_refl) as (Hp1 & Hp2).
  destruct (Hfl eq_refl) as (Hf1 & Hf2).
  split; [exact H|].
  split; [exact H1|]. split; [reflexivity|].
  split; [exact Hp1|]. split; [exact Hp2|].
  split; [exact H2|]. split; [reflexivity|].
  split; [exact Hf1|]. split; [exact Hf2|].
  split; [|apply Hproc].
  eexists _, _. split; [exact Hu|]. exact (Hkeep _ _ _ _ H2 Hu).
Defined.

(** Against C2 as stated: the first attempt at the first job meets a
    store error and leaves the row [failed]; the retry, an attempt of
    the same job, then makes it [processed] and replaces the error by
    the result. *)
Lemma retry_overwrites_failed_status :
  let w1 := runJob 3 Sample.started 0 Sample.flaky in
  let w2 := runJob 2 Sample.started 0 w1 in
  (status <$> table w1 !! 1) = Some failed
  /\ (errorPresent <$> table w1 !! 1) = Some true
  /\ engineEvents (trace w2)
     = engineEvents (trace w1)
         ++ [EvAttempt "1" 2 1700000001000; EvFinalize "1" true]
  /\ (status <$> table w2 !! 1) = Some processed
  /\ (errorPresent <$> table w2 !! 1) = Some false
  /\ (resultPresent <$> table w2 !! 1) = Some true.
Proof. vm_compute. repeat split. Qed.

(** Against C5 as stated: while the retry of the second job is under
    way its row has status [processing] and still carries the error of
    the first attempt; the same holds after an attempt whose [failed]
    write was refused by the store. *)
Lemma retry_is_processing_with_stale_error :
  let w1 := runJob 4 Sample.started 1 Sample.uploadedTwo in
  let w2 := (fileUpdate 2 (mkUpdate processing None) w1).2 in
  let w3 := runJob 5 Sample.started 1 Sample.flakyLater in
  jobsOf "fileProcessing" w1 !! 1%nat
  = Some (mkQJob (attempted Sample.missingJob) Active)
  /\ (status <$> table w2 !! 2) = Some processing
  /\ (errorPresent <$> table w2 !! 2) = Some true
  /\ (status <$> table w3 !! 2) = Some processing
  /\ (errorPresent <$> table w3 !! 2) = Some true.
Proof. vm_compute. repeat split. Qed.

(** ** The pool as a whole *)

(** C4, as the code has it. In every execution of the pool, with
    submissions arriving in between, the number of active jobs stays
    within the worker's [concurrency]. Every execution is finite: each
    step brings a job closer to a terminal state. When the worker has
    been started and its cap is at least 1, an execution can only stop
    when every job is terminal, and the pool's scheduler reaches that
    state; the source starts the worker (with cap 5) unless [NODE_ENV]
    is [test], where it creates it with cap 1 and [autorun] off. Ten
    jobs submitted at once under a cap of 2 all end terminal with two
    active at most. *)
Theorem pool_respects_cap_and_drains_when_started :
  forall (k : WorkerObj) (w : World),
    Z.of_nat (activeCount (jobsOf (workerName k) w)) <= concurrency k ->
    (forall ms w',
        moves k ms w = Some w' ->
        Z.of_nat (activeCount (jobsOf (workerName k) w')) <= concurrency k)
    /\ (forall acts w',
           run k acts w = Some w' ->
           (length acts + measure (jobsOf (workerName k) w')
            <= measure (jobsOf (workerName k) w))%nat)
    /\ (autorun k = true ->
        1 <= concurrency k ->
        (forall acts w',
            run k acts w = Some w' ->
            (forall a, step k a w' = None) ->
            forallb isTerminal (jobsOf (workerName k) w') = true)
        /\ (forall fuel,
               (measure (jobsOf (workerName k) w) <= fuel)%nat ->
               forallb isTerminal
                 (jobsOf (workerName k) (runPool fuel k w 0).1) = true
               /\ Z.of_nat (runPool fuel k w 0).2 <= concurrency k))
    /\ (forall v,
           worker v = None ->
           exists ref v',
             initializeWorker v = (Returned ref, v')
             /\ workers v' !! ref
                = Some (mkWorker "fileProcessing" (if isTest v then 1 else 5)
                          (negb (isTest v))))
    /\ (length (jobsOf "fileProcessing" Sample.tenJobs) = 10%nat
        /\ activeCount (jobsOf "fileProcessing" Sample.tenJobs) = 0%nat
        /\ (runPool 60 Sample.capTwo Sample.tenJobs 0).2 = 2%nat
        /\ forallb isTerminal
             (jobsOf "fileProcessing"
                (runPool 60 Sample.capTwo Sample.tenJobs 0).1) = true).
Proof.
  intros k w Hc. split; [|split; [|split; [|split]]].
  - intros ms w' Hm. apply (moves_activeCount _ _ _ _ Hm Hc).
  - intros acts w'. apply run_measure.
  - intros Hrun H1. split.
    + intros acts w'. apply run_stuck_terminal; assumption.
    + intros fuel Hf. split.
      * apply runPool_drains; assumption.
      * apply runPool_peak; [exact Hc|lia].
  - intros v Hv. eexists _, _. split; [apply initializeWorker_unset, Hv|].
    cbn. apply lookup_insert_eq.
  - vm_compute. repeat split.
Qed.

(** Against C4 as stated: under [NODE_ENV=test] the worker is created
    with [autorun] off, so the job of an upload is never claimed; no
    step of the pool is possible and the job stays waiting. *)
Lemma test_environment_leaves_jobs_waiting :
  isTest Sample.freshTest = true
  /\ workers Sample.testUploaded !! 1 = Some Sample.testWorker
  /\ jobsOf "fileProcessing" Sample.testUploaded
     = [mkQJob Sample.helloJob Waiting]
  /\ (forall a, step Sample.testWorker a Sample.testUploaded = None)
  /\ forall acts w',
      run Sample.testWorker acts Sample.testUploaded = Some w' ->
      jobsOf "fileProcessing" w' = [mkQJob Sample.helloJob Waiting].
Proof.
  assert (Hjobs : jobsOf "fileProcessing" Sample.testUploaded
                  = [mkQJob Sample.helloJob Waiting])
    by (vm_compute; reflexivity).
  assert (Hstuck : forall a, step Sample.testWorker a Sample.testUploaded = None).
  { intros a. unfold step.
    change (workerName Sample.testWorker) with "fileProcessing".
    rewrite Hjobs.
    destruct a as [[|[|i]]|[|[|i]]|[|[|i]]]; reflexivity. }
  split; [reflexivity|]. split; [vm_compute; reflexivity|].
  split; [exact Hjobs|]. split; [exact Hstuck|].
  intros [|a acts] w' Hr; cbn in Hr.
  - injection Hr as <-. exact Hjobs.
  - rewrite Hstuck in Hr. discriminate.
Qed.

Lemma pool_respects_cap_and_drains_when_started_witness :
  Z.of_nat (activeCount (jobsOf (workerName Sample.capTwo) Sample.tenJobs))
  <= concurrency Sample.capTwo
  /\ autorun Sample.capTwo = true
  /\ 1 <= concurrency Sample.capTwo
  /\ forallb isTerminal
       (jobsOf (workerName Sample.capTwo)
          (runPool 110 Sample.capTwo Sample.tenJobs 0).1) = true
  /\ Z.of_nat (runPool 110 Sample.capTwo Sample.tenJobs 0).2
     <= concurrency Sample.capTwo.
Proof.
  assert (H : Z.of_nat (activeCount
                          (jobsOf (workerName Sample.capTwo) Sample.tenJobs))
              <= concurrency Sample.capTwo)
    by (vm_compute; discriminate).
  split; [exact H|]. split; [reflexivity|]. split; [vm_compute; discriminate|].
  destruct (pool_respects_cap_and_drains_when_started _ _ H)
    as (_ & _ & Hlive & _).
  destruct (Hlive eq_refl ltac:(vm_compute; discriminate)) as (_ & Hdrain).
  apply (Hdrain 110%nat). vm_compute. 
  repeat constructor.
Defined.

(* ===================================================================== *)
(** * Further properties: connection, attempts, upload, routes            *)
(* ===================================================================== *)
(* ===================================================================== *)
(** ** Strings and numbers of the language                                *)
(* ===================================================================== *)

Lemma prefix_append p t : String.prefix p (p ++ t)%string = true.
Proof.
  induction p as [|c p IH].
  - destruct t; reflexivity.
  - change (String.prefix (String c p) (String c (p ++ t)%string) = true).
    cbn [String.prefix].
    destruct (ascii_dec c c) as [_|Hn]; [exact IH|contradiction].
Qed.

Lemma dropChars_append p t : Js.dropChars (String.length p) (p ++ t)%string = t.
Proof.
  induction p as [|c p IH].
  - destruct t; reflexivity.
  - exact IH.
Qed.

Lemma prefix_split p : forall s,
  String.prefix p s = true -> s = (p ++ Js.dropChars (String.length p) s)%string.
Proof.
  induction p as [|c p IH]; intros s H.
  - destruct s; reflexivity.
  - destruct s as [|b s]; cbn in H; [discriminate|].
    destruct (ascii_dec c b) as [->|]; [|discriminate].
    change (String b s = String b (p ++ Js.dropChars (String.length p) s)%string).
    f_equal. apply IH, H.
Qed.

Lemma replace_prefix p r s :
  String.prefix p s = true ->
  Js.replace p r s = (r ++ Js.dropChars (String.length p) s)%string.
Proof. intros H. destruct s; cbn [Js.replace]; rewrite H; reflexivity. Qed.

(** The token [auth] takes from a header that starts with the scheme
    is all that follows the scheme. *)
Lemma bearer_token t :
  Js.truthy ("Bearer " ++ t) = true
  /\ Js.startsWith "Bearer " ("Bearer " ++ t) = true
  /\ Js.replace "Bearer " "" ("Bearer " ++ t) = t.
Proof.
  split; [reflexivity|]. split; [apply (prefix_append "Bearer ")|].
  rewrite replace_prefix by apply (prefix_append "Bearer ").
  apply (dropChars_append "Bearer ").
Qed.

Lemma bearer_header h :
  negb (Js.truthy h) || negb (Js.startsWith "Bearer " h) = false ->
  h = ("Bearer " ++ Js.dropChars 7 h)%string.
Proof.
  intros H. apply orb_false_iff in H as [_ H].
  apply negb_false_iff in H. apply (prefix_split "Bearer "), H.
Qed.

Lemma digitOf_digitChar d :
  0 <= d < 10 -> Js.digitOf 10 (Text.digitChar d) = Some d.
Proof.
  intros H.
  assert (Hd : d = 0 \/ d = 1 \/ d = 2 \/ d = 3 \/ d = 4 \/ d = 5 \/ d = 6
               \/ d = 7 \/ d = 8 \/ d = 9) by lia.
  repeat (destruct Hd as [->|Hd]; [reflexivity|]). subst d. reflexivity.
Qed.

Lemma digitsValue_naturalDigits fuel : forall n tail,
  0 <= n < 2 ^ Z.of_nat fuel -> (0 < fuel)%nat ->
  Js.digitsValue 10 None (Text.naturalDigits fuel n tail)
  = Js.digitsValue 10 (Some n) tail.
Proof.
  induction fuel as [|fuel IH]; intros n tail Hn Hfuel; [lia|].
  cbn [Text.naturalDigits].
  destruct (n <? 10) eqn:Hlt.
  - apply Z.ltb_lt in Hlt. cbn [Js.digitsValue].
    rewrite digitOf_digitChar by lia. cbn [default from_option Datatypes.id].
    replace (10 * 0 + n) with n by lia. reflexivity.
  - apply Z.ltb_ge in Hlt.
    assert (Hpow : 2 ^ Z.of_nat (S fuel) = 2 * 2 ^ Z.of_nat fuel).
    { rewrite Nat2Z.inj_succ, Z.pow_succ_r by lia. reflexivity. }
    assert (Hq : 1 <= n / 10 < 2 ^ Z.of_nat fuel).
    { split.
      - apply Z.div_le_lower_bound; lia.
      - apply Z.div_lt_upper_bound; lia. }
    assert (Hf : (0 < fuel)%nat).
    { destruct fuel; [|lia]. cbn in Hq. lia. }
    rewrite IH by lia.
    cbn [Js.digitsValue].
    rewrite digitOf_digitChar by (apply Z.mod_pos_bound; lia).
    cbn [default from_option Datatypes.id].
    replace (10 * (n / 10) + n mod 10) with n
      by (rewrite <- Z.div_mod; lia).
    reflexivity.
Qed.

Lemma naturalDigits_head fuel : forall n tail,
  (0 < fuel)%nat -> 0 <= n ->
  exists d rest, 0 <= d < 10
    /\ Text.naturalDigits fuel n tail = String (Text.digitChar d) rest.
Proof.
  induction fuel as [|fuel IH]; intros n tail Hfuel Hn; [lia|].
  cbn [Text.naturalDigits].
  destruct (n <? 10) eqn:Hlt.
  - apply Z.ltb_lt in Hlt. exists n, tail. split; [lia|reflexivity].
  - apply Z.ltb_ge in Hlt.
    destruct fuel as [|fuel].
    + cbn. exists (n mod 10), tail. split; [apply Z.mod_pos_bound; lia|reflexivity].
    + apply IH; [lia|]. apply Z.div_pos; lia.
Qed.


Lemma hex_prefix_value s :
  String.prefix "0x" s || String.prefix "0X" s = true ->
  Js.digitsValue 10 None s = Some 0.
Proof.
  intros H. apply orb_true_iff in H as [H|H].
  - rewrite (prefix_split "0x" s H). reflexivity.
  - rewrite (prefix_split "0X" s H). reflexivity.
Qed.

Lemma parseMagnitude_decimal negative s m :
  Js.digitsValue 10 None s = Some m ->
  0 < m < 9007199254740992 ->
  Js.parseMagnitude negative s = Js.Num (if negative then - m else m).
Proof.
  intros Hs Hm. unfold Js.parseMagnitude.
  destruct (String.prefix "0x" s || String.prefix "0X" s) eqn:Hhex.
  { rewrite (hex_prefix_value _ Hhex) in Hs. injection Hs as <-. lia. }
  rewrite Hs. unfold Js.nearestDouble.
  destruct (m <? 9007199254740992) eqn:Hlt; [reflexivity|].
  apply Z.ltb_ge in Hlt. lia.
Qed.

Lemma digit_head c rest d :
  Js.digitOf 10 c = Some d ->
  Js.parseInt (String c rest) = Js.parseMagnitude false (String c rest).
Proof.
  intros H. unfold Js.parseInt. cbn [Js.trimStart].
  destruct c as [[] [] [] [] [] [] [] []];
    first [ discriminate H | reflexivity ].
Qed.

Lemma decimal_natural n :
  0 <= n ->
  Js.digitsValue 10 None
    (Text.naturalDigits (S (Z.to_nat (Z.log2 n))) n "") = Some n.
Proof.
  intros Hn. rewrite digitsValue_naturalDigits; [reflexivity| |lia].
  split; [lia|].
  destruct (Z.eq_dec n 0) as [->|Hz]; [reflexivity|].
  rewrite Nat2Z.inj_succ, Z2Nat.id by apply Z.log2_nonneg.
  apply Z.log2_spec. lia.
Qed.

(** [parseInt(String(n))] is [n] for every integer a double holds
    exactly. *)
Lemma parseInt_decimal n :
  Z.abs n < 9007199254740992 -> Js.parseInt (Text.decimal n) = Js.Num n.
Proof.
  intros Hn. destruct (Z.eq_dec n 0) as [->|Hz]; [reflexivity|].
  unfold Text.decimal.
  set (s := Text.naturalDigits _ _ _).
  assert (Hv : Js.digitsValue 10 None s = Some (Z.abs n))
    by (apply decimal_natural; lia).
  destruct (n <? 0) eqn:Hneg.
  - apply Z.ltb_lt in Hneg.
    change (Js.parseInt (String "-"%char s) = Js.Num n).
    unfold Js.parseInt. cbn [Js.trimStart].
    change (Js.parseMagnitude true s = Js.Num n).
    rewrite (parseMagnitude_decimal true s (Z.abs n) Hv) by lia.
    f_equal. lia.
  - apply Z.ltb_ge in Hneg.
    destruct (naturalDigits_head (S (Z.to_nat (Z.log2 (Z.abs n)))) (Z.abs n) "")
      as (d & rest & Hd & Hs); [lia|lia|].
    fold s in Hs. rewrite Hs in *.
    rewrite (digit_head _ _ d) by (apply digitOf_digitChar, Hd).
    rewrite (parseMagnitude_decimal false _ (Z.abs n) Hv) by lia.
    f_equal. lia.
Qed.

Lemma naturalDigits_append fuel : forall n acc tail,
  (Text.naturalDigits fuel n acc ++ tail)%string
  = Text.naturalDigits fuel n (acc ++ tail)%string.
Proof.
  induction fuel as [|fuel IH]; intros n acc tail; [reflexivity|].
  cbn [Text.naturalDigits]. destruct (n <? 10); [reflexivity|].
  rewrite IH. reflexivity.
Qed.

(** [parseInt] stops at the first character that is no digit. *)
Lemma parseInt_decimal_suffix n c rest :
  0 < n < 9007199254740992 ->
  Js.digitOf 10 c = None ->
  Js.parseInt (Text.decimal n ++ String c rest) = Js.Num n.
Proof.
  intros Hn Hc. unfold Text.decimal.
  replace (n <? 0) with false by (symmetry; apply Z.ltb_ge; lia).
  replace (Z.abs n) with n by lia.
  rewrite naturalDigits_append.
  change ("" ++ String c rest)%string with (String c rest).
  set (fuel := S (Z.to_nat (Z.log2 n))).
  assert (Hv : Js.digitsValue 10 None (Text.naturalDigits fuel n (String c rest))
               = Some n).
  { rewrite digitsValue_naturalDigits; [cbn [Js.digitsValue]; rewrite Hc; reflexivity| |lia].
    split; [lia|]. unfold fuel.
    rewrite Nat2Z.inj_succ, Z2Nat.id by apply Z.log2_nonneg.
    apply Z.log2_spec. lia. }
  destruct (naturalDigits_head fuel n (String c rest)) as (d & tl & Hd & Hs);
    [unfold fuel; lia|lia|].
  rewrite Hs in *.
  rewrite (digit_head _ _ d) by (apply digitOf_digitChar, Hd).
  apply (parseMagnitude_decimal false _ n Hv). lia.
Qed.

(* ===================================================================== *)
(** ** The upload handler, case by case                                   *)
(* ===================================================================== *)

Lemma queueAdd_returned q name d w j w' :
  queueAdd q name d w = (Returned j, w') -> pendingFault w = None.
Proof.
  unfold queueAdd, bind, ioCall.
  destruct (pendingFault w); [discriminate|reflexivity].
Qed.

Lemma addFileProcessingJob_cases fid fp w :
  exists w0,
    nodeEnv w0 = nodeEnv w /\ now w0 = now w /\ disk w0 = disk w
    /\ table w0 = table w /\ nextFileId w0 = nextFileId w
    /\ faults w0 = tail (faults w) /\ redis w0 = redis w
    /\ ((exists e,
            addFileProcessingJob fid fp w = (Thrown e, w0))
        \/ (exists qo j,
               data j = mkJobData fid fp
               /\ attemptsMade j = 0
               /\ pendingFault w = None
               /\ addFileProcessingJob fid fp w
                  = (Returned j,
                     withRedis
                       (<[queueName qo
                          := jobsOf (queueName qo) w ++ [mkQJob j Waiting]]>
                          (redis w))
                       (withTrace (trace w0 ++ [EvQueueAdd
                                                  (default (nextRef w) (fileQueue w)) j])
                          w0)))).
Proof.
  unfold addFileProcessingJob.
  destruct (fileQueue w) as [q|] eqn:Hq.
  - rewrite (bind_returned _ _ _ _ _ (initializeQueue_set _ _ Hq)).
    destruct (queueAdd_cases q "processFile" (mkJobData fid fp) w)
      as [(e & Ha)|(qo & Hqo & Ha)]; cbv zeta in Ha; rewrite Ha.
    + exists (withFaults (tail (faults w)) w).
      repeat (split; [reflexivity|]). left. exists e. reflexivity.
    + exists (withFaults (tail (faults w)) w).
      repeat (split; [reflexivity|]). right.
      exists qo,
        (mkJob (Text.decimal (Z.of_nat (length (jobsOf (queueName qo) w)) + 1))
           "processFile" (mkJobData fid fp) (defaultJobOptions qo) 0).
      split; [reflexivity|]. split; [reflexivity|].
      split; [exact (queueAdd_returned _ _ _ _ _ _ Ha)|]. reflexivity.
  - rewrite (bind_returned _ _ _ _ _ (initializeQueue_unset _ Hq)).
    set (w1 := withFileQueue _ _).
    destruct (queueAdd_cases (nextRef w) "processFile" (mkJobData fid fp) w1)
      as [(e & Ha)|(qo & Hqo & Ha)]; cbv zeta in Ha; rewrite Ha.
    + exists (withFaults (tail (faults w1)) w1).
      repeat (split; [reflexivity|]). left. exists e. reflexivity.
    + exists (withFaults (tail (faults w1)) w1).
      repeat (split; [reflexivity|]). right.
      exists qo,
        (mkJob (Text.decimal (Z.of_nat (length (jobsOf (queueName qo) w)) + 1))
           "processFile" (mkJobData fid fp) (defaultJobOptions qo) 0).
      split; [reflexivity|]. split; [reflexivity|].
      split; [exact (queueAdd_returned _ _ _ _ _ _ Ha)|]. reflexivity.
Qed.

Lemma uploadHandler_cases req w :
  match reqFile req with
  | None =>
      uploadHandler req w = (Returned (jsonError 400 "No file uploaded"), w)
  | Some f =>
      match pendingFault w with
      | Some e =>
          uploadHandler req w
          = (Returned (jsonError 500 "Error uploading file"),
             withTrace (trace w ++ [EvConsoleError "File upload error:" e])
               (withFaults (tail (faults w)) w))
      | None =>
          exists r w',
            uploadHandler req w = (Returned r, w')
            /\ nodeEnv w' = nodeEnv w /\ now w' = now w /\ disk w' = disk w
            /\ nextFileId w' = nextFileId w + 1
            /\ faults w' = tail (tail (faults w))
            /\ table w' = <[nextFileId w := uploadedRow req f w]> (table w)
            /\ ((r = jsonError 500 "Error uploading file"
                 /\ redis w' = redis w)
                \/ (exists qo j,
                       r = uploadAccepted (uploadedRow req f w)
                       /\ pendingFault (withFaults (tail (faults w)) w) = None
                       /\ data j = mkJobData (nextFileId w) (path f)
                       /\ attemptsMade j = 0
                       /\ redis w'
                          = <[queueName qo
                              := jobsOf (queueName qo) w ++ [mkQJob j Waiting]]>
                              (redis w)))
      end
  end.
Proof.
  unfold uploadHandler, tryCatch.
  destruct (reqFile req) as [f|] eqn:Hfile; [|reflexivity].
  destruct (fileCreate_cases
              (mkCreate (reqUserId req) (originalname f) (path f)
                 (bodyTitle req) (bodyDescription req) uploaded) w)
    as [(e & Hf & Hc)|(Hf & Hc)]; cbv zeta in Hc; rewrite Hf; cbv beta iota;
    unfold bind at 1; rewrite Hc.
  { reflexivity. }
  cbn [id createUserId createOriginalFilename createStoragePath createTitle
       createDescription createStatus].
  fold (uploadedRow req f w).
  set (row := uploadedRow req f w).
  set (w1 := withTrace _ _).
  unfold bind at 1.
  destruct (addFileProcessingJob_cases (nextFileId w) (path f) w1)
    as (w0 & He & Hn & Hd & Ht & Hi & Hfa & Hr & [(e & Ha)|(qo & j & Hj & Hm & Hp & Ha)]);
    rewrite Ha.
  - eexists _, _. split; [reflexivity|]. cbn.
    rewrite He, Hn, Hd, Hi, Hfa, Ht, Hr.
    repeat (split; [reflexivity|]). left. split; reflexivity.
  - eexists _, _. split; [reflexivity|]. cbn.
    rewrite He, Hn, Hd, Hi, Hfa, Ht.
    repeat (split; [reflexivity|]). right. exists qo, j.
    repeat (split; [first [reflexivity|assumption]|]). reflexivity.
Qed.

(* ===================================================================== *)
(** ** The Redis connection options                                       *)
(* ===================================================================== *)

(** X1. [retryStrategy] stops the reconnection exactly after the third
    failed attempt. Before that the delay is a hundred milliseconds per
    attempt made, so it grows with every attempt and never passes 300:
    the bound of 3000 in the source is never the smaller of the two. *)
Theorem reconnection_stops_after_three_attempts :
  forall times : Z,
    (retryStrategy times = None <-> 3 < times)
    /\ (forall d, retryStrategy times = Some d -> d = times * 100 /\ d <= 300)
    /\ (forall later d d',
           times < later ->
           retryStrategy times = Some d -> retryStrategy later = Some d' ->
           d < d').
Proof.
  intros times. unfold retryStrategy.
  destruct (3 <? times) eqn:Ht;
    [apply Z.ltb_lt in Ht|apply Z.ltb_ge in Ht].
  - split; [tauto|]. split; intros; discriminate.
  - split; [split; [discriminate|lia]|]. split.
    + intros d [= <-]. lia.
    + intros later d d' Hlater [= <-].
      destruct (3 <? later) eqn:Hl; [discriminate|].
      apply Z.ltb_ge in Hl. intros [= <-]. lia.
Qed.

(* ===================================================================== *)
(** ** The upload handler                                                 *)
(* ===================================================================== *)

(** X6. The upload handler never throws: whatever the store and Redis
    do, it returns an answer, and the answer is 201, 400 or 500. It is
    400 exactly when the request carries no file, and then nothing at
    all has happened: no call was made and nothing was printed. *)
Theorem upload_always_answers :
  forall (req : Request) (w : World),
    exists (r : Response) (w' : World),
      uploadHandler req w = (Returned r, w')
      /\ (statusCode r = 201 \/ statusCode r = 400 \/ statusCode r = 500)
      /\ (statusCode r = 400 <-> reqFile req = None)
      /\ (statusCode r = 400 -> w' = w).
Proof.
  intros req w. pose proof (uploadHandler_cases req w) as Hc.
  destruct (reqFile req) as [f|].
  - destruct (pendingFault w) as [e|].
    + eexists _, _. split; [exact Hc|]. cbn.
      split; [auto|]. split; [split; discriminate|discriminate].
    + destruct Hc as (r & w' & Hrun & _ & _ & _ & _ & _ & _ & Hcases).
      exists r, w'. split; [exact Hrun|].
      destruct Hcases as [(-> & _)|(qo & j & -> & _)]; cbn;
        (split; [auto|]); (split; [split; discriminate|discriminate]).
  - eexists _, _. split; [exact Hc|]. cbn.
    split; [auto|]. split; [split; reflexivity|reflexivity].
Qed.

(** X7. One job per accepted upload, none otherwise: when the answer is
    not 201 the jobs of every queue are as before; when it is 201
    exactly one job has been appended to one queue, waiting, with no
    attempt made, and its data name the new row, which is in the table
    with status [uploaded]. *)
Theorem upload_queues_a_job_exactly_when_accepted :
  forall (req : Request) (w : World),
    exists (r : Response) (w' : World),
      uploadHandler req w = (Returned r, w')
      /\ (statusCode r <> 201 -> redis w' = redis w)
      /\ (statusCode r = 201 ->
          exists (name : string) (j : Job) (row : FileRecord),
            redis w' = <[name := jobsOf name w ++ [mkQJob j Waiting]]> (redis w)
            /\ fileId (data j) = nextFileId w
            /\ attemptsMade j = 0
            /\ table w' !! nextFileId w = Some row
            /\ status row = uploaded).
Proof.
  intros req w. pose proof (uploadHandler_cases req w) as Hc.
  destruct (reqFile req) as [f|].
  - destruct (pendingFault w) as [e|].
    + eexists _, _. split; [exact Hc|]. cbn.
      split; [reflexivity|discriminate].
    + destruct Hc as (r & w' & Hrun & _ & _ & _ & _ & _ & Ht & Hcases).
      exists r, w'. split; [exact Hrun|].
      destruct Hcases as [(-> & Hr)|(qo & j & -> & _ & Hj & Hm & Hr)].
      * split; [intros _; exact Hr|discriminate].
      * split; [intros Hne; contradiction Hne; reflexivity|]. intros _.
        exists (queueName qo), j, (uploadedRow req f w).
        split; [exact Hr|]. split; [rewrite Hj; reflexivity|].
        split; [exact Hm|]. split; [|reflexivity].
        rewrite Ht. apply lookup_insert_eq.
  - eexists _, _. split; [exact Hc|]. cbn.
    split; [reflexivity|discriminate].
Qed.

(** X8. Nothing is undone when the job cannot be queued: if the store
    creates the row and the call to Redis then fails, the client gets
    the 500, the row stays in the table with status [uploaded], and no
    queue holds a job for it. *)
Theorem failed_queueing_leaves_the_row_uploaded :
  forall (req : Request) (w : World) (f : UploadedFile) (e : JsError)
         (rest : list (option JsError)),
    reqFile req = Some f ->
    faults w = None :: Some e :: rest ->
    exists w',
      uploadHandler req w
      = (Returned (jsonError 500 "Error uploading file"), w')
      /\ table w' !! nextFileId w = Some (uploadedRow req f w)
      /\ status (uploadedRow req f w) = uploaded
      /\ redis w' = redis w.
Proof.
  intros req w f e rest Hfile Hf.
  pose proof (uploadHandler_cases req w) as Hc. rewrite Hfile in Hc.
  assert (Hp : pendingFault w = None)
    by (unfold pendingFault; rewrite Hf; reflexivity).
  rewrite Hp in Hc.
  destruct Hc as (r & w' & Hrun & _ & _ & _ & _ & _ & Ht & Hcases).
  destruct Hcases as [(-> & Hr)|(qo & j & _ & Hp2 & _)].
  - exists w'. split; [exact Hrun|]. split; [|split; [reflexivity|exact Hr]].
    rewrite Ht. apply lookup_insert_eq.
  - exfalso. unfold pendingFault in Hp2. cbn in Hp2. rewrite Hf in Hp2.
    discriminate.
Qed.

Lemma failed_queueing_leaves_the_row_uploaded_witness :
  exists w',
    uploadHandler Sample.helloUpload SampleRoutes.redisDown
    = (Returned (jsonError 500 "Error uploading file"), w')
    /\ table w' !! nextFileId SampleRoutes.redisDown
       = Some (uploadedRow Sample.helloUpload
                 (mkUploaded "hello.txt" "uploads/hello.txt")
                 SampleRoutes.redisDown)
    /\ status (uploadedRow Sample.helloUpload
                 (mkUploaded "hello.txt" "uploads/hello.txt")
                 SampleRoutes.redisDown) = uploaded
    /\ redis w' = redis SampleRoutes.redisDown.
Proof.
  exact (failed_queueing_leaves_the_row_uploaded Sample.helloUpload
           SampleRoutes.redisDown (mkUploaded "hello.txt" "uploads/hello.txt")
           (mkError "Connection is closed.") [] eq_refl eq_refl).
Defined.

(* ===================================================================== *)
(** ** The error-handling middleware                                      *)
(* ===================================================================== *)



(* ===================================================================== *)
(** ** What an attempt may change in the table                            *)
(* ===================================================================== *)

Lemma sameColumns_refl r : sameColumns r r.
Proof. unfold sameColumns. tauto. Qed.

Lemma sameColumns_trans r1 r2 r3 :
  sameColumns r1 r2 -> sameColumns r2 r3 -> sameColumns r1 r3.
Proof. unfold sameColumns. intros H1 H2. destruct_and!. repeat split; congruence. Qed.

Lemma sameColumns_applyUpdate d r : sameColumns r (applyUpdate d r).
Proof. unfold sameColumns. cbn. tauto. Qed.

Lemma rowsKept_table rowId w w' : table w' = table w -> rowsKept rowId w w'.
Proof.
  intros H k. rewrite H. destruct (table w !! k); [|exact I].
  split; [apply sameColumns_refl|reflexivity].
Qed.

Lemma rowsKept_trans rowId w1 w2 w3 :
  rowsKept rowId w1 w2 -> rowsKept rowId w2 w3 -> rowsKept rowId w1 w3.
Proof.
  intros H1 H2 k. specialize (H1 k). specialize (H2 k).
  destruct (table w1 !! k), (table w2 !! k), (table w3 !! k);
    try contradiction; try exact I.
  destruct H1 as [Hc1 He1], H2 as [Hc2 He2]. split.
  - eapply sameColumns_trans; eassumption.
  - intros Hk. rewrite (He2 Hk). apply He1, Hk.
Qed.

Lemma keepsRows_table {A} rowId (m : M A) :
  (forall w, table (m w).2 = table w) -> keepsRows rowId m.
Proof. intros H w. apply rowsKept_table, H. Qed.

Lemma keepsRows_bind {A B} rowId (m : M A) (k : A -> M B) :
  keepsRows rowId m -> (forall a, keepsRows rowId (k a)) ->
  keepsRows rowId (bind m k).
Proof.
  intros Hm Hk w. unfold bind. specialize (Hm w).
  destruct (m w) as [[a|e] w1]; cbn in *; [|exact Hm].
  eapply rowsKept_trans; [exact Hm|apply Hk].
Qed.

Lemma keepsRows_tryCatch {A} rowId (m : M A) (h : JsError -> M A) :
  keepsRows rowId m -> (forall e, keepsRows rowId (h e)) ->
  keepsRows rowId (tryCatch m h).
Proof.
  intros Hm Hh w. unfold tryCatch. specialize (Hm w).
  destruct (m w) as [[a|e] w1]; cbn in *; [exact Hm|].
  eapply rowsKept_trans; [exact Hm|apply Hh].
Qed.

Lemma keepsRows_fileUpdate rowId d : keepsRows rowId (fileUpdate rowId d).
Proof.
  intros w.
  destruct (fileUpdate_cases rowId d w) as [(r & Hr & Hu)|(e & Hu)];
    rewrite Hu; cbn.
  - intros k. cbn. destruct (decide (k = rowId)) as [->|Hk].
    + rewrite Hr, lookup_insert_eq.
      split; [apply sameColumns_applyUpdate|congruence].
    + rewrite lookup_insert_ne by congruence.
      destruct (table w !! k); [|exact I].
      split; [apply sameColumns_refl|reflexivity].
  - apply rowsKept_table. reflexivity.
Qed.

Lemma processFile_table p w : table (processFile p w).2 = table w.
Proof.
  unfold processFile, tryCatch, bind, readFile.
  destruct (disk w p); reflexivity.
Qed.

Lemma keepsRows_failureHandler j e :
  keepsRows (fileId (data j)) (failureHandler j e).
Proof.
  unfold failureHandler.
  apply keepsRows_bind; [apply keepsRows_table; reflexivity|intros _].
  apply keepsRows_bind; [|intros; apply keepsRows_table; reflexivity].
  apply keepsRows_tryCatch; [|intros; apply keepsRows_table; reflexivity].
  apply keepsRows_bind; [apply keepsRows_fileUpdate|].
  intros; apply keepsRows_table; reflexivity.
Qed.

(** X2. Whatever happens during an attempt (the file unreadable, the
    store failing at any call, the row missing), the attempt creates
    and deletes no row, changes no row but the one its job names, and
    in that one leaves the owner, the file names, the title and the
    description as they were: it writes [status] and [extractedData]
    only. *)
Theorem attempt_writes_only_its_own_row :
  forall (j : Job) (w : World), rowsKept (fileId (data j)) w (processor j w).2.
Proof.
  intros j. change (keepsRows (fileId (data j)) (processor j)).
  unfold processor.
  apply keepsRows_tryCatch; [|apply keepsRows_failureHandler].
  unfold attemptBody.
  apply keepsRows_bind; [apply keepsRows_fileUpdate|intros _].
  apply keepsRows_bind; [apply keepsRows_table, processFile_table|intros res].
  apply keepsRows_bind; [apply keepsRows_fileUpdate|intros _].
  apply keepsRows_table. reflexivity.
Qed.

Lemma fileUpdate_absent rowId d w :
  table w !! rowId = None ->
  exists e,
    fileUpdate rowId d w
    = (Thrown e,
       withTrace (trace w ++ [EvUpdate rowId d false])
         (withFaults (tail (faults w)) w))
    /\ (pendingFault w = None -> e = recordNotFound).
Proof.
  intros Ht. destruct (pendingFault w) as [e|] eqn:Hf.
  - exists e. split; [apply fileUpdate_fault, Hf|discriminate].
  - exists recordNotFound. split; [apply fileUpdate_missing; assumption|reflexivity].
Qed.

(** X3. An attempt for a row that is not in the table (a file deleted
    after its upload) fails before the file is read: no time is spent
    processing, the table is left as it was, and the console gets two
    lines, the failure of the job and the failure to record it. With a
    store that can be reached, the error the queue sees is the store's
    "Record to update not found." *)
Theorem attempt_for_missing_row_fails_unprocessed :
  forall (j : Job) (w : World),
    table w !! fileId (data j) = None ->
    exists (E updateError : JsError) (w' : World),
      processor j w = (Thrown E, w')
      /\ table w' = table w
      /\ now w' = now w
      /\ trace w'
         = trace w
             ++ [EvUpdate (fileId (data j)) (mkUpdate processing None) false;
                 EvConsoleError (failureLabel j) E;
                 EvUpdate (fileId (data j))
                   (mkUpdate failed (Some (errorJson (message E)))) false;
                 EvConsoleError "Failed to update file status:" updateError]
      /\ (faults w = [] -> E = recordNotFound /\ updateError = recordNotFound).
Proof.
  intros j w Ht.
  destruct (fileUpdate_absent (fileId (data j)) (mkUpdate processing None) w Ht)
    as (E & Hu & HE).
  set (w1 := withTrace _ _) in Hu.
  set (w2 := (consoleError (failureLabel j) E w1).2).
  destruct (fileUpdate_absent (fileId (data j))
              (mkUpdate failed (Some (errorJson (message E)))) w2 Ht)
    as (E2 & Hu2 & HE2).
  exists E, E2. eexists. split.
  { unfold processor, tryCatch, attemptBody.
    erewrite bind_thrown; [|exact Hu].
    unfold failureHandler.
    erewrite bind_returned; [|reflexivity].
    unfold bind at 1, tryCatch at 1.
    erewrite bind_thrown; [|exact Hu2]. reflexivity. }
  cbn. split; [reflexivity|]. split; [reflexivity|].
  split; [rewrite <- !app_assoc; reflexivity|].
  intros Hf. split.
  - apply HE, pendingFault_nil, Hf.
  - apply HE2, pendingFault_nil. cbn. rewrite Hf. reflexivity.
Qed.

(** X4. When the file has been read and digested but the store fails
    the write of [processed], the attempt fails with the store's error:
    the time has been spent, the result is dropped, and the row (the
    store answering again) ends [failed] with the store's message as
    its error, although nothing was wrong with the file. *)
Theorem failed_final_write_marks_good_file_failed :
  forall (j : Job) (w : World) (r : FileRecord) (B : list byte)
         (e : JsError) (rest : list (option JsError)),
    table w !! fileId (data j) = Some r ->
    disk w (filePath (data j)) = ReadOk B ->
    faults w = None :: Some e :: None :: rest ->
    exists w',
      processor j w = (Thrown e, w')
      /\ now w' = now w + (if isTest w then 100 else 2000)
      /\ faults w' = rest
      /\ table w' !! fileId (data j)
         = Some (mkFile (id r) (userId r) (originalFilename r) (storagePath r)
                   (title r) (description r) failed
                   (Some (errorJson (message e)))).
Proof.
  intros j w r B e rest Hr Hd Hf.
  eexists. split.
  { unfold processor, tryCatch, attemptBody.
    erewrite bind_returned.
    2:{ apply (fileUpdate_found _ _ _ r); [|exact Hr].
        unfold pendingFault. rewrite Hf. reflexivity. }
    erewrite bind_returned; [|apply (processFile_readable _ _ B); exact Hd].
    erewrite bind_thrown.
    2:{ apply fileUpdate_fault. unfold pendingFault. cbn. rewrite Hf. reflexivity. }
    unfold failureHandler.
    erewrite bind_returned; [|reflexivity].
    unfold bind at 1, tryCatch at 1.
    erewrite bind_returned.
    2:{ apply (fileUpdate_found _ _ _ (applyUpdate (mkUpdate processing None) r)).
        - unfold pendingFault. cbn. rewrite Hf. reflexivity.
        - cbn. apply lookup_insert_eq. }
    reflexivity. }
  cbn. split; [reflexivity|]. split; [rewrite Hf; reflexivity|].
  rewrite lookup_insert_eq. reflexivity.
Qed.

(** X5. A row can be left [processing] by an attempt that has ended:
    when the file cannot be read and the store then fails the write of
    [failed], the attempt still fails with the processing error, the
    console gets both failures, and the row keeps the status
    [processing] and the extracted data it had before the attempt. *)
Theorem failed_status_write_leaves_row_processing :
  forall (j : Job) (w : World) (r : FileRecord) (e0 e : JsError)
         (rest : list (option JsError)),
    table w !! fileId (data j) = Some r ->
    disk w (filePath (data j)) = ReadFail e0 ->
    faults w = None :: Some e :: rest ->
    exists w',
      processor j w = (Thrown (processingError e0), w')
      /\ table w' !! fileId (data j)
         = Some (mkFile (id r) (userId r) (originalFilename r) (storagePath r)
                   (title r) (description r) processing (extractedData r))
      /\ trace w'
         = trace w
             ++ [EvUpdate (fileId (data j)) (mkUpdate processing None) true;
                 EvConsoleError (failureLabel j) (processingError e0);
                 EvUpdate (fileId (data j))
                   (mkUpdate failed
                      (Some (errorJson (message (processingError e0)))))
                   false;
                 EvConsoleError "Failed to update file status:" e].
Proof.
  intros j w r e0 e rest Hr Hd Hf.
  eexists. split.
  { unfold processor, tryCatch, attemptBody.
    erewrite bind_returned.
    2:{ apply (fileUpdate_found _ _ _ r); [|exact Hr].
        unfold pendingFault. rewrite Hf. reflexivity. }
    erewrite bind_thrown.
    2:{ apply (processFile_unreadable _ _ e0). exact Hd. }
    unfold failureHandler.
    erewrite bind_returned; [|reflexivity].
    unfold bind at 1, tryCatch at 1.
    erewrite bind_thrown.
    2:{ apply (fileUpdate_fault _ _ _ e).
        unfold pendingFault. cbn. rewrite Hf. reflexivity. }
    reflexivity. }
  cbn. split; [rewrite lookup_insert_eq; reflexivity|].
  rewrite <- !app_assoc. reflexivity.
Qed.

(** X20. An attempt writes [processing] before it reads the file. If
    the store refuses that write, the attempt fails with the store's
    error and no time has been spent on the file. If the write is
    accepted and the file cannot be read, the write has been made by
    the time the attempt fails. If the file can be read and the store
    answers again, the attempt spends exactly the simulated time (100
    ms under test, 2000 otherwise), writes [processed] with the result
    and prints nothing; the result's [processedAt] is the clock after
    the wait, and the result returned to the queue is the one stored in
    the row. *)
Theorem attempt_writes_processing_before_reading :
  forall (j : Job) (w : World) (r : FileRecord),
    table w !! fileId (data j) = Some r ->
    (forall e,
        pendingFault w = Some e ->
        exists w' more,
          processor j w = (Thrown e, w')
          /\ now w' = now w
          /\ trace w'
             = trace w
                 ++ EvUpdate (fileId (data j)) (mkUpdate processing None) false
                    :: EvConsoleError (failureLabel j) e :: more)
    /\ (pendingFault w = None ->
        (forall e0,
            disk w (filePath (data j)) = ReadFail e0 ->
            exists w' more,
              processor j w = (Thrown (processingError e0), w')
              /\ now w' = now w
              /\ trace w'
                 = trace w
                     ++ EvUpdate (fileId (data j)) (mkUpdate processing None)
                          true
                        :: EvConsoleError (failureLabel j) (processingError e0)
                        :: more)
        /\ (forall B,
               disk w (filePath (data j)) = ReadOk B ->
               pendingFault (withFaults (tail (faults w)) w) = None ->
               exists (res : ProcessResult) (w' : World),
                 processor j w = (Returned res, w')
                 /\ trace w'
                    = trace w
                        ++ [EvUpdate (fileId (data j))
                              (mkUpdate processing None) true;
                            EvUpdate (fileId (data j))
                              (mkUpdate processed (Some (resultJson res)))
                              true]
                 /\ now w' = now w + (if isTest w then 100 else 2000)
                 /\ processedAt res = Text.toISOString (now w')
                 /\ faults w' = tail (tail (faults w))
                 /\ table w' !! fileId (data j)
                    = Some (mkFile (id r) (userId r) (originalFilename r)
                              (storagePath r) (title r) (description r)
                              processed (Some (resultJson res))))).
Proof.
  intros j w r Hr. split; [intros e; apply attempt_first_call_refused|].
  intros Hf1. split.
  - intros e0 Hd.
    destruct (pendingFault (withFaults (tail (faults w)) w)) as [e|] eqn:Hf2.
    + destruct (attempt_unreadable_unrecorded j w r e0 e Hr Hd Hf1 Hf2)
        as (w' & Hp & Htr & Hn & _).
      eexists w', _. split; [exact Hp|]. split; [exact Hn|]. exact Htr.
    + destruct (attempt_unreadable_recorded j w r e0 Hr Hd Hf1 Hf2)
        as (w' & Hp & Htr & Hn & _).
      eexists w', _. split; [exact Hp|]. split; [exact Hn|]. exact Htr.
  - intros B Hd Hf2. exact (attempt_readable j w r B Hr Hd Hf1 Hf2).
Qed.

(* ===================================================================== *)
(** ** The [auth] middleware and the routes behind it                     *)
(* ===================================================================== *)

Section RouteProperties.

Variable jwtVerify : string -> Outcome Decoded.
Variable users : list User.
Variable uploadedAtOf : FileRecord -> Json.

(** How [auth] ends for a header that carries the scheme. *)
Lemma auth_bearer t w :
  auth jwtVerify users (Some ("Bearer " ++ t)%string) w
  = match jwtVerify t with
    | Thrown _ => (Returned (Responded (jsonError 401 "Please authenticate")), w)
    | Returned decoded =>
        match decodedUserId decoded with
        | None => (Returned (Responded (jsonError 401 "Please authenticate")), w)
        | Some k =>
            match pendingFault w with
            | Some _ =>
                (Returned (Responded (jsonError 401 "Please authenticate")),
                 withFaults (tail (faults w)) w)
            | None =>
                (Returned
                   match List.find (fun x => userKey x =? k) users with
                   | Some u => Next u t
                   | None => Responded (jsonError 401 "Please authenticate")
                   end,
                 withFaults (tail (faults w)) w)
            end
        end
    end.
Proof.
  unfold auth, tryCatch.
  destruct (bearer_token t) as (Htruthy & Hstarts & Htoken).
  rewrite Htruthy, Hstarts, Htoken. cbn [negb orb].
  unfold bind at 1.
  destruct (jwtVerify t) as [decoded|e]; [|reflexivity].
  unfold bind, userFindUnique.
  destruct (decodedUserId decoded) as [k|]; [|reflexivity].
  unfold bind, ioCall.
  destruct (pendingFault w); [reflexivity|]. cbn.
  destruct (List.find _ users); reflexivity.
Qed.

(** How [auth] ends for any other header, and for none. *)
Lemma auth_no_bearer header w :
  (forall t, header <> Some ("Bearer " ++ t)%string) ->
  auth jwtVerify users header w
  = (Returned (Responded (jsonError 401 "Authentication required")), w).
Proof.
  intros Hno. unfold auth, tryCatch.
  destruct header as [h|]; [|reflexivity].
  destruct (negb (Js.truthy h) || negb (Js.startsWith "Bearer " h)) eqn:Hh;
    [reflexivity|].
  exfalso. apply (Hno (Js.dropChars 7 h)). f_equal. apply bearer_header, Hh.
Qed.

Lemma bearer_or_not (header : option string) :
  (exists t, header = Some ("Bearer " ++ t)%string)
  \/ (forall t, header <> Some ("Bearer " ++ t)%string).
Proof.
  destruct header as [h|]; [|right; discriminate].
  destruct (negb (Js.truthy h) || negb (Js.startsWith "Bearer " h)) eqn:Hh.
  - right. intros t [= ->].
    destruct (bearer_token t) as (H1 & H2 & _). rewrite H1, H2 in Hh.
    discriminate.
  - left. exists (Js.dropChars 7 h). f_equal. apply bearer_header, Hh.
Qed.

(** X9. [auth] calls [next()] exactly when the header is the scheme
    followed by a token that verifies, the token's [userId] is the id
    of a row of the user table and the store answers; the user it puts
    on the request is that row, and the token it puts there is what
    follows the scheme, whatever that contains. *)
Theorem auth_continues_exactly_for_verified_users :
  forall (header : option string) (w w' : World) (u : User) (token : string),
    auth jwtVerify users header w = (Returned (Next u token), w')
    <-> (exists decoded,
            header = Some ("Bearer " ++ token)%string
            /\ jwtVerify token = Returned decoded
            /\ decodedUserId decoded = Some (userKey u)
            /\ List.find (fun x => userKey x =? userKey u) users = Some u
            /\ pendingFault w = None
            /\ w' = withFaults (tail (faults w)) w).
Proof.
  intros header w w' u token. split.
  - intros Hrun.
    destruct (bearer_or_not header) as [(t & ->)|Hno].
    2:{ rewrite (auth_no_bearer _ _ Hno) in Hrun. discriminate. }
    rewrite auth_bearer in Hrun.
    destruct (jwtVerify t) as [decoded|e] eqn:Hv; [|discriminate].
    destruct (decodedUserId decoded) as [k|] eqn:Hk; [|discriminate].
    destruct (pendingFault w) eqn:Hf; [discriminate|].
    destruct (List.find _ users) as [u0|] eqn:Hu; [|discriminate].
    injection Hrun as -> -> <-.
    apply find_some in Hu as Hin. destruct Hin as [_ Heq].
    apply Z.eqb_eq in Heq. subst k.
    exists decoded. repeat split; assumption.
  - intros (decoded & -> & Hv & Hk & Hu & Hf & ->).
    rewrite auth_bearer, Hv, Hk, Hf, Hu. reflexivity.
Qed.

(** X10. [auth] never throws and never writes: it returns, and the
    table, the queues and the console are as before. What it answers
    itself is always a 401: "Authentication required", the world
    untouched, when the header is missing or does not start with the
    scheme, and "Please authenticate" otherwise, which is also the
    answer when the store cannot be reached. *)
Theorem auth_rejects_with_401_only :
  forall (header : option string) (w : World),
    exists (a : AuthResult) (w' : World),
      auth jwtVerify users header w = (Returned a, w')
      /\ table w' = table w /\ redis w' = redis w /\ trace w' = trace w
      /\ (forall r,
             a = Responded r ->
             statusCode r = 401
             /\ ((r = jsonError 401 "Authentication required" /\ w' = w
                  /\ forall t, header <> Some ("Bearer " ++ t)%string)
                 \/ (r = jsonError 401 "Please authenticate"
                     /\ exists t, header = Some ("Bearer " ++ t)%string)))
      /\ (forall t e,
             header = Some ("Bearer " ++ t)%string ->
             pendingFault w = Some e ->
             a = Responded (jsonError 401 "Please authenticate")).
Proof.
  intros header w.
  destruct (bearer_or_not header) as [(t & ->)|Hno].
  - assert (Hplease :
      forall w',
        table w' = table w -> redis w' = redis w -> trace w' = trace w ->
        auth jwtVerify users (Some ("Bearer " ++ t)%string) w
        = (Returned (Responded (jsonError 401 "Please authenticate")), w') ->
        exists (a : AuthResult) (w' : World),
          auth jwtVerify users (Some ("Bearer " ++ t)%string) w = (Returned a, w')
          /\ table w' = table w /\ redis w' = redis w /\ trace w' = trace w
          /\ (forall r,
                 a = Responded r ->
                 statusCode r = 401
                 /\ ((r = jsonError 401 "Authentication required" /\ w' = w
                      /\ forall t0, Some ("Bearer " ++ t)%string
                                    <> Some ("Bearer " ++ t0)%string)
                     \/ (r = jsonError 401 "Please authenticate"
                         /\ exists t0, Some ("Bearer " ++ t)%string
                                       = Some ("Bearer " ++ t0)%string)))
          /\ (forall t0 e,
                 Some ("Bearer " ++ t)%string = Some ("Bearer " ++ t0)%string ->
                 pendingFault w = Some e ->
                 a = Responded (jsonError 401 "Please authenticate"))).
    { intros w' Ht Hr Htr Hrun. eexists _, _. split; [exact Hrun|].
      repeat (split; [assumption|]). split.
      - intros r [= <-]. split; [reflexivity|]. right.
        split; [reflexivity|]. exists t. reflexivity.
      - intros; reflexivity. }
    pose proof (auth_bearer t w) as Hrun.
    destruct (jwtVerify t) as [decoded|e0];
      [|apply (Hplease w); [reflexivity..|exact Hrun]].
    destruct (decodedUserId decoded) as [k|];
      [|apply (Hplease w); [reflexivity..|exact Hrun]].
    destruct (pendingFault w) eqn:Hf;
      [apply (Hplease (withFaults (tail (faults w)) w));
       [reflexivity..|exact Hrun]|].
    destruct (List.find (fun x => userKey x =? k) users) as [u|];
      [|apply (Hplease (withFaults (tail (faults w)) w));
        [reflexivity..|exact Hrun]].
    eexists _, _. split; [exact Hrun|]. repeat (split; [reflexivity|]).
    split; [intros r Hr; discriminate Hr|intros ? ? _ Hp; discriminate Hp].
  - rewrite (auth_no_bearer _ _ Hno).
    eexists _, _. split; [reflexivity|]. repeat (split; [reflexivity|]).
    split.
    + intros r [= <-]. split; [reflexivity|]. left. repeat split. exact Hno.
    + intros t e Hh. exfalso. exact (Hno t Hh).
Qed.

(** X11. A request that [auth] answers itself never reaches what is
    mounted behind it: whatever the rest of the route would do, the
    client gets the 401 and the table, the queues and the console are
    as before. *)
Theorem rejected_request_reaches_no_handler :
  forall (rest : User -> M Response) (header : option string)
         (w w0 : World) (r : Response),
    auth jwtVerify users header w = (Returned (Responded r), w0) ->
    behindAuth jwtVerify users rest header w = (Returned r, w0)
    /\ statusCode r = 401
    /\ table w0 = table w /\ redis w0 = redis w /\ trace w0 = trace w.
Proof.
  intros rest header w w0 r Hauth.
  split; [unfold behindAuth; rewrite (bind_returned _ _ _ _ _ Hauth); reflexivity|].
  destruct (bearer_or_not header) as [(t & ->)|Hno].
  - rewrite auth_bearer in Hauth.
    destruct (jwtVerify t) as [decoded|e0];
      [destruct (decodedUserId decoded) as [k|];
       [destruct (pendingFault w);
        [|destruct (List.find (fun x => userKey x =? k) users)]|]|];
      try discriminate Hauth;
      injection Hauth as <- <-; repeat split; reflexivity.
  - rewrite (auth_no_bearer _ _ Hno) in Hauth.
    injection Hauth as <- <-. repeat split; reflexivity.
Qed.

Lemma getFileHandler_cases user idParam w :
  getFileHandler uploadedAtOf user idParam w
  = match Js.parseInt idParam with
    | Js.Num k =>
        match pendingFault w with
        | Some e =>
            (Returned (jsonError 500 "Error retrieving file information"),
             withTrace (trace w ++ [EvConsoleError "File retrieval error:" e])
               (withFaults (tail (faults w)) w))
        | None =>
            (Returned
               match table w !! k with
               | None => jsonError 404 "File not found"
               | Some file =>
                   if negb (userId file =? userKey user)
                   then jsonError 403 "Access denied"
                   else mkResponse 200 (fileInformation uploadedAtOf file)
               end,
             withFaults (tail (faults w)) w)
        end
    | _ =>
        (Returned (jsonError 500 "Error retrieving file information"),
         withTrace
           (trace w
              ++ [EvConsoleError "File retrieval error:"
                    (mkError "Argument `id` is missing.")]) w)
    end.
Proof.
  unfold getFileHandler, tryCatch, bind, fileFindUnique.
  destruct (Js.parseInt idParam) as [|neg|k]; [reflexivity..|].
  unfold bind, ioCall.
  destruct (pendingFault w); [reflexivity|]. cbn.
  destruct (table w !! k) as [file|]; [|reflexivity].
  destruct (negb (userId file =? userKey user)); reflexivity.
Qed.

(** X13. The handler of [GET /files/:id] answers 200 only for a row that
    is in the table under the number the [id] segment parses to and
    that belongs to the requesting user; the body is that row's
    information and the table is not written. *)
Theorem file_information_is_given_for_own_rows_only :
  forall (user : User) (idParam : string) (w w' : World) (r : Response),
    getFileHandler uploadedAtOf user idParam w = (Returned r, w') ->
    statusCode r = 200 ->
    exists (k : Z) (file : FileRecord),
      Js.parseInt idParam = Js.Num k
      /\ table w !! k = Some file
      /\ userId file = userKey user
      /\ body r = fileInformation uploadedAtOf file
      /\ table w' = table w.
Proof.
  intros user idParam w w' r Hrun Hcode.
  rewrite getFileHandler_cases in Hrun.
  destruct (Js.parseInt idParam) as [|neg|k];
    [injection Hrun as <- <-; discriminate..|].
  destruct (pendingFault w); [injection Hrun as <- <-; discriminate|].
  destruct (table w !! k) as [file|] eqn:Hrow;
    [|injection Hrun as <- <-; discriminate].
  destruct (userId file =? userKey user) eqn:Hown;
    cbn [negb] in Hrun; injection Hrun as <- <-; [|discriminate].
  apply Z.eqb_eq in Hown.
  exists k, file. repeat split; assumption || reflexivity.
Qed.


Lemma upload_accepted req w r w1 :
  uploadHandler req w = (Returned r, w1) ->
  statusCode r = 201 ->
  exists f,
    reqFile req = Some f
    /\ pendingFault w = None
    /\ r = uploadAccepted (uploadedRow req f w)
    /\ table w1 = <[nextFileId w := uploadedRow req f w]> (table w)
    /\ disk w1 = disk w /\ nodeEnv w1 = nodeEnv w
    /\ faults w1 = tail (tail (faults w)).
Proof.
  intros Hrun Hcode. pose proof (uploadHandler_cases req w) as Hc.
  destruct (reqFile req) as [f|].
  2:{ rewrite Hc in Hrun. injection Hrun as <- <-. discriminate. }
  destruct (pendingFault w) as [e|].
  { rewrite Hc in Hrun. injection Hrun as <- <-. discriminate. }
  destruct Hc as (r' & w' & Hrun' & He & Hn & Hd & Hi & Hf & Ht & Hcases).
  rewrite Hrun in Hrun'. injection Hrun' as <- <-.
  destruct Hcases as [(-> & _)|(qo & j & -> & _)]; [discriminate|].
  exists f. repeat split; assumption.
Qed.

(** X17. Once an upload has been answered 201, asking for the id of the
    answer gives the uploader the row as created (status [uploaded],
    the title sent, no extracted data yet) and gives every other user
    "Access denied". (The id is one a double holds exactly and the
    store answers.) *)
Theorem uploaded_file_is_shown_to_its_uploader_only :
  forall (req : Request) (w w1 : World) (r : Response) (user : User),
    uploadHandler req w = (Returned r, w1) ->
    statusCode r = 201 ->
    Z.abs (nextFileId w) < 9007199254740992 ->
    pendingFault w1 = None ->
    exists (n : Z) (row : FileRecord) (w2 : World),
      jsonField "id" (body r) = Some (JNumber n)
      /\ userId row = reqUserId req /\ status row = uploaded
      /\ title row = bodyTitle req /\ extractedData row = None
      /\ getFileHandler uploadedAtOf user (Text.decimal n) w1
         = (Returned
              (if userKey user =? reqUserId req
               then mkResponse 200 (fileInformation uploadedAtOf row)
               else jsonError 403 "Access denied"),
            w2).
Proof.
  intros req w w1 r user Hrun Hcode Hsafe Hstore.
  destruct (upload_accepted _ _ _ _ Hrun Hcode)
    as (f & Hfile & _ & -> & Ht & _).
  exists (nextFileId w), (uploadedRow req f w). eexists.
  split; [reflexivity|]. repeat (split; [reflexivity|]).
  rewrite getFileHandler_cases, (parseInt_decimal _ Hsafe), Hstore, Ht.
  rewrite lookup_insert_eq. cbn [userId uploadedRow].
  rewrite (Z.eqb_sym (reqUserId req)).
  destruct (userKey user =? reqUserId req); reflexivity.
Qed.

Lemma processor_readable_world j w r B :
  faults w = [] ->
  table w !! fileId (data j) = Some r ->
  disk w (filePath (data j)) = ReadOk B ->
  exists res w',
    processor j w = (Returned res, w')
    /\ hash res = sha256Hex B
    /\ size res = Z.of_nat (length B)
    /\ faults w' = []
    /\ table w' !! fileId (data j)
       = Some (applyUpdate (mkUpdate processed (Some (resultJson res))) r).
Proof.
  intros Hf Hr Hd. unfold processor, tryCatch, attemptBody.
  erewrite bind_returned;
    [|apply (fileUpdate_found _ _ _ r); auto using pendingFault_nil].
  erewrite bind_returned; [|apply (processFile_readable _ _ B); exact Hd].
  erewrite bind_returned.
  2:{ apply (fileUpdate_found _ _ _ (applyUpdate (mkUpdate processing None) r)).
      - apply pendingFault_nil. cbn. rewrite Hf. reflexivity.
      - cbn. apply lookup_insert_eq. }
  eexists _, _. split; [reflexivity|]. split; [reflexivity|].
  split; [reflexivity|]. cbn. rewrite Hf, lookup_insert_eq.
  split; reflexivity.
Qed.

(** X18. Upload, one attempt, look: once an upload has been answered
    201 and an attempt at a job for that row and path has run with the
    file readable and the store answering, the uploader who asks for
    the id gets 200 with status [processed] and, as extracted data, the
    result the attempt returned, whose hash is the SHA-256 of the
    file's content and whose size is its length. *)
Theorem processed_upload_shows_its_digest :
  forall (req : Request) (w w1 : World) (r : Response) (f : UploadedFile)
         (B : list byte) (j : Job) (user : User),
    uploadHandler req w = (Returned r, w1) ->
    statusCode r = 201 ->
    reqFile req = Some f ->
    disk w (path f) = ReadOk B ->
    faults w1 = [] ->
    Z.abs (nextFileId w) < 9007199254740992 ->
    data j = mkJobData (nextFileId w) (path f) ->
    userKey user = reqUserId req ->
    exists (res : ProcessResult) (w2 w3 : World) (answer : Response),
      processor j w1 = (Returned res, w2)
      /\ hash res = sha256Hex B
      /\ size res = Z.of_nat (length B)
      /\ getFileHandler uploadedAtOf user (Text.decimal (nextFileId w)) w2
         = (Returned answer, w3)
      /\ statusCode answer = 200
      /\ jsonField "status" (body answer) = Some (JString "processed")
      /\ jsonField "extractedData" (body answer) = Some (resultJson res).
Proof.
  intros req w w1 r f B j user Hrun Hcode Hfile Hdisk Hfaults Hsafe Hj Huser.
  destruct (upload_accepted _ _ _ _ Hrun Hcode)
    as (f' & Hfile' & _ & -> & Ht & Hd & _).
  rewrite Hfile in Hfile'. injection Hfile' as <-.
  destruct (processor_readable_world j w1 (uploadedRow req f w) B)
    as (res & w2 & Hp & Hh & Hs & Hf2 & Ht2).
  { exact Hfaults. }
  { rewrite Hj, Ht. apply lookup_insert_eq. }
  { rewrite Hj, Hd. exact Hdisk. }
  exists res, w2. eexists _, _. split; [exact Hp|].
  split; [exact Hh|]. split; [exact Hs|].
  rewrite getFileHandler_cases, (parseInt_decimal _ Hsafe),
    (pendingFault_nil _ Hf2).
  rewrite Hj in Ht2. cbn [fileId] in Ht2. rewrite Ht2.
  cbn [userId applyUpdate uploadedRow]. rewrite Huser, Z.eqb_refl.
  cbn [negb]. split; [reflexivity|]. repeat split.
Qed.

(** What the upload handler leaves in the table. *)
Lemma uploadHandler_table req w :
  table (uploadHandler req w).2 = table w
  \/ exists f,
       reqFile req = Some f
       /\ table (uploadHandler req w).2
          = <[nextFileId w := uploadedRow req f w]> (table w).
Proof.
  pose proof (uploadHandler_cases req w) as Hc.
  destruct (reqFile req) as [f|]; [|left; rewrite Hc; reflexivity].
  destruct (pendingFault w) as [e|]; [left; rewrite Hc; reflexivity|].
  destruct Hc as (r & w' & Hrun & _ & _ & _ & _ & _ & Ht & _).
  right. exists f. split; [reflexivity|]. rewrite Hrun. exact Ht.
Qed.

(** X12. Every row the upload route creates belongs to the user of a
    verified token, whatever the route answers: a row that is in the
    table after the call and was not there as it is before is the one
    row the handler created, under the next id, for a header that
    carried a token that verifies with the id of a row of the user
    table, and it has that id as its owner; no other row is created,
    changed or deleted. In particular an answer 201 means such a row
    has been created. *)
Theorem upload_route_creates_rows_for_the_token_user :
  forall (header : option string) (file : option UploadedFile)
         (title description : option string) (w w' : World) (r : Response),
    uploadRoute jwtVerify users header file title description w
    = (Returned r, w') ->
    (forall k row,
        table w' !! k = Some row ->
        table w !! k <> Some row ->
        exists (token : string) (decoded : Decoded) (u : User)
               (f : UploadedFile),
          header = Some ("Bearer " ++ token)%string
          /\ jwtVerify token = Returned decoded
          /\ decodedUserId decoded = Some (userKey u)
          /\ In u users
          /\ file = Some f
          /\ k = nextFileId w
          /\ row = mkFile (nextFileId w) (userKey u) (originalname f) (path f)
                     title description uploaded None)
    /\ (forall k, k <> nextFileId w -> table w' !! k = table w !! k)
    /\ (statusCode r = 201 ->
        exists (token : string) (decoded : Decoded) (u : User)
               (f : UploadedFile),
          header = Some ("Bearer " ++ token)%string
          /\ jwtVerify token = Returned decoded
          /\ decodedUserId decoded = Some (userKey u)
          /\ In u users
          /\ file = Some f
          /\ table w' !! nextFileId w
             = Some (mkFile (nextFileId w) (userKey u) (originalname f)
                       (path f) title description uploaded None)).
Proof.
  intros header file title description w w' r Hrun.
  unfold uploadRoute, behindAuth, bind in Hrun.
  assert (Hsame : table w' = table w ->
            (forall k row,
                table w' !! k = Some row ->
                table w !! k <> Some row ->
                exists (token : string) (decoded : Decoded) (u : User)
                       (f : UploadedFile),
                  header = Some ("Bearer " ++ token)%string
                  /\ jwtVerify token = Returned decoded
                  /\ decodedUserId decoded = Some (userKey u)
                  /\ In u users
                  /\ file = Some f
                  /\ k = nextFileId w
                  /\ row = mkFile (nextFileId w) (userKey u) (originalname f)
                             (path f) title description uploaded None)
            /\ (forall k, k <> nextFileId w -> table w' !! k = table w !! k)).
  { intros Ht. rewrite Ht. split; [intros k row H1 H2; contradiction|].
    reflexivity. }
  destruct (bearer_or_not header) as [(t & ->)|Hno].
  2:{ rewrite (auth_no_bearer _ _ Hno) in Hrun.
      injection Hrun as <- <-.
      destruct (Hsame eq_refl) as (HA & HB).
      split; [exact HA|]. split; [exact HB|discriminate]. }
  rewrite auth_bearer in Hrun.
  destruct (jwtVerify t) as [decoded|e0] eqn:Hv.
  2:{ injection Hrun as <- <-. destruct (Hsame eq_refl) as (HA & HB).
      split; [exact HA|]. split; [exact HB|discriminate]. }
  destruct (decodedUserId decoded) as [k0|] eqn:Hk.
  2:{ injection Hrun as <- <-. destruct (Hsame eq_refl) as (HA & HB).
      split; [exact HA|]. split; [exact HB|discriminate]. }
  destruct (pendingFault w).
  { injection Hrun as <- <-. destruct (Hsame eq_refl) as (HA & HB).
    split; [exact HA|]. split; [exact HB|discriminate]. }
  destruct (List.find (fun x => userKey x =? k0) users) as [u|] eqn:Hu.
  2:{ injection Hrun as <- <-. destruct (Hsame eq_refl) as (HA & HB).
      split; [exact HA|]. split; [exact HB|discriminate]. }
  apply find_some in Hu as [Hin Heq]. apply Z.eqb_eq in Heq. subst k0.
  set (req := mkRequest (userKey u) file title description) in Hrun.
  set (w0 := withFaults (tail (faults w)) w) in Hrun.
  assert (Hw' : w' = (uploadHandler req w0).2) by (rewrite Hrun; reflexivity).
  destruct (uploadHandler_table req w0) as [Ht|(f & Hfile & Ht)];
    rewrite <- Hw' in Ht.
  - destruct (Hsame Ht) as (HA & HB).
    split; [exact HA|]. split; [exact HB|]. intros Hcode.
    destruct (upload_accepted _ _ _ _ Hrun Hcode)
      as (f & Hfile & _ & _ & Ht' & _).
    exists t, decoded, u, f.
    repeat (split; [first [assumption|reflexivity]|]).
    rewrite Ht'. apply lookup_insert_eq.
  - cbn in Hfile.
    change (nextFileId w0) with (nextFileId w) in Ht.
    change (table w0) with (table w) in Ht.
    assert (Hnew : table w' !! nextFileId w
                   = Some (mkFile (nextFileId w) (userKey u) (originalname f)
                             (path f) title description uploaded None))
      by (rewrite Ht; apply lookup_insert_eq).
    split; [|split].
    + intros k row Hrow Hne.
      destruct (decide (k = nextFileId w)) as [->|Hother].
      * rewrite Hnew in Hrow. injection Hrow as <-.
        exists t, decoded, u, f.
        repeat (split; [first [assumption|reflexivity]|]). reflexivity.
      * rewrite Ht, lookup_insert_ne in Hrow by congruence. contradiction.
    + intros k Hother. rewrite Ht. apply lookup_insert_ne. congruence.
    + intros _. exists t, decoded, u, f.
      repeat (split; [first [assumption|reflexivity]|]). exact Hnew.
Qed.

(** X15. The [id] segment is read as [parseInt] reads it: what follows
    the digits is ignored, so a path whose segment is a positive id
    followed by anything that does not start with a digit is answered
    exactly as the path of that id. *)
Theorem id_segment_is_read_up_to_its_digits :
  forall (user : User) (n : Z) (c : ascii) (rest : string) (w : World),
    0 < n < 9007199254740992 ->
    Js.digitOf 10 c = None ->
    getFileHandler uploadedAtOf user (Text.decimal n ++ String c rest) w
    = getFileHandler uploadedAtOf user (Text.decimal n) w.
Proof.
  intros user n c rest w Hn Hc.
  rewrite !getFileHandler_cases, (parseInt_decimal_suffix _ _ _ Hn Hc),
    parseInt_decimal by lia.
  reflexivity.
Qed.

(** X16. Through the route, [GET /files/:id] shows a row only to the
    user a verified token names: an answer 200 means the header
    carried a token that verifies with the id of a row of the user
    table, and the row shown is in the table under the number the [id]
    segment parses to and has that same id as its owner. *)
Theorem file_route_shows_rows_of_the_token_user_only :
  forall (header : option string) (idParam : string) (w w' : World)
         (r : Response),
    getFileRoute jwtVerify users uploadedAtOf header idParam w
    = (Returned r, w') ->
    statusCode r = 200 ->
    exists (token : string) (decoded : Decoded) (k : Z) (file : FileRecord),
      header = Some ("Bearer " ++ token)%string
      /\ jwtVerify token = Returned decoded
      /\ Js.parseInt idParam = Js.Num k
      /\ table w !! k = Some file
      /\ decodedUserId decoded = Some (userId file)
      /\ body r = fileInformation uploadedAtOf file.
Proof.
  intros header idParam w w' r Hrun Hcode.
  unfold getFileRoute, behindAuth, bind in Hrun.
  destruct (bearer_or_not header) as [(t & ->)|Hno].
  2:{ rewrite (auth_no_bearer _ _ Hno) in Hrun.
      injection Hrun as <- <-. discriminate. }
  rewrite auth_bearer in Hrun.
  destruct (jwtVerify t) as [decoded|e0] eqn:Hv;
    [|injection Hrun as <- <-; discriminate].
  destruct (decodedUserId decoded) as [k0|] eqn:Hk;
    [|injection Hrun as <- <-; discriminate].
  destruct (pendingFault w); [injection Hrun as <- <-; discriminate|].
  destruct (List.find (fun x => userKey x =? k0) users) as [u|] eqn:Hu;
    [|injection Hrun as <- <-; discriminate].
  apply find_some in Hu as [Hin Heq]. apply Z.eqb_eq in Heq. subst k0.
  rewrite getFileHandler_cases in Hrun.
  destruct (Js.parseInt idParam) as [|neg|k];
    [injection Hrun as <- <-; discriminate..|].
  destruct (pendingFault _); [injection Hrun as <- <-; discriminate|].
  change (table (withFaults (tail (faults w)) w)) with (table w) in Hrun.
  destruct (table w !! k) as [file|] eqn:Hrow;
    [|injection Hrun as <- <-; discriminate].
  destruct (userId file =? userKey u) eqn:Hown;
    cbn [negb] in Hrun; injection Hrun as <- <-; [|discriminate].
  apply Z.eqb_eq in Hown.
  exists t, decoded, k, file. rewrite Hown.
  repeat (split; [first [assumption|reflexivity]|]). reflexivity.
Qed.

End RouteProperties.

(* ===================================================================== *)
(** ** The properties at sample requests                                  *)
(* ===================================================================== *)

Lemma attempt_for_missing_row_fails_unprocessed_witness :
  exists (E updateError : JsError) (w' : World),
    processor Sample.helloJob Sample.loadedFresh = (Thrown E, w')
    /\ table w' = table Sample.loadedFresh
    /\ now w' = now Sample.loadedFresh
    /\ trace w'
       = trace Sample.loadedFresh
           ++ [EvUpdate (fileId (data Sample.helloJob))
                 (mkUpdate processing None) false;
               EvConsoleError (failureLabel Sample.helloJob) E;
               EvUpdate (fileId (data Sample.helloJob))
                 (mkUpdate failed (Some (errorJson (message E)))) false;
               EvConsoleError "Failed to update file status:" updateError]
    /\ (faults Sample.loadedFresh = [] ->
        E = recordNotFound /\ updateError = recordNotFound).
Proof.
  assert (H : table Sample.loadedFresh !! fileId (data Sample.helloJob) = None)
    by (vm_compute; reflexivity).
  exact (attempt_for_missing_row_fails_unprocessed Sample.helloJob
           Sample.loadedFresh H).
Defined.

Lemma failed_final_write_marks_good_file_failed_witness :
  exists w',
    processor Sample.helloJob SampleRoutes.storeFailsSecond
    = (Thrown (mkError "Can't reach database server"), w')
    /\ now w' = now SampleRoutes.storeFailsSecond + 2000
    /\ faults w' = []
    /\ table w' !! 1
       = Some (mkFile 1 7 "hello.txt" "uploads/hello.txt" (Some "greeting")
                 None failed
                 (Some (errorJson "Can't reach database server"))).
Proof.
  assert (Hrow : table SampleRoutes.storeFailsSecond
                   !! fileId (data Sample.helloJob)
                 = Some (mkFile 1 7 "hello.txt" "uploads/hello.txt"
                           (Some "greeting") None uploaded None))
    by (vm_compute; reflexivity).
  assert (Hdisk : disk SampleRoutes.storeFailsSecond
                    (filePath (data Sample.helloJob))
                  = ReadOk (list_byte_of_string "hello world"))
    by (vm_compute; reflexivity).
  assert (Hfaults : faults SampleRoutes.storeFailsSecond
                    = [None; Some (mkError "Can't reach database server"); None])
    by (vm_compute; reflexivity).
  exact (failed_final_write_marks_good_file_failed Sample.helloJob
           SampleRoutes.storeFailsSecond _ _ _ _ Hrow Hdisk Hfaults).
Defined.

Lemma rejected_request_reaches_no_handler_witness :
  behindAuth SampleRoutes.jwtVerify SampleRoutes.users
    (fun user =>
       uploadHandler
         (mkRequest (userKey user)
            (Some (mkUploaded "hello.txt" "uploads/hello.txt")) None None))
    None Sample.loadedFresh
  = (Returned (jsonError 401 "Authentication required"), Sample.loadedFresh)
  /\ statusCode (jsonError 401 "Authentication required") = 401
  /\ table Sample.loadedFresh = table Sample.loadedFresh
  /\ redis Sample.loadedFresh = redis Sample.loadedFresh
  /\ trace Sample.loadedFresh = trace Sample.loadedFresh.
Proof.
  exact (rejected_request_reaches_no_handler SampleRoutes.jwtVerify
           SampleRoutes.users _ None Sample.loadedFresh Sample.loadedFresh
           (jsonError 401 "Authentication required") eq_refl).
Defined.

Lemma file_information_is_given_for_own_rows_only_witness :
  exists (k : Z) (file : FileRecord),
    Js.parseInt "1" = Js.Num k
    /\ table SampleRoutes.uploadedOne !! k = Some file
    /\ userId file = userKey SampleRoutes.ann
    /\ SampleRoutes.helloInformation
       = fileInformation SampleRoutes.uploadedAtOf file
    /\ table (getFileHandler SampleRoutes.uploadedAtOf SampleRoutes.ann "1"
                SampleRoutes.uploadedOne).2
       = table SampleRoutes.uploadedOne.
Proof.
  assert (H : getFileHandler SampleRoutes.uploadedAtOf SampleRoutes.ann "1"
                SampleRoutes.uploadedOne
              = (Returned (mkResponse 200 SampleRoutes.helloInformation),
                 (getFileHandler SampleRoutes.uploadedAtOf SampleRoutes.ann "1"
                    SampleRoutes.uploadedOne).2))
    by (vm_compute; reflexivity).
  exact (file_information_is_given_for_own_rows_only SampleRoutes.uploadedAtOf
           SampleRoutes.ann "1" SampleRoutes.uploadedOne _ _ H eq_refl).
Defined.

Lemma uploaded_file_is_shown_to_its_uploader_only_witness :
  exists (n : Z) (row : FileRecord) (w2 : World),
    jsonField "id" (body Sample.helloResponse) = Some (JNumber n)
    /\ userId row = reqUserId Sample.helloUpload /\ status row = uploaded
    /\ title row = bodyTitle Sample.helloUpload /\ extractedData row = None
    /\ getFileHandler SampleRoutes.uploadedAtOf SampleRoutes.bob
         (Text.decimal n) SampleRoutes.uploadedOne
       = (Returned
            (if userKey SampleRoutes.bob =? reqUserId Sample.helloUpload
             then mkResponse 200
                    (fileInformation SampleRoutes.uploadedAtOf row)
             else jsonError 403 "Access denied"),
          w2).
Proof.
  assert (Hup : uploadHandler Sample.helloUpload Sample.loadedFresh
                = (Returned Sample.helloResponse, SampleRoutes.uploadedOne))
    by (vm_compute; reflexivity).
  assert (Hsafe : Z.abs (nextFileId Sample.loadedFresh) < 9007199254740992)
    by (vm_compute; reflexivity).
  assert (Hstore : pendingFault SampleRoutes.uploadedOne = None)
    by (vm_compute; reflexivity).
  exact (uploaded_file_is_shown_to_its_uploader_only
           SampleRoutes.uploadedAtOf Sample.helloUpload Sample.loadedFresh
           SampleRoutes.uploadedOne Sample.helloResponse SampleRoutes.bob
           Hup eq_refl Hsafe Hstore).
Defined.

Lemma processed_upload_shows_its_digest_witness :
  exists (res : ProcessResult) (w2 w3 : World) (answer : Response),
    processor Sample.helloJob SampleRoutes.uploadedOne = (Returned res, w2)
    /\ hash res = sha256Hex (list_byte_of_string "hello world")
    /\ size res = Z.of_nat (length (list_byte_of_string "hello world"))
    /\ getFileHandler SampleRoutes.uploadedAtOf SampleRoutes.ann
         (Text.decimal (nextFileId Sample.loadedFresh)) w2
       = (Returned answer, w3)
    /\ statusCode answer = 200
    /\ jsonField "status" (body answer) = Some (JString "processed")
    /\ jsonField "extractedData" (body answer) = Some (resultJson res).
Proof.
  assert (Hup : uploadHandler Sample.helloUpload Sample.loadedFresh
                = (Returned Sample.helloResponse, SampleRoutes.uploadedOne))
    by (vm_compute; reflexivity).
  assert (Hdisk : disk Sample.loadedFresh
                    (path (mkUploaded "hello.txt" "uploads/hello.txt"))
                  = ReadOk (list_byte_of_string "hello world"))
    by (vm_compute; reflexivity).
  assert (Hfaults : faults SampleRoutes.uploadedOne = [])
    by (vm_compute; reflexivity).
  assert (Hsafe : Z.abs (nextFileId Sample.loadedFresh) < 9007199254740992)
    by (vm_compute; reflexivity).
  assert (Hjob : data Sample.helloJob
                 = mkJobData (nextFileId Sample.loadedFresh)
                     (path (mkUploaded "hello.txt" "uploads/hello.txt")))
    by (vm_compute; reflexivity).
  exact (processed_upload_shows_its_digest SampleRoutes.uploadedAtOf
           Sample.helloUpload Sample.loadedFresh SampleRoutes.uploadedOne
           Sample.helloResponse (mkUploaded "hello.txt" "uploads/hello.txt")
           (list_byte_of_string "hello world") Sample.helloJob SampleRoutes.ann
           Hup eq_refl eq_refl Hdisk Hfaults Hsafe Hjob eq_refl).
Defined.

Lemma upload_route_creates_rows_for_the_token_user_witness :
  (uploadRoute SampleRoutes.jwtVerify SampleRoutes.users
     (Some "Bearer token-of-ann")
     (Some (mkUploaded "hello.txt" "uploads/hello.txt")) (Some "greeting")
     None SampleStore.redisDownThird).1
  = Returned (jsonError 500 "Error uploading file")
  /\ table SampleStore.redisDownThird !! 1 = None
  /\ exists (token : string) (decoded : Decoded) (u : User)
            (f : UploadedFile),
      Some "Bearer token-of-ann" = Some ("Bearer " ++ token)%string
      /\ SampleRoutes.jwtVerify token = Returned decoded
      /\ decodedUserId decoded = Some (userKey u)
      /\ In u SampleRoutes.users
      /\ Some (mkUploaded "hello.txt" "uploads/hello.txt") = Some f
      /\ 1 = nextFileId SampleStore.redisDownThird
      /\ mkFile 1 7 "hello.txt" "uploads/hello.txt" (Some "greeting") None
           uploaded None
         = mkFile (nextFileId SampleStore.redisDownThird) (userKey u)
             (originalname f) (path f) (Some "greeting") None uploaded None.
Proof.
  assert (Hrun : uploadRoute SampleRoutes.jwtVerify SampleRoutes.users
                   (Some "Bearer token-of-ann")
                   (Some (mkUploaded "hello.txt" "uploads/hello.txt"))
                   (Some "greeting") None SampleStore.redisDownThird
                 = (Returned (jsonError 500 "Error uploading file"),
                    (uploadRoute SampleRoutes.jwtVerify SampleRoutes.users
                       (Some "Bearer token-of-ann")
                       (Some (mkUploaded "hello.txt" "uploads/hello.txt"))
                       (Some "greeting") None SampleStore.redisDownThird).2))
    by (vm_compute; reflexivity).
  assert (Hafter : table (uploadRoute SampleRoutes.jwtVerify SampleRoutes.users
                            (Some "Bearer token-of-ann")
                            (Some (mkUploaded "hello.txt" "uploads/hello.txt"))
                            (Some "greeting") None
                            SampleStore.redisDownThird).2 !! 1
                   = Some (mkFile 1 7 "hello.txt" "uploads/hello.txt"
                             (Some "greeting") None uploaded None))
    by (vm_compute; reflexivity).
  assert (Hnone : table SampleStore.redisDownThird !! 1 = None)
    by (vm_compute; reflexivity).
  assert (Hbefore : table SampleStore.redisDownThird !! 1
                    <> Some (mkFile 1 7 "hello.txt" "uploads/hello.txt"
                               (Some "greeting") None uploaded None))
    by (rewrite Hnone; discriminate).
  split; [rewrite Hrun; reflexivity|]. split; [exact Hnone|].
  destruct (upload_route_creates_rows_for_the_token_user SampleRoutes.jwtVerify
              SampleRoutes.users _ _ _ _ _ _ _ Hrun) as (Hrows & _).
  exact (Hrows 1 _ Hafter Hbefore).
Defined.

Lemma id_segment_is_read_up_to_its_digits_witness :
  getFileHandler SampleRoutes.uploadedAtOf SampleRoutes.bob
    (Text.decimal 1 ++ String "a"%char "bc") SampleRoutes.uploadedOne
  = getFileHandler SampleRoutes.uploadedAtOf SampleRoutes.bob
      (Text.decimal 1) SampleRoutes.uploadedOne.
Proof.
  assert (Hn : 0 < 1 < 9007199254740992) by lia.
  exact (id_segment_is_read_up_to_its_digits SampleRoutes.uploadedAtOf
           SampleRoutes.bob 1 "a"%char "bc" SampleRoutes.uploadedOne Hn eq_refl).
Defined.

Lemma failed_status_write_leaves_row_processing_witness :
  exists w',
    processor Sample.missingJob SampleRoutes.storeFailsSecondOfTwo
    = (Thrown (processingError (Sample.enoent "uploads/gone.txt")), w')
    /\ table w' !! fileId (data Sample.missingJob)
       = Some (mkFile 2 7 "gone.txt" "uploads/gone.txt" None None processing
                 None)
    /\ trace w'
       = trace SampleRoutes.storeFailsSecondOfTwo
           ++ [EvUpdate (fileId (data Sample.missingJob))
                 (mkUpdate processing None) true;
               EvConsoleError (failureLabel Sample.missingJob)
                 (processingError (Sample.enoent "uploads/gone.txt"));
               EvUpdate (fileId (data Sample.missingJob))
                 (mkUpdate failed
                    (Some (errorJson
                             (message
                                (processingError
                                   (Sample.enoent "uploads/gone.txt"))))))
                 false;
               EvConsoleError "Failed to update file status:"
                 (mkError "Can't reach database server")].
Proof.
  assert (Hrow : table SampleRoutes.storeFailsSecondOfTwo
                   !! fileId (data Sample.missingJob)
                 = Some (mkFile 2 7 "gone.txt" "uploads/gone.txt" None None
                           uploaded None))
    by (vm_compute; reflexivity).
  assert (Hdisk : disk SampleRoutes.storeFailsSecondOfTwo
                    (filePath (data Sample.missingJob))
                  = ReadFail (Sample.enoent "uploads/gone.txt"))
    by (vm_compute; reflexivity).
  assert (Hfaults : faults SampleRoutes.storeFailsSecondOfTwo
                    = [None; Some (mkError "Can't reach database server")])
    by (vm_compute; reflexivity).
  exact (failed_status_write_leaves_row_processing Sample.missingJob
           SampleRoutes.storeFailsSecondOfTwo
           (mkFile 2 7 "gone.txt" "uploads/gone.txt" None None uploaded None)
           (Sample.enoent "uploads/gone.txt")
           (mkError "Can't reach database server") [] Hrow Hdisk Hfaults).
Defined.

Lemma file_route_shows_rows_of_the_token_user_only_witness :
  exists (token : string) (decoded : Decoded) (k : Z) (file : FileRecord),
    Some "Bearer token-of-ann" = Some ("Bearer " ++ token)%string
    /\ SampleRoutes.jwtVerify token = Returned decoded
    /\ Js.parseInt "1" = Js.Num k
    /\ table SampleRoutes.uploadedOne !! k = Some file
    /\ decodedUserId decoded = Some (userId file)
    /\ SampleRoutes.helloInformation
       = fileInformation SampleRoutes.uploadedAtOf file.
Proof.
  assert (H : getFileRoute SampleRoutes.jwtVerify SampleRoutes.users
                SampleRoutes.uploadedAtOf (Some "Bearer token-of-ann") "1"
                SampleRoutes.uploadedOne
              = (Returned (mkResponse 200 SampleRoutes.helloInformation),
                 (getFileRoute SampleRoutes.jwtVerify SampleRoutes.users
                    SampleRoutes.uploadedAtOf (Some "Bearer token-of-ann") "1"
                    SampleRoutes.uploadedOne).2))
    by (vm_compute; reflexivity).
  exact (file_route_shows_rows_of_the_token_user_only SampleRoutes.jwtVerify
           SampleRoutes.users SampleRoutes.uploadedAtOf _ _ _ _ _ H eq_refl).
Defined.

Lemma attempt_writes_processing_before_reading_witness :
  exists (res : ProcessResult) (w' : World),
    processor Sample.helloJob SampleRoutes.uploadedOne = (Returned res, w')
    /\ trace w'
       = trace SampleRoutes.uploadedOne
           ++ [EvUpdate (fileId (data Sample.helloJob))
                 (mkUpdate processing None) true;
               EvUpdate (fileId (data Sample.helloJob))
                 (mkUpdate processed (Some (resultJson res))) true]
    /\ now w'
       = now SampleRoutes.uploadedOne
         + (if isTest SampleRoutes.uploadedOne then 100 else 2000)
    /\ processedAt res = Text.toISOString (now w')
    /\ faults w' = tail (tail (faults SampleRoutes.uploadedOne))
    /\ table w' !! fileId (data Sample.helloJob)
       = Some (mkFile 1 7 "hello.txt" "uploads/hello.txt" (Some "greeting")
                 None processed (Some (resultJson res))).
Proof.
  assert (Hrow : table SampleRoutes.uploadedOne
                   !! fileId (data Sample.helloJob)
                 = Some (mkFile 1 7 "hello.txt" "uploads/hello.txt"
                           (Some "greeting") None uploaded None))
    by (vm_compute; reflexivity).
  assert (Hdisk : disk SampleRoutes.uploadedOne
                    (filePath (data Sample.helloJob))
                  = ReadOk (list_byte_of_string "hello world"))
    by (vm_compute; reflexivity).
  assert (Hfirst : pendingFault SampleRoutes.uploadedOne = None)
    by (vm_compute; reflexivity).
  assert (Hsecond : pendingFault
                      (withFaults (tail (faults SampleRoutes.uploadedOne))
                         SampleRoutes.uploadedOne) = None)
    by (vm_compute; reflexivity).
  destruct (attempt_writes_processing_before_reading Sample.helloJob
              SampleRoutes.uploadedOne
              (mkFile 1 7 "hello.txt" "uploads/hello.txt" (Some "greeting")
                 None uploaded None) Hrow) as (_ & Hok).
  destruct (Hok Hfirst) as (_ & Hread).
  exact (Hread (list_byte_of_string "hello world") Hdisk Hsecond).
Defined.
